(** * Peekafood: the response reconciliation pipeline

    A shallow embedding of the server action [getCalorieBreakdown] and of
    its helpers ([validateFoodImage], [processGeminiResponse],
    [validateJsonFormat], [findConsensusResult],
    [findConsensusResultWithModel], [findConsensusResultFallback]), with
    the properties of the design document stated against it; and, with
    them, the earlier copy of the action that the repository keeps and the
    part of the page that calls the action ([handleSubmit] and
    [fileToBase64]).

    Conventions of the embedding.
    - Text is a [string]: one character per UTF-16 code unit, for the code
      units below 256.
    - A number is the rational it denotes ([Q]); rounding to a double is
      not modelled.
    - A value parsed from JSON is a [value], whatever its shape: the type
      annotations of the source are not checked when the code runs. An
      absent property ([undefined]) is [None].
    - An exception is a [Thrown] outcome. The model collaborator is the
      sequence of its replies, indexed by the number of calls made so far;
      the prompts, which only the collaborator reads, are not built.
    - An async function is a step [M]; a promise returned without [await]
      is handed over as it is and settles outside the [try] that returned
      it.
    - The reducer changes a candidate in place: it returns the index of the
      object in [results] together with [results] after the change.
    - Where JavaScript would convert a value that has not the declared
      type (an [assumptionsMade] that is no string, a [confidenceScore]
      that is no number), the conversion is a parameter of the pipeline. *)

From Stdlib Require Import String Ascii List QArith Lia Bool Arith DecimalString.
From stdpp Require Import base list.
Import ListNotations.

Local Open Scope string_scope.
Local Open Scope list_scope.
Local Open Scope nat_scope.

(* ===================================================================== *)
(** * Text *)
(* ===================================================================== *)

Module Text.

(** The double quote character (code unit 34). *)
Definition dquote : ascii := ascii_of_nat 34.

(** [quoted s] is [s] with every apostrophe read as a double quote: JSON
    texts are written [quoted "{'a': 1}"] below. *)
Fixpoint quoted (s : string) : string :=
  match s with
  | EmptyString => EmptyString
  | String c s' => String (if Ascii.eqb c "'" then dquote else c) (quoted s')
  end.

(** White space of [\s] and of [String.prototype.trim]: TAB, LF, VT, FF,
    CR, SP and NBSP (the members below 256). *)
Definition is_space (c : ascii) : bool :=
  let n := nat_of_ascii c in
  ((9 <=? n) && (n <=? 13)) || (n =? 32) || (n =? 160).

Fixpoint trimStart (s : string) : string :=
  match s with
  | EmptyString => EmptyString
  | String c s' => if is_space c then trimStart s' else s
  end.

(** [trimEnd] keeps a character when it is not white space or when
    something remains after it. *)
Fixpoint trimEnd (s : string) : string :=
  match s with
  | EmptyString => EmptyString
  | String c s' =>
      match trimEnd s' with
      | EmptyString => if is_space c then EmptyString else String c EmptyString
      | t => String c t
      end
  end.

(** [String.prototype.trim]. *)
Definition trim (s : string) : string := trimEnd (trimStart s).

(** [String.prototype.toLowerCase] on one code unit: A-Z, and the
    capitals of the Latin-1 block (192-222 but 215), move down by 32. *)
Definition lower_char (c : ascii) : ascii :=
  let n := nat_of_ascii c in
  if ((65 <=? n) && (n <=? 90))
     || ((192 <=? n) && (n <=? 222) && negb (n =? 215))
  then ascii_of_nat (n + 32) else c.

Fixpoint toLowerCase (s : string) : string :=
  match s with
  | EmptyString => EmptyString
  | String c s' => String (lower_char c) (toLowerCase s')
  end.

Fixpoint rev_string (s acc : string) : string :=
  match s with
  | EmptyString => acc
  | String c s' => rev_string s' (String c acc)
  end.

(** [String.prototype.endsWith]. *)
Definition endsWith (s suffix : string) : bool :=
  String.prefix (rev_string suffix EmptyString) (rev_string s EmptyString).

(** Decimal text of a count, as a template literal prints it. *)
Definition string_of_nat (n : nat) : string :=
  NilEmpty.string_of_uint (Nat.to_uint n).

End Text.
Import Text.

(* ===================================================================== *)
(** * Regular expressions

    The patterns of the source use literals, character classes, greedy
    repetition of a class, capturing groups that are not nested, and the
    end anchor. The matcher below is the backtracking matcher of
    JavaScript for that fragment: leftmost match, each repetition taking
    as much as it can and giving back one character at a time. *)
(* ===================================================================== *)

Module Regex.

Inductive atom : Type :=
| Lit (c : ascii)                 (* the character itself *)
| Cls (p : ascii -> bool)         (* [...] : one character of a class *)
| Many (p : ascii -> bool)        (* [...]* , greedy *)
| Many1 (p : ascii -> bool)       (* [...]+ , greedy *)
| End.                            (* $ (no m flag: end of input) *)

Inductive item : Type :=
| A (a : atom)                    (* outside any group *)
| G (body : list atom).           (* ( ... ) : a capturing group *)

Definition pattern := list item.

(** A replacement text: literal pieces and [$n] references. *)
Inductive piece : Type :=
| Txt (s : string)
| Ref (n : nat).

Definition atoms_of (p : pattern) : list atom :=
  flat_map (fun i => match i with A a => [a] | G body => body end) p.

(** Greedy repetition of the class [p], followed by [k]: the longest run
    first, then one character less, until [k] accepts what follows. The
    first text of the result is the run. *)
Fixpoint greedy (p : ascii -> bool) (k : string -> option (list string * string))
  (s : string) : option (list string * string) :=
  let stop :=
    match k s with
    | Some (ts, rest) => Some (EmptyString :: ts, rest)
    | None => None
    end in
  match s with
  | String d s' =>
      if p d then
        match greedy p k s' with
        | Some (t :: ts, rest) => Some (String d t :: ts, rest)
        | _ => stop
        end
      else stop
  | EmptyString => stop
  end.

(** [match_here ats s] matches the atoms at the start of [s]; it gives the
    text each atom matched and the rest of the input. *)
Fixpoint match_here (ats : list atom) (s : string) {struct ats}
  : option (list string * string) :=
  match ats with
  | [] => Some ([], s)
  | Lit c :: r =>
      match s with
      | String d s' =>
          if Ascii.eqb c d then
            match match_here r s' with
            | Some (ts, rest) => Some (String d EmptyString :: ts, rest)
            | None => None
            end
          else None
      | EmptyString => None
      end
  | Cls p :: r =>
      match s with
      | String d s' =>
          if p d then
            match match_here r s' with
            | Some (ts, rest) => Some (String d EmptyString :: ts, rest)
            | None => None
            end
          else None
      | EmptyString => None
      end
  | End :: r =>
      match s with
      | EmptyString =>
          match match_here r s with
          | Some (ts, rest) => Some (EmptyString :: ts, rest)
          | None => None
          end
      | String _ _ => None
      end
  | Many p :: r => greedy p (match_here r) s
  | Many1 p :: r =>
      match s with
      | String d s' =>
          if p d then
            match greedy p (match_here r) s' with
            | Some (t :: ts, rest) => Some (String d t :: ts, rest)
            | _ => None
            end
          else None
      | EmptyString => None
      end
  end.

(** The texts of the capturing groups, from the texts of the atoms. *)
Fixpoint groups (p : pattern) (texts : list string) : list string :=
  match p with
  | [] => []
  | A _ :: p' => groups p' (skipn 1 texts)
  | G body :: p' =>
      String.concat EmptyString (firstn (length body) texts)
        :: groups p' (skipn (length body) texts)
  end.

Record found := { whole : string; captures : list string; rest : string }.

Definition match_at (p : pattern) (s : string) : option found :=
  match match_here (atoms_of p) s with
  | Some (texts, r) =>
      Some {| whole := String.concat EmptyString texts;
              captures := groups p texts;
              rest := r |}
  | None => None
  end.

(** [str.match(re)] without the g flag: the text of the leftmost match. *)
Fixpoint search (p : pattern) (s : string) : option string :=
  match match_at p s with
  | Some f => Some (whole f)
  | None =>
      match s with
      | String _ s' => search p s'
      | EmptyString => None
      end
  end.

Definition expand (tmpl : list piece) (caps : list string) : string :=
  String.concat EmptyString
    (map (fun pc => match pc with
                    | Txt s => s
                    | Ref n => nth (n - 1) caps EmptyString
                    end) tmpl).

(** [str.replace(re, tmpl)] with the g flag. [skip] counts the characters
    of the current match still to be passed over; after an empty match the
    next character is copied and the scan moves on by one. *)
Fixpoint replace_from (p : pattern) (tmpl : list piece) (skip : nat) (s : string)
  : string :=
  match skip, s with
  | S k, String _ s' => replace_from p tmpl k s'
  | S _, EmptyString => EmptyString
  | O, String c s' =>
      match match_at p s with
      | Some f =>
          (expand tmpl (captures f) ++
             match String.length (whole f) with
             | O => String c (replace_from p tmpl 0 s')
             | S k => replace_from p tmpl k s'
             end)%string
      | None => String c (replace_from p tmpl 0 s')
      end
  | O, EmptyString =>
      match match_at p EmptyString with
      | Some f => expand tmpl (captures f)
      | None => EmptyString
      end
  end.

Definition replace_all (p : pattern) (tmpl : list piece) (s : string) : string :=
  replace_from p tmpl 0 s.

Definition lits (s : string) : list atom := map Lit (list_ascii_of_string s).

Definition one_of (set : string) (c : ascii) : bool :=
  existsb (Ascii.eqb c) (list_ascii_of_string set).

Definition none_of (set : string) (c : ascii) : bool := negb (one_of set c).

Definition any (c : ascii) : bool := true.

End Regex.
Import Regex.

(* ===================================================================== *)
(** * The cleanup steps of processGeminiResponse

    In the comments of this part the patterns are quoted from the source
    with D written for the double quote character. *)
(* ===================================================================== *)

Definition dq : string := String dquote EmptyString.

(** [/```json\s*/g] *)
Definition re_fence_open : pattern :=
  map A (lits "```json") ++ [A (Many is_space)].

(** [/```\s*$/g] *)
Definition re_fence_close : pattern :=
  map A (lits "```") ++ [A (Many is_space); A End].

(** [/\{[\s\S]*\}/] *)
Definition re_braces : pattern :=
  [A (Lit "{"); A (Many any); A (Lit "}")].

(** [/(D[^D]*D)\s*[^,:{\[\]\}]+([:,\{\[\]\}])/g] *)
Definition re_interleaved : pattern :=
  [G [Lit dquote; Many (none_of dq); Lit dquote];
   A (Many is_space);
   A (Many1 (none_of ",:{[]}"));
   G [Cls (one_of ":,{[]}")]].

(** [/D([^D]+)D,(\s*[\},\]])/g] *)
Definition re_missing_value_close : pattern :=
  [A (Lit dquote); G [Many1 (none_of dq)]; A (Lit dquote); A (Lit ",");
   G [Many is_space; Cls (one_of "},]")]].

(** [/D([^D]+)D,(\s*D)/g] *)
Definition re_missing_value_key : pattern :=
  [A (Lit dquote); G [Many1 (none_of dq)]; A (Lit dquote); A (Lit ",");
   G [Many is_space; Lit dquote]].

(** [/,(\s*[\}\]])/g] *)
Definition re_trailing_comma : pattern :=
  [A (Lit ","); G [Many is_space; Cls (one_of "}]")]].

(** The replacement text [D$1D: 0,$2]. *)
Definition tmpl_default_zero : list piece :=
  [Txt dq; Ref 1; Txt dq; Txt ": 0,"; Ref 2].

(** Both fence replacements, shared with validateJsonFormat. *)
Definition strip_fences (s : string) : string :=
  replace_all re_fence_close [] (replace_all re_fence_open [] s).

(** [const m = s.match(/\{[\s\S]*\}/); if (m) s = m[0];] *)
Definition extract_braces (s : string) : string :=
  match search re_braces s with
  | Some m => m
  | None => s
  end.

Definition remove_interleaved (s : string) : string :=
  replace_all re_interleaved [Ref 1; Ref 2] s.

Definition patch_missing_values (s : string) : string :=
  replace_all re_missing_value_key tmpl_default_zero
    (replace_all re_missing_value_close tmpl_default_zero s).

Definition strip_trailing_commas (s : string) : string :=
  replace_all re_trailing_comma [Ref 1] s.

(** The text as it stands before the trailing-comma replacement. *)
Definition cleanup_before_trailing_commas (responseText : string) : string :=
  patch_missing_values
    (remove_interleaved (extract_braces (strip_fences responseText))).

(** [cleanedResponse] of processGeminiResponse, as sent on to
    validateJsonFormat. *)
Definition cleanup (responseText : string) : string :=
  strip_trailing_commas (cleanup_before_trailing_commas responseText).

(* ===================================================================== *)
(** * Values and exceptions *)
(* ===================================================================== *)

(** A value as [JSON.parse] builds it. An array is an object too: [named]
    holds the properties assigned to it by name (none after parsing). *)
#[warnings="-register-all"] Inductive value : Type :=
| VNull
| VBool (b : bool)
| VNum (n : Q)
| VStr (s : string)
| VArr (elems : list value) (named : list (string * value))
| VObj (props : list (string * value)).

Inductive exn : Type :=
| Error (message : string)     (* new Error(message) *)
| CallError                    (* whatever a failed model call throws *)
| SyntaxError                  (* JSON.parse on a text that is not JSON *)
| TypeError.                   (* a property of null or undefined, a call of a
                                  non-function, an assignment to a primitive *)

Inductive outcome (A : Type) : Type :=
| Returned (a : A)
| Thrown (e : exn).
Arguments Returned {A} a.
Arguments Thrown {A} e.

(** Sequencing of steps that may throw. *)
Definition obind {A B : Type} (o : outcome A) (f : A -> outcome B) : outcome B :=
  match o with
  | Returned a => f a
  | Thrown e => Thrown e
  end.

Notation "'let!' x ':=' c 'in' k" := (obind c (fun x => k))
  (at level 10, x name, c at level 100, k at level 200).

Fixpoint omap_list {A B : Type} (f : A -> outcome B) (l : list A) : outcome (list B) :=
  match l with
  | [] => Returned []
  | a :: l' =>
      let! b := f a in
      let! bs := omap_list f l' in
      Returned (b :: bs)
  end.

Fixpoint assoc (k : string) (props : list (string * value)) : option value :=
  match props with
  | [] => None
  | (k', v) :: rest => if String.eqb k k' then Some v else assoc k rest
  end.

(** An assignment keeps the place of a property that exists and appends a
    new one. *)
Fixpoint assoc_set (k : string) (v : value) (props : list (string * value))
  : list (string * value) :=
  match props with
  | [] => [(k, v)]
  | (k', v') :: rest =>
      if String.eqb k k' then (k, v) :: rest else (k', v') :: assoc_set k v rest
  end.

(** [v.k] for [v] other than null; [None] is undefined. The names the code
    reads (mealDescription, totalEstimatedCalories, items, itemName,
    calories, confidenceScore, assumptionsMade) are defined by no built-in
    prototype, so a primitive has none of them. *)
Definition get_prop (v : value) (k : string) : option value :=
  match v with
  | VObj props => assoc k props
  | VArr _ named => assoc k named
  | _ => None
  end.

(** [v.k], [v] possibly null or undefined. *)
Definition read_prop (v : option value) (k : string) : outcome (option value) :=
  match v with
  | None | Some VNull => Thrown TypeError
  | Some v => Returned (get_prop v k)
  end.

(** [v.k = x] in strict mode (a module is strict code). *)
Definition assign_prop (v : option value) (k : string) (x : value) : outcome value :=
  match v with
  | Some (VObj props) => Returned (VObj (assoc_set k x props))
  | Some (VArr elems named) => Returned (VArr elems (assoc_set k x named))
  | _ => Thrown TypeError
  end.

(** ToBoolean. *)
Definition truthy (v : value) : bool :=
  match v with
  | VNull => false
  | VBool b => b
  | VNum n => negb (Qeq_bool n 0)
  | VStr s => negb (String.eqb s EmptyString)
  | VArr _ _ | VObj _ => true
  end.

(** [v || d], [v] possibly undefined. *)
Definition or_else (v : option value) (d : value) : value :=
  match v with
  | Some x => if truthy x then x else d
  | None => d
  end.

(* ===================================================================== *)
(** * JSON.parse *)
(* ===================================================================== *)

Module JSON.

Definition is_ws (c : ascii) : bool :=
  let n := nat_of_ascii c in (n =? 32) || (n =? 9) || (n =? 10) || (n =? 13).

Fixpoint skip_ws (s : string) : string :=
  match s with
  | String c s' => if is_ws c then skip_ws s' else s
  | EmptyString => s
  end.

Definition digit_of (c : ascii) : option nat :=
  let n := nat_of_ascii c in
  if (48 <=? n) && (n <=? 57) then Some (n - 48) else None.

Definition hex_of (c : ascii) : option nat :=
  let n := nat_of_ascii c in
  if (48 <=? n) && (n <=? 57) then Some (n - 48)
  else if (65 <=? n) && (n <=? 70) then Some (n - 55)
  else if (97 <=? n) && (n <=? 102) then Some (n - 87)
  else None.

(** The digits at the start of [s]: their value after [acc], how many
    there are, and the rest. *)
Fixpoint digits (s : string) (acc : Z) (len : nat) : Z * nat * string :=
  match s with
  | String c s' =>
      match digit_of c with
      | Some d => digits s' (10 * acc + Z.of_nat d)%Z (S len)
      | None => (acc, len, s)
      end
  | EmptyString => (acc, len, s)
  end.

(** An escape sequence after the backslash. A [uXXXX] escape that names a
    code unit of 256 or more cannot be held by a [string]: such a text is
    outside the embedding, and it is refused here although [JSON.parse]
    accepts it. What is stated below of the value a text parses to is
    stated of [JSON_parse] on both sides. *)
Definition escape (s : string) : option (ascii * string) :=
  match s with
  | String c s' =>
      let n := nat_of_ascii c in
      if n =? 34 then Some (c, s')                         (* the quote    *)
      else if n =? 92 then Some (c, s')                    (* backslash    *)
      else if n =? 47 then Some (c, s')                    (* solidus      *)
      else if n =? 98 then Some (ascii_of_nat 8, s')       (* b            *)
      else if n =? 102 then Some (ascii_of_nat 12, s')     (* f            *)
      else if n =? 110 then Some (ascii_of_nat 10, s')     (* n            *)
      else if n =? 114 then Some (ascii_of_nat 13, s')     (* r            *)
      else if n =? 116 then Some (ascii_of_nat 9, s')      (* t            *)
      else if n =? 117 then                                (* uXXXX        *)
        match s' with
        | String h1 (String h2 (String h3 (String h4 r))) =>
            match hex_of h1, hex_of h2, hex_of h3, hex_of h4 with
            | Some a, Some b, Some c3, Some d =>
                if (a =? 0) && (b =? 0) then Some (ascii_of_nat (16 * c3 + d), r)
                else None
            | _, _, _, _ => None
            end
        | _ => None
        end
      else None
  | EmptyString => None
  end.

(** The characters of a string literal, after its opening quote. *)
Fixpoint string_body (fuel : nat) (s : string) : option (string * string) :=
  match fuel with
  | O => None
  | S f =>
      match s with
      | EmptyString => None
      | String c s' =>
          let n := nat_of_ascii c in
          if n =? 34 then Some (EmptyString, s')
          else if n =? 92 then
            match escape s' with
            | Some (d, r) =>
                match string_body f r with
                | Some (t, r') => Some (String d t, r')
                | None => None
                end
            | None => None
            end
          else if n <? 32 then None
          else
            match string_body f s' with
            | Some (t, r') => Some (String c t, r')
            | None => None
            end
      end
  end.

Definition pow10 (n : nat) : positive := Pos.pow 10 (Pos.of_nat n).

(** A number literal: [-]? int frac? exp?, with no leading zero. *)
Definition number (s : string) : option (Q * string) :=
  let '(neg, s1) :=
    match s with
    | String "-" r => (true, r)
    | _ => (false, s)
    end in
  let '(int, ilen, s2) := digits s1 0%Z 0 in
  let leading_zero :=
    match s1 with
    | String "0" _ => 1 <? ilen
    | _ => false
    end in
  if (ilen =? 0) || leading_zero then None else
  let frac :=
    match s2 with
    | String "." r =>
        let '(m, flen, s3) := digits r int 0 in
        if flen =? 0 then None else Some (m, flen, s3)
    | _ => Some (int, 0, s2)
    end in
  match frac with
  | None => None
  | Some (m, flen, s3) =>
      let exp :=
        match s3 with
        | String e r =>
            if Ascii.eqb e "e" || Ascii.eqb e "E" then
              let '(eneg, r1) :=
                match r with
                | String "-" r' => (true, r')
                | String "+" r' => (false, r')
                | _ => (false, r)
                end in
              let '(x, xlen, s4) := digits r1 0%Z 0 in
              if xlen =? 0 then None
              else Some ((if eneg then - x else x)%Z, s4)
            else Some (0%Z, s3)
        | EmptyString => Some (0%Z, s3)
        end in
      match exp with
      | None => None
      | Some (x, s4) =>
          let m' := (if neg then - m else m)%Z in
          let scale := (x - Z.of_nat flen)%Z in
          let n :=
            if (0 <=? scale)%Z then ((m' * 10 ^ scale)%Z # 1)%Q
            else (m' # Z.to_pos (10 ^ (- scale)))%Q in
          Some (n, s4)
      end
  end.

Definition literal (word : string) (v : value) (s : string) : option (value * string) :=
  if String.prefix word s
  then Some (v, String.substring (String.length word)
                  (String.length s - String.length word) s)
  else None.

(** One value at the start of [s] (white space already skipped), and the
    members of an array or of an object after the first. [fuel] bounds the
    number of characters read. *)
Fixpoint parse_value (fuel : nat) (s : string) : option (value * string) :=
  match fuel with
  | O => None
  | S f =>
      match s with
      | EmptyString => None
      | String c r =>
          let n := nat_of_ascii c in
          if n =? 123 then                                  (* { *)
            match skip_ws r with
            | String "}" r' => Some (VObj [], r')
            | r' => parse_members f [] r'
            end
          else if n =? 91 then                              (* [ *)
            match skip_ws r with
            | String "]" r' => Some (VArr [] [], r')
            | r' => parse_elements f [] r'
            end
          else if n =? 34 then
            match string_body (String.length r) r with
            | Some (t, r') => Some (VStr t, r')
            | None => None
            end
          else if n =? 116 then literal "true" (VBool true) s
          else if n =? 102 then literal "false" (VBool false) s
          else if n =? 110 then literal "null" VNull s
          else
            match number s with
            | Some (x, r') => Some (VNum x, r')
            | None => None
            end
      end
  end
with parse_elements (fuel : nat) (acc : list value) (s : string)
  : option (value * string) :=
  match fuel with
  | O => None
  | S f =>
      match parse_value f s with
      | Some (v, r) =>
          match skip_ws r with
          | String "," r' => parse_elements f (acc ++ [v]) (skip_ws r')
          | String "]" r' => Some (VArr (acc ++ [v]) [], r')
          | _ => None
          end
      | None => None
      end
  end
with parse_members (fuel : nat) (acc : list (string * value)) (s : string)
  : option (value * string) :=
  match fuel with
  | O => None
  | S f =>
      match s with
      | String c r =>
          if nat_of_ascii c =? 34 then
            match string_body (String.length r) r with
            | Some (k, r1) =>
                match skip_ws r1 with
                | String ":" r2 =>
                    match parse_value f (skip_ws r2) with
                    | Some (v, r3) =>
                        match skip_ws r3 with
                        | String "," r4 =>
                            parse_members f (assoc_set k v acc) (skip_ws r4)
                        | String "}" r4 => Some (VObj (assoc_set k v acc), r4)
                        | _ => None
                        end
                    | None => None
                    end
                | _ => None
                end
            | None => None
            end
          else None
      | EmptyString => None
      end
  end.

(** [JSON.parse(text)]; [None] is a SyntaxError. *)
Definition parse (text : string) : option value :=
  match parse_value (S (2 * String.length text)) (skip_ws text) with
  | Some (v, r) =>
      match skip_ws r with
      | EmptyString => Some v
      | _ => None
      end
  | None => None
  end.

End JSON.

Definition JSON_parse (text : string) : outcome value :=
  match JSON.parse text with
  | Some v => Returned v
  | None => Thrown SyntaxError
  end.

(* ===================================================================== *)
(** * Awaited steps

    The model collaborator is [model]: the reply to the call made when [n]
    calls have been made before it, [None] when that call (or reading its
    text) throws. A step takes the number of calls made so far and gives
    its outcome with the number of calls made after it. *)
(* ===================================================================== *)

Definition M (A : Type) : Type := nat -> outcome A * nat.

Definition ret {A : Type} (a : A) : M A := fun n => (Returned a, n).

Definition throw {A : Type} (e : exn) : M A := fun n => (Thrown e, n).

Definition bind {A B : Type} (m : M A) (f : A -> M B) : M B :=
  fun n =>
    match m n with
    | (Returned a, n') => f a n'
    | (Thrown e, n') => (Thrown e, n')
    end.

Notation "'await!' x ':=' c 'in' k" := (bind c (fun x => k))
  (at level 10, x name, c at level 100, k at level 200).

(** A step that makes no call. *)
Definition lift {A : Type} (o : outcome A) : M A := fun n => (o, n).

(** [try { body } catch (e) { handler }] *)
Definition try_catch {A : Type} (body : M A) (handler : exn -> M A) : M A :=
  fun n =>
    match body n with
    | (Returned a, n') => (Returned a, n')
    | (Thrown e, n') => handler e n'
    end.

(** What a [return] statement of an async function hands over: a value, or
    a promise that was not awaited. *)
Inductive returned : Type :=
| Value (v : value)
| Promise (p : M value).

(** The promise of the async function settles as the promise it returned. *)
Definition settle (r : returned) : M value :=
  match r with
  | Value v => ret v
  | Promise p => p
  end.

(* ===================================================================== *)
(** * The candidate type *)
(* ===================================================================== *)

Definition opt_is (p : value -> bool) (o : option value) : bool :=
  match o with
  | Some v => p v
  | None => true
  end.

Definition is_string (v : value) : bool :=
  match v with VStr _ => true | _ => false end.

Definition is_number (v : value) : bool :=
  match v with VNum _ => true | _ => false end.

(** The interface FoodItem of [@/types], which the sources keep after
    fileToBase64 in src/src/utils/imageUtils.ts: itemName and quantity
    are strings, calories a number, the three macronutrients optional
    numbers. *)
Definition is_FoodItem (v : value) : bool :=
  match v with
  | VObj props =>
      match assoc "itemName" props, assoc "quantity" props, assoc "calories" props with
      | Some (VStr _), Some (VStr _), Some (VNum _) =>
          opt_is is_number (assoc "protein_g" props)
          && opt_is is_number (assoc "carbs_g" props)
          && opt_is is_number (assoc "fat_g" props)
      | _, _, _ => false
      end
  | _ => false
  end.

(** The interface CalorieBreakdownResponse of [@/types], in the same
    place (AnalysisResult in the design document): an object whose six
    properties are all optional. The range 0 to 1 that the design document
    gives for a confidenceScore is no part of the interface and is checked
    nowhere: a number of any value is accepted. *)
Definition is_CalorieBreakdownResponse (v : value) : bool :=
  match v with
  | VObj props =>
      opt_is is_string (assoc "mealDescription" props)
      && opt_is is_number (assoc "totalEstimatedCalories" props)
      && opt_is (fun its => match its with
                            | VArr elems _ => forallb is_FoodItem elems
                            | _ => false
                            end) (assoc "items" props)
      && opt_is is_number (assoc "confidenceScore" props)
      && opt_is is_string (assoc "assumptionsMade" props)
      && opt_is is_string (assoc "error" props)
  | _ => false
  end.

(** What the reducer relies on in a candidate: it is an object; its
    [items], if there is one, is null or an array without a null element;
    its [confidenceScore], if there is one, is a number; and its
    [assumptionsMade], if there is one, is a string. Every value of the
    declared type is such a candidate ([typed_is_candidate]); so is one
    whose items give their calories as strings, as the prompt of the
    analysis asks for. *)
Definition is_null (v : value) : bool :=
  match v with VNull => true | _ => false end.

Definition is_candidate (v : value) : bool :=
  match v with
  | VObj props =>
      opt_is (fun items => match items with
                           | VNull => true
                           | VArr elems _ =>
                               forallb (fun item => negb (is_null item)) elems
                           | _ => false
                           end) (assoc "items" props)
      && opt_is is_number (assoc "confidenceScore" props)
      && opt_is is_string (assoc "assumptionsMade" props)
  | _ => false
  end.

(* ===================================================================== *)
(** * The signature of a candidate *)
(* ===================================================================== *)

(** [{ itemName: item.itemName, calories: item.calories }] *)
Record simplifiedItem : Type := {
  s_itemName : option value;
  s_calories : option value
}.

(** [simplifiedResult] of findConsensusResultFallback. *)
Record simplifiedResult : Type := {
  s_mealDescription : option value;
  s_totalEstimatedCalories : option value;
  s_items : option (list simplifiedItem)
}.

(** [JSON.stringify] gives two values the same text: serialisation has
    one text per value, so texts are compared through the values. The
    properties of an object are taken in the order of the parsed text, a
    number by its value, the named properties of an array not at all. *)
Fixpoint same_json (a b : value) {struct a} : bool :=
  match a, b with
  | VNull, VNull => true
  | VBool x, VBool y => Bool.eqb x y
  | VNum x, VNum y => Qeq_bool x y
  | VStr x, VStr y => String.eqb x y
  | VArr xs _, VArr ys _ =>
      (fix all2 (xs ys : list value) : bool :=
         match xs, ys with
         | [], [] => true
         | x :: xs', y :: ys' => same_json x y && all2 xs' ys'
         | _, _ => false
         end) xs ys
  | VObj ps, VObj qs =>
      (fix all2 (ps qs : list (string * value)) : bool :=
         match ps, qs with
         | [], [] => true
         | (k, x) :: ps', (k', y) :: qs' =>
             String.eqb k k' && same_json x y && all2 ps' qs'
         | _, _ => false
         end) ps qs
  | _, _ => false
  end.

(** A property that is undefined is left out of the text. *)
Definition same_opt {A : Type} (eq : A -> A -> bool) (a b : option A) : bool :=
  match a, b with
  | Some x, Some y => eq x y
  | None, None => true
  | _, _ => false
  end.

Fixpoint same_list {A : Type} (eq : A -> A -> bool) (a b : list A) : bool :=
  match a, b with
  | [], [] => true
  | x :: a', y :: b' => eq x y && same_list eq a' b'
  | _, _ => false
  end.

Definition same_item (a b : simplifiedItem) : bool :=
  same_opt same_json (s_itemName a) (s_itemName b)
  && same_opt same_json (s_calories a) (s_calories b).

(** [resultKey] of one candidate equals [resultKey] of another. *)
Definition same_key (a b : simplifiedResult) : bool :=
  same_opt same_json (s_mealDescription a) (s_mealDescription b)
  && same_opt same_json (s_totalEstimatedCalories a) (s_totalEstimatedCalories b)
  && same_opt (same_list same_item) (s_items a) (s_items b).

(** [result.items?.map(item => ({ itemName: ..., calories: ... }))]:
    undefined for items that is undefined or null; a TypeError for items
    that is no array (it has no function [map]) and for an element that is
    null. *)
Definition simplify_item (item : value) : outcome simplifiedItem :=
  let! name := read_prop (Some item) "itemName" in
  let! cal := read_prop (Some item) "calories" in
  Returned {| s_itemName := name; s_calories := cal |}.

Definition simplify_items (items : option value) : outcome (option (list simplifiedItem)) :=
  match items with
  | None | Some VNull => Returned None
  | Some (VArr elems _) =>
      let! l := omap_list simplify_item elems in
      Returned (Some l)
  | Some _ => Thrown TypeError
  end.

Definition simplify (result : value) : outcome simplifiedResult :=
  let! md := read_prop (Some result) "mealDescription" in
  let! total := read_prop (Some result) "totalEstimatedCalories" in
  let! items := read_prop (Some result) "items" in
  let! items' := simplify_items items in
  Returned {| s_mealDescription := md;
              s_totalEstimatedCalories := total;
              s_items := items' |}.

(** An entry of [resultCounts]. [result] is a reference to a candidate:
    its index in [results]. *)
Record countEntry : Type := {
  key : simplifiedResult;
  count : nat;
  result : nat
}.

(** [if (resultCounts.has(k)) resultCounts.get(k).count++;
     else resultCounts.set(k, { count: 1, result })]; the entries stay in
    the order of their insertion. *)
Fixpoint count_in (k : simplifiedResult) (i : nat) (counts : list countEntry)
  : list countEntry :=
  match counts with
  | [] => [{| key := k; count := 1; result := i |}]
  | e :: rest =>
      if same_key (key e) k
      then {| key := key e; count := S (count e); result := result e |} :: rest
      else e :: count_in k i rest
  end.

(** The first loop over [results], from index [i] on. *)
Fixpoint count_results (results : list value) (i : nat) (counts : list countEntry)
  : outcome (list countEntry) :=
  match results with
  | [] => Returned counts
  | r :: rest =>
      let! k := simplify r in
      count_results rest (S i) (count_in k i counts)
  end.

(** The loop over [resultCounts.entries()]: [(maxCount, consensusResult)]. *)
Fixpoint most_frequent (counts : list countEntry) (maxCount : nat)
  (consensusResult : option nat) : nat * option nat :=
  match counts with
  | [] => (maxCount, consensusResult)
  | e :: rest =>
      if maxCount <? count e
      then most_frequent rest (count e) (Some (result e))
      else most_frequent rest maxCount consensusResult
  end.

(** The consensus note that both reducers append. *)
Definition fallback_note (maxCount total : nat) : string :=
  (" (Based on consensus from " ++ string_of_nat maxCount ++ "/"
     ++ string_of_nat total ++ " analyses)")%string.

Definition model_note (total : nat) : string :=
  (" (Consensus generated from " ++ string_of_nat total
     ++ " analyses using AI)")%string.

Definition error_result (message : string) : value :=
  VObj [("error", VStr message);
        ("totalEstimatedCalories", VNum 0);
        ("items", VArr [] [])].

Definition not_food_result : value :=
  error_result "The uploaded image does not appear to be a food or meal photo. Please upload an image of your meal.".

Definition no_valid_result : value :=
  error_result "Failed to get any valid calorie breakdown from AI after multiple attempts.".

Definition generic_failure_result : value :=
  error_result "Failed to get calorie breakdown from AI. Please try again later.".

Definition NUM_ANALYSES : nat := 5.

(** The stand-ins given to the two conversion parameters of the pipeline
    where a run is evaluated on sample data: those runs reach no
    conversion and give the same result under any other choice
    ([sample_runs_convert_nothing]). *)
Definition no_ToString : value -> outcome string :=
  fun _ => Thrown (Error "conversion to text outside the examples").

Definition no_gt : value -> value -> outcome bool :=
  fun _ _ => Thrown (Error "comparison outside the examples").

(** The object a reducer returns: the candidate at the returned index of
    the array as the reducer left it. *)
Definition candidate_at (r : nat * list value) : value :=
  match snd r !! fst r with
  | Some v => v
  | None => VNull
  end.

(* ===================================================================== *)
(** * The pipeline *)
(* ===================================================================== *)

Section Pipeline.

(** The implicit conversions of JavaScript on a value that has not the
    declared type: the text of an [assumptionsMade] that is truthy and no
    string, and the comparison [a > b] of two confidence scores that are
    not both numbers. Either may throw. *)
Variable ToString_other : value -> outcome string.
Variable gt_other : value -> value -> outcome bool.

(** [process.env.GEMINI_API_KEY] *)
Variable apiKey : option string.

(** [model.generateContent(...)] followed by [response.text()]. *)
Variable model : nat -> option string.

Definition ToString (v : value) : outcome string :=
  match v with
  | VStr s => Returned s
  | _ => ToString_other v
  end.

Definition js_gt (a b : value) : outcome bool :=
  match a, b with
  | VNum x, VNum y => Returned (negb (Qle_bool x y))
  | _, _ => gt_other a b
  end.

(** The loop of the tie-break, from index [i] on:
    [const confidence = result.confidenceScore || 0;
     if (confidence > highestConfidence) { ... }] *)
Fixpoint most_confident (results : list value) (i : nat)
  (highestConfidence : value) (consensusResult : option nat)
  : outcome (option nat) :=
  match results with
  | [] => Returned consensusResult
  | r :: rest =>
      let! c := read_prop (Some r) "confidenceScore" in
      let confidence := or_else c (VNum 0) in
      let! higher := js_gt confidence highestConfidence in
      if higher
      then most_confident rest (S i) confidence (Some i)
      else most_confident rest (S i) highestConfidence consensusResult
  end.

(** findConsensusResultFallback. The result is the index in [results] of
    the object returned, with [results] as the assignment to
    [assumptionsMade] leaves it: the object is changed in place. *)
Definition findConsensusResultFallback (results : list value)
  : outcome (nat * list value) :=
  let! resultCounts := count_results results 0 [] in
  let '(maxCount, first) :=
    most_frequent resultCounts 0
      (match results with [] => None | _ :: _ => Some 0 end) in
  let! consensusResult :=
    (if maxCount =? 1
     then most_confident results 0 (VNum 0) first
     else Returned first) in
  let target :=
    match consensusResult with
    | Some i => results !! i
    | None => None
    end in
  let! old := read_prop target "assumptionsMade" in
  let! text := ToString (or_else old (VStr EmptyString)) in
  let! updated :=
    assign_prop target "assumptionsMade"
      (VStr (trim (text ++ fallback_note maxCount (length results)))) in
  match consensusResult with
  | Some i => Returned (i, <[i := updated]> results)
  | None => Thrown TypeError
  end.

Definition generateContent : M string :=
  fun n =>
    match model n with
    | Some text => (Returned text, S n)
    | None => (Thrown CallError, S n)
    end.

(** validateFoodImage *)
Definition validateFoodImage (imageDataBase64 mimeType : string) : M bool :=
  try_catch
    (await! text := generateContent in
     let validationResponse := toLowerCase (trim text) in
     ret (String.eqb validationResponse "true"))
    (fun _ => ret true).

(** validateJsonFormat *)
Definition validateJsonFormat (response : string) : M value :=
  try_catch
    (await! validationResponse := generateContent in
     let cleanedValidation := extract_braces (strip_fences validationResponse) in
     try_catch
       (lift (JSON_parse cleanedValidation))
       (fun _ => lift (JSON_parse response)))
    (fun _ => lift (JSON_parse response)).

(** processGeminiResponse; [VNull] is the [null] of a discarded sample. *)
Definition processGeminiResponse (responseText : string) : M value :=
  try_catch
    (let cleanedResponse := cleanup responseText in
     try_catch
       (validateJsonFormat cleanedResponse)
       (fun _ => ret VNull))
    (fun _ => ret VNull).

(** [processedResponse.assumptionsMade =
      `${processedResponse.assumptionsMade || ''} (...)`.trim()] *)
Definition annotate (target : option value) (note : string) : outcome value :=
  let! old := read_prop target "assumptionsMade" in
  let! text := ToString (or_else old (VStr EmptyString)) in
  assign_prop target "assumptionsMade" (VStr (trim (text ++ note))).

Definition fallback_result (results : list value) : outcome value :=
  let! r := findConsensusResultFallback results in
  Returned (candidate_at r).

(** findConsensusResultWithModel. [JSON.stringify(results, null, 2)] only
    feeds the prompt and does not throw on parsed values. *)
Definition findConsensusResultWithModel (results : list value) : M value :=
  try_catch
    (await! responseText := generateContent in
     await! processedResponse := processGeminiResponse responseText in
     if truthy processedResponse
     then lift (annotate (Some processedResponse) (model_note (length results)))
     else lift (fallback_result results))
    (fun _ => lift (fallback_result results)).

(** [!apiKey] *)
Definition key_missing : bool :=
  match apiKey with
  | None => true
  | Some k => String.eqb k EmptyString
  end.

(** findConsensusResult *)
Definition findConsensusResult (results : list value) : M value :=
  if length results =? 1 then
    match results !! 0 with
    | Some r => ret r
    | None => ret VNull
    end
  else if key_missing then lift (fallback_result results)
  else findConsensusResultWithModel results.

(** One turn of the sampling loop. *)
Definition analysis_attempt (analysisResults : list value) : M (list value) :=
  try_catch
    (await! responseText := generateContent in
     await! processedResponse := processGeminiResponse responseText in
     if truthy processedResponse
     then ret (analysisResults ++ [processedResponse])
     else ret analysisResults)
    (fun _ => ret analysisResults).

(** [for (let i = 0; i < NUM_ANALYSES; i++) { try { ... } catch { ... } }],
    with [turns] turns left. *)
Fixpoint sampling_loop (turns : nat) (analysisResults : list value)
  : M (list value) :=
  match turns with
  | O => ret analysisResults
  | S k =>
      await! analysisResults' := analysis_attempt analysisResults in
      sampling_loop k analysisResults'
  end.

(** The body of the [try] of getCalorieBreakdown. Building the client and
    the model object makes no call and does not throw. The last [return]
    hands over the promise of findConsensusResult without awaiting it. *)
Definition breakdown_body (imageDataBase64 mimeType mealContext : string)
  : M returned :=
  if key_missing
  then throw (Error "GEMINI_API_KEY is not defined in environment variables")
  else
    await! isFood := validateFoodImage imageDataBase64 mimeType in
    if negb isFood then ret (Value not_food_result)
    else
      await! analysisResults := sampling_loop NUM_ANALYSES [] in
      if length analysisResults =? 0 then ret (Value no_valid_result)
      else ret (Promise (findConsensusResult analysisResults)).

(** getCalorieBreakdown: the [catch] covers what is thrown while the body
    runs; a promise that the body returned settles outside it. *)
Definition getCalorieBreakdown (imageDataBase64 mimeType mealContext : string)
  : M value :=
  await! r :=
    try_catch
      (breakdown_body imageDataBase64 mimeType mealContext)
      (fun _ => ret (Value generic_failure_result)) in
  settle r.

End Pipeline.

(* ===================================================================== *)
(** * Notions used by the statements *)
(* ===================================================================== *)

(** A collaborator that gives the scripted replies in turn and fails once
    the script is over. *)
Definition script (replies : list (option string)) : nat -> option string :=
  fun n => match replies !! n with Some r => r | None => None end.

(** Two candidates have the same signature: the Map of the fallback
    reducer files them under one key. *)
Definition same_signature (a b : value) : bool :=
  match simplify a, simplify b with
  | Returned x, Returned y => same_key x y
  | _, _ => false
  end.

(** [confidenceScore], an absent score being 0. *)
Definition confidence_of (v : value) : Q :=
  match get_prop v "confidenceScore" with
  | Some (VNum x) => x
  | _ => 0
  end.

(** [confidenceScore], an absent or a negative score being 0. *)
Definition nonneg_confidence_of (v : value) : Q :=
  if Qle_bool (confidence_of v) 0 then 0 else confidence_of v.

(** The text of [assumptionsMade], empty when the property is absent. *)
Definition assumptions_of (v : value) : string :=
  match get_prop v "assumptionsMade" with
  | Some (VStr s) => s
  | _ => EmptyString
  end.

(** [x] with the consensus note of the fallback reducer appended to its
    [assumptionsMade]: what the assignment at the end of the reducer makes
    of a candidate object. *)
Definition noted (x : value) (maxCount total : nat) : value :=
  match x with
  | VObj props =>
      VObj (assoc_set "assumptionsMade"
              (VStr (trim (assumptions_of x ++ fallback_note maxCount total)))
              props)
  | _ => x
  end.

(** Of three candidates exactly two have the same signature. *)
Definition exactly_two_agree (a b c : value) : bool :=
  (same_signature a b && negb (same_signature a c) && negb (same_signature b c))
  || (same_signature a c && negb (same_signature a b) && negb (same_signature b c))
  || (same_signature b c && negb (same_signature a b) && negb (same_signature a c)).

(** Every element of [results] is a candidate the reducer can read. *)
Definition all_candidates (results : list value) : Prop :=
  Forall (fun v => is_candidate v = true) results.

(** Every [confidenceScore] is in the range the design document gives it,
    0 to 1, an absent score counting as 0. *)
Definition scores_in_range (results : list value) : Prop :=
  forall y, y ∈ results -> (0 <= confidence_of y)%Q /\ (confidence_of y <= 1)%Q.

(** No two candidates have the same signature. *)
Definition all_differ (results : list value) : Prop :=
  forall i j x y,
    i < j -> results !! i = Some x -> results !! j = Some y ->
    same_signature x y = false.


(** [v] is [reply] with at most its [assumptionsMade] rewritten. *)
Definition same_but_assumptions (v reply : value) : Prop :=
  forall k, k <> "assumptionsMade" -> get_prop v k = get_prop reply k.


(** [m] never throws. *)
Definition never_throws {A : Type} (m : M A) : Prop :=
  forall n, exists a n', m n = (Returned a, n').

Module Samples.

Definition rice : value :=
  VObj [("itemName", VStr "rice"); ("quantity", VStr "1 cup");
        ("calories", VNum 200)].

Definition rice_bowl : value :=
  VObj [("mealDescription", VStr "rice bowl");
        ("totalEstimatedCalories", VNum 200);
        ("items", VArr [rice] []);
        ("confidenceScore", VNum (4 # 5))].

Definition rice_bowl_again : value :=
  VObj [("mealDescription", VStr "rice bowl");
        ("totalEstimatedCalories", VNum 200);
        ("items", VArr [rice] []);
        ("confidenceScore", VNum (1 # 2));
        ("assumptionsMade", VStr "one cup")].

Definition salad : value :=
  VObj [("mealDescription", VStr "salad");
        ("totalEstimatedCalories", VNum 90);
        ("items", VArr [] []);
        ("confidenceScore", VNum (9 # 10))].

(** Two candidates with scores below zero. *)
Definition doubtful_rice : value :=
  VObj [("mealDescription", VStr "rice"); ("confidenceScore", VNum (- (1)))].

Definition doubtful_salad : value :=
  VObj [("mealDescription", VStr "salad"); ("confidenceScore", VNum (- (1 # 2)))].

(** Two more candidates: one with the score of the salad, one without a
    score. *)
Definition soup : value :=
  VObj [("mealDescription", VStr "soup");
        ("totalEstimatedCalories", VNum 150);
        ("confidenceScore", VNum (9 # 10))].

Definition toast : value :=
  VObj [("mealDescription", VStr "toast");
        ("totalEstimatedCalories", VNum 120)].

(** A reply without [items], and one whose [items] is no array. *)
Definition reply_without_items : string := quoted "{'totalEstimatedCalories':5}".

Definition reply_items_object : string := quoted "{'items':{}}".

(** The gate says food; one sample is answered and validated; the other
    four calls fail. *)
Definition one_sample_without_items : nat -> option string :=
  script [Some "true"; Some reply_without_items; Some reply_without_items].

(** The gate says food; five samples are answered and validated with
    [items] an object; the call of the model-assisted merge fails. *)
Definition five_samples_items_object : nat -> option string :=
  script (Some "true" :: repeat (Some reply_items_object) 10).

(** The gate says no food. *)
Definition gate_says_no : nat -> option string := script [Some " False "].

(** The gate says food, in capitals and with spaces around. *)
Definition gate_says_yes : nat -> option string := script [Some " TRUE  "].

(** The gate says food and every later call fails. *)
Definition only_the_gate_answers : nat -> option string := script [Some "true"].

(** Replies with all the properties of a result. *)
Definition reply_rice_bowl : string :=
  quoted "{'mealDescription':'rice bowl','totalEstimatedCalories':200,'items':[{'itemName':'rice','quantity':'1 cup','calories':200}],'confidenceScore':0.8}".

Definition reply_salad : string :=
  quoted "{'mealDescription':'salad','totalEstimatedCalories':90,'items':[],'confidenceScore':0.9,'assumptionsMade':'no dressing'}".

(** The gate says food; two turns are answered and validated, with two
    different results; the other three turns fail, and so does the call
    of the model-assisted merge. *)
Definition two_samples_merge_fails : nat -> option string :=
  script [Some "true";
          Some reply_rice_bowl; Some reply_rice_bowl;
          Some reply_salad; Some reply_salad].

(** The gate says food; the first turn fails at its analysis call; the
    second is answered and validated; the third is answered with a text
    that is no JSON and its validation call fails; the fourth fails; the
    fifth is answered and validated. *)
Definition some_turns_fail : nat -> option string :=
  script [Some "true";
          None;
          Some reply_without_items; Some reply_without_items;
          Some "no json"; None;
          None;
          Some reply_without_items; Some reply_without_items].

End Samples.

(** The reply of the validation call, as validateJsonFormat reads it:
    what [JSON.parse] makes of it, fences and surroundings removed, or the
    exception of a call that failed. *)
Definition second_pass (model : nat -> option string) (n : nat) : outcome value :=
  match model n with
  | Some reply => JSON_parse (extract_braces (strip_fences reply))
  | None => Thrown CallError
  end.

(** What processGeminiResponse returns for [responseText] when [n] calls
    were made before its validation call. *)
Definition processed (model : nat -> option string) (responseText : string)
  (n : nat) : value :=
  match second_pass model n with
  | Returned v => v
  | Thrown _ =>
      match JSON_parse (cleanup responseText) with
      | Returned v => v
      | Thrown _ => VNull
      end
  end.

(** No [uXXXX] escape of the text names a code unit of 256 or more:
    wherever a backslash is followed by the letter u, the two hexadecimal
    digits after it are zeros. Such a text is inside the embedding
    ([JSON.escape]). *)
Fixpoint escapes_in_range (s : string) : bool :=
  match s with
  | EmptyString => true
  | String c rest =>
      (if Ascii.eqb c "\"
       then match rest with
            | String "u" (String h1 (String h2 _)) =>
                Ascii.eqb h1 "0" && Ascii.eqb h2 "0"
            | _ => true
            end
       else true)
      && escapes_in_range rest
  end.

(** From call [n0] on, the two texts that are parsed from a reply of the
    collaborator, the one validateJsonFormat extracts and the one
    processGeminiResponse cleans up, are inside the embedding. *)
Definition replies_in_range_from (model : nat -> option string) (n0 : nat) : Prop :=
  forall k text,
    n0 <= k ->
    model k = Some text ->
    escapes_in_range (extract_braces (strip_fences text)) = true /\
    escapes_in_range (cleanup text) = true.

(** The sample of the turn of the sampling loop that starts when [k]
    calls were made: what processGeminiResponse makes of the reply to the
    analysis call, when that call answers and the result is truthy. *)
Definition sample_of (model : nat -> option string) (k : nat) : option value :=
  match model k with
  | None => None
  | Some text =>
      if truthy (processed model text (S k))
      then Some (processed model text (S k))
      else None
  end.

(** The calls of that turn: the analysis call and, when it answers, the
    validation call. *)
Definition calls_of (model : nat -> option string) (k : nat) : nat :=
  match model k with
  | None => 1
  | Some _ => 2
  end.

(** The samples of [turns] turns in a row, the first starting when [k]
    calls were made, with the number of calls made after the last: each
    turn gives its sample or nothing, and the next turn starts after its
    calls. *)
Fixpoint batch (model : nat -> option string) (turns k : nat) : list value * nat :=
  match turns with
  | O => ([], k)
  | S later =>
      let rest := batch model later (k + calls_of model k) in
      (match sample_of model k with
       | Some v => v :: fst rest
       | None => fst rest
       end, snd rest)
  end.

(** The character [c] does not occur in [s]. *)
Fixpoint lacks (c : ascii) (s : string) : bool :=
  match s with
  | EmptyString => true
  | String d rest => negb (Ascii.eqb c d) && lacks c rest
  end.

(** The text is made of white space only. *)
Fixpoint all_space (s : string) : bool :=
  match s with
  | EmptyString => true
  | String c rest => is_space c && all_space rest
  end.

(** The text does not begin with white space. *)
Definition starts_without_space (s : string) : bool :=
  match s with
  | EmptyString => true
  | String c _ => negb (is_space c)
  end.

(** A character other than a control character, a double quote, a
    backslash, a comma, a colon, a brace, a bracket and a backtick; and a
    text made of such characters. *)
Definition is_plain (c : ascii) : bool :=
  none_of (String dquote "\,:{[]}`") c && negb (nat_of_ascii c <? 32).

Fixpoint plain (s : string) : bool :=
  match s with
  | EmptyString => true
  | String c rest => is_plain c && plain rest
  end.

(** The JSON text of an object with one property [k] whose value is the
    text [v], without white space; and that text cut after the opening
    quote of the value. *)
Definition one_pair (k v : string) : string :=
  String "{" (String dquote (k ++ String dquote (String ":" (String dquote
    (v ++ String dquote (String "}" EmptyString)))))).

Definition one_pair_cut (k : string) : string :=
  String "{" (String dquote (k ++ String dquote (String ":" (String dquote
    (String "}" EmptyString))))).

(** The reply to the merge call of findConsensusResultWithModel, made
    when [n] calls were made before it, gives the function nothing to put
    its note on: the call fails, or what processGeminiResponse makes of the
    reply is neither an object nor an array. *)
Definition merge_unusable (model : nat -> option string) (n : nat) : bool :=
  match model n with
  | None => true
  | Some text =>
      match processed model text (S n) with
      | VObj _ | VArr _ _ => false
      | _ => true
      end
  end.

(** The number of candidates of [results] that have the signature of [x]. *)
Definition occurrences (x : value) (results : list value) : nat :=
  length (List.filter (same_signature x) results).

(** The number of keys of [ks] that equal [k]. *)
Definition key_occurrences (k : simplifiedResult) (ks : list simplifiedResult) : nat :=
  length (List.filter (same_key k) ks).

(** What the first loop of the fallback reducer keeps true of
    [resultCounts], [pre] being the keys of the candidates seen so far:
    an entry holds the number of keys seen that equal its own and the
    index of the first of them; the entries have keys that differ, in the
    order of those indices; and every key seen has its entry. *)
Record counted (pre : list simplifiedResult) (counts : list countEntry) : Prop := {
  counted_count : forall p e,
    counts !! p = Some e -> count e = key_occurrences (key e) pre;
  counted_first : forall p e,
    counts !! p = Some e ->
    pre !! result e = Some (key e) /\
    forall j k, j < result e -> pre !! j = Some k -> same_key (key e) k = false;
  counted_distinct : forall p q e1 e2,
    p < q -> counts !! p = Some e1 -> counts !! q = Some e2 ->
    same_key (key e1) (key e2) = false /\ result e1 < result e2;
  counted_all : forall j k,
    pre !! j = Some k ->
    exists p e, counts !! p = Some e /\ same_key (key e) k = true
}.

(** Replies for a run of the model-assisted merge. *)
Module Merge_samples.

Definition merged_bowl : string :=
  quoted "{'mealDescription':'rice bowl','assumptionsMade':'one cup'}".

(** The merge call is answered, and so is the validation call, with the
    same text. *)
Definition merge_answered : nat -> option string :=
  script [Some merged_bowl; Some merged_bowl].

(** The merge call is answered with a number, and the validation call
    with the same number. *)
Definition merge_answers_a_number : nat -> option string :=
  script [Some "5"; Some "5"].

End Merge_samples.

(* ===================================================================== *)
(** * The page that calls the action

    HomePage keeps the image selected, the context typed and three pieces
    of state for the outcome: [isLoading], [calorieData] and [error]. Its
    handleSubmit reads the image with fileToBase64 and awaits the action.
    A setter of React replaces a piece of state; the state after the
    handler is what the setters called last have set. *)
(* ===================================================================== *)

Module HomePage.

(** A File as the page uses it: its [type], and what a FileReader makes of
    it with [readAsDataURL]: the data URL in [reader.result] when [onload]
    fires, or what [onerror] is called with. *)
Record File : Type := {
  type : string;
  readAsDataURL : outcome string
}.

(** [s.split(',')] *)
Fixpoint split_comma (s : string) : list string :=
  match s with
  | EmptyString => [EmptyString]
  | String c rest =>
      if Ascii.eqb c ","%char then EmptyString :: split_comma rest
      else match split_comma rest with
           | piece :: pieces => String c piece :: pieces
           | [] => [String c EmptyString]
           end
  end.

(** fileToBase64: [resolve(reader.result.split(',')[1])], [None] being
    undefined; [reject(error)] on [onerror]. *)
Definition fileToBase64 (file : File) : outcome (option string) :=
  let! dataURL := readAsDataURL file in
  Returned (split_comma dataURL !! 1).

(** The text has no comma. *)
Fixpoint no_comma (s : string) : bool :=
  match s with
  | EmptyString => true
  | String c rest => negb (Ascii.eqb c ","%char) && no_comma rest
  end.

Record state : Type := {
  selectedImage : option File;
  mealContext : string;
  isLoading : bool;
  calorieData : option value;
  error : option value
}.

Definition setIsLoading (b : bool) (s : state) : state :=
  {| selectedImage := selectedImage s; mealContext := mealContext s;
     isLoading := b; calorieData := calorieData s; error := error s |}.

Definition setCalorieData (d : option value) (s : state) : state :=
  {| selectedImage := selectedImage s; mealContext := mealContext s;
     isLoading := isLoading s; calorieData := d; error := error s |}.

Definition setError (e : option value) (s : state) : state :=
  {| selectedImage := selectedImage s; mealContext := mealContext s;
     isLoading := isLoading s; calorieData := calorieData s; error := e |}.

Definition failed_to_process : value :=
  VStr "Failed to process image. Please try again.".

(** handleSubmit, [action] being the awaited call of getCalorieBreakdown:
    what the promise of the server action settles to for the image data,
    the type of the image and the context (the user id handed over as a
    fourth argument is no parameter of the action). *)
Definition handleSubmit
  (action : option string -> string -> string -> outcome value) (s : state)
  : state :=
  match selectedImage s with
  | None => s
  | Some image =>
      let s := setCalorieData None (setError None (setIsLoading true s)) in
      let tried :=
        let! base64Content := fileToBase64 image in
        let! result := action base64Content (type image) (mealContext s) in
        let! result_error := read_prop (Some result) "error" in
        match result_error with
        | Some e =>
            if truthy e then Returned (setError (Some e) s)
            else Returned (setCalorieData (Some result) s)
        | None => Returned (setCalorieData (Some result) s)
        end in
      let s :=
        match tried with
        | Returned s' => s'
        | Thrown _ => setError (Some failed_to_process) s
        end in
      setIsLoading false s
  end.

End HomePage.

(* ===================================================================== *)
(** * The earlier copy of the action

    The second action file holds the action as it was before the gate and
    the model-assisted merge were added: getCalorieBreakdown goes from the
    key to the sampling loop, and findConsensusResult is a plain function
    whose body, after the test for a single result, is the body of
    findConsensusResultFallback. Its processGeminiResponse and
    validateJsonFormat are those of the first file. *)
(* ===================================================================== *)

Module Earlier.

Section Earlier_pipeline.

Variable ToString_other : value -> outcome string.
Variable gt_other : value -> value -> outcome bool.
Variable apiKey : option string.
Variable model : nat -> option string.

(** findConsensusResult of the earlier copy. *)
Definition findConsensusResult (results : list value) : outcome value :=
  if length results =? 1 then
    match results !! 0 with
    | Some r => Returned r
    | None => Returned VNull
    end
  else fallback_result ToString_other gt_other results.

(** getCalorieBreakdown of the earlier copy: the reducer is called, not
    awaited for, and what it throws is thrown inside the [try]. *)
Definition getCalorieBreakdown (imageDataBase64 mimeType mealContext : string)
  : M value :=
  try_catch
    (if key_missing apiKey
     then throw (Error "GEMINI_API_KEY is not defined in environment variables")
     else
       await! analysisResults := sampling_loop model NUM_ANALYSES [] in
       if length analysisResults =? 0 then ret no_valid_result
       else lift (findConsensusResult analysisResults))
    (fun _ => ret generic_failure_result).

End Earlier_pipeline.

End Earlier.

(* ===================================================================== *)
(** * Properties of the text operations *)
(* ===================================================================== *)

Section Text_lemmas.

Local Open Scope string_scope.

Lemma append_assoc (a b c : string) : (a ++ b) ++ c = a ++ (b ++ c).
Proof. induction a as [|x a IH]; simpl; [reflexivity | now rewrite IH]. Qed.

Lemma append_empty_r (a : string) : a ++ "" = a.
Proof. induction a as [|x a IH]; simpl; [reflexivity | now rewrite IH]. Qed.

Lemma trimEnd_app (s t : string) :
  trimEnd t <> "" -> trimEnd (s ++ t) = s ++ trimEnd t.
Proof.
  intros Ht. induction s as [|c s IH]; simpl; [reflexivity|].
  rewrite IH. destruct (s ++ trimEnd t) eqn:E; [|reflexivity].
  destruct s; simpl in E; [contradiction | discriminate].
Qed.

(** Leading white space apart, the text before a note stays in front of
    it. *)
Lemma trimStart_before (old body : string) (c : ascii) :
  is_space c = false ->
  exists p, trimStart (old ++ String " " (String c body)) = p ++ String c body.
Proof.
  intros Hc. induction old as [|x old IH]; simpl.
  - exists "". simpl. now rewrite Hc.
  - destruct (is_space x); [exact IH|].
    exists (String x old ++ " "). simpl. f_equal.
    now rewrite append_assoc.
Qed.

Lemma trim_keeps_note (old body : string) (c : ascii) :
  is_space c = false ->
  trimEnd (String c body) = String c body ->
  exists p, trim (old ++ String " " (String c body)) = p ++ String c body.
Proof.
  intros Hc Hend. unfold trim.
  destruct (trimStart_before old body c Hc) as [p Hp]. rewrite Hp.
  exists p. rewrite trimEnd_app; rewrite Hend; [reflexivity | discriminate].
Qed.

Lemma rev_string_acc (s acc : string) :
  rev_string s acc = rev_string s "" ++ acc.
Proof.
  revert acc. induction s as [|c s IH]; intros acc; simpl; [reflexivity|].
  rewrite (IH (String c acc)), (IH (String c "")).
  now rewrite append_assoc.
Qed.

Lemma rev_string_app (a b : string) :
  rev_string (a ++ b) "" = rev_string b "" ++ rev_string a "".
Proof.
  induction a as [|c a IH]; simpl.
  - now rewrite append_empty_r.
  - rewrite rev_string_acc, IH, (rev_string_acc a (String c "")).
    now rewrite append_assoc.
Qed.

Lemma prefix_app (a b : string) : String.prefix a (a ++ b) = true.
Proof.
  induction a as [|c a IH]; simpl; [now destruct b|].
  destruct (ascii_dec c c); [exact IH | contradiction].
Qed.

Lemma endsWith_app (p suffix : string) : endsWith (p ++ suffix) suffix = true.
Proof. unfold endsWith. rewrite rev_string_app. apply prefix_app. Qed.

End Text_lemmas.

(* ===================================================================== *)
(** * Properties of the cleanup steps *)
(* ===================================================================== *)

(** C7. The cleanup steps map the text [{'a': 1,}] to [{'a': 1}], and the
    fragment ['totalEstimatedCalories',}] stands as
    ['totalEstimatedCalories': 0,}] just before the trailing-comma
    replacement is applied (an apostrophe is written for a double quote,
    as [quoted] reads it). *)
Theorem cleanup_patches_commas :
  cleanup (quoted "{'a': 1,}") = quoted "{'a': 1}" /\
  cleanup_before_trailing_commas (quoted "'totalEstimatedCalories',}")
    = quoted "'totalEstimatedCalories': 0,}".
Proof. split; vm_compute; reflexivity. Qed.

(** C3, as the code has it: the valid minified text [{'a':'b'}] does not
    come back from the cleanup steps; it comes back as [{'a':'}], which is
    no JSON any more (an apostrophe is written for a double quote). The step at fault is the removal of interleaved text,
    whose pattern finds a quoted text from the closing quote of the key to
    the opening quote of the value. *)
Theorem cleanup_alters_valid_json :
  JSON_parse (quoted "{'a':'b'}") = Returned (VObj [("a", VStr "b")]) /\
  remove_interleaved (quoted "{'a':'b'}") = quoted "{'a':'}" /\
  cleanup (quoted "{'a':'b'}") = quoted "{'a':'}" /\
  JSON_parse (cleanup (quoted "{'a':'b'}")) = Thrown SyntaxError.
Proof. repeat split; vm_compute; reflexivity. Qed.

(** The patch of missing values alone alters valid JSON as well: a string
    followed by a comma is taken for a key without a value. *)
Lemma patch_alters_valid_json :
  JSON_parse (quoted "['a','b']") = Returned (VArr [VStr "a"; VStr "b"] []) /\
  patch_missing_values (quoted "['a','b']") = quoted "['a': 0,'b']".
Proof. split; vm_compute; reflexivity. Qed.

(* ===================================================================== *)
(** * Properties of the gate and of the sampler *)
(* ===================================================================== *)

Section Gate_and_sampler.

Variable ToString_other : value -> outcome string.
Variable gt_other : value -> value -> outcome bool.
Variable apiKey : option string.
Variable model : nat -> option string.

Lemma generateContent_calls (n : nat) :
  generateContent model n
  = (match model n with Some t => Returned t | None => Thrown CallError end, S n).
Proof. unfold generateContent. now destruct (model n). Qed.

(** The gate makes one call and always returns. *)
Lemma validateFoodImage_calls (imageDataBase64 mimeType : string) (n : nat) :
  validateFoodImage model imageDataBase64 mimeType n
  = (Returned match model n with
              | Some text => String.eqb (toLowerCase (trim text)) "true"
              | None => true
              end,
     S n).
Proof.
  unfold validateFoodImage, try_catch, bind.
  rewrite generateContent_calls. now destruct (model n).
Qed.

(** C6. The gate answers true exactly when the reply of its call, trimmed
    and then lower-cased, is the text true; and when its call throws, the
    gate does not throw and does not answer false: it answers true. *)
Theorem validateFoodImage_fails_open (imageDataBase64 mimeType : string) (n : nat) :
  (forall text,
      model n = Some text ->
      exists answer,
        validateFoodImage model imageDataBase64 mimeType n = (Returned answer, S n) /\
        (answer = true <-> toLowerCase (trim text) = "true")) /\
  (model n = None ->
   validateFoodImage model imageDataBase64 mimeType n = (Returned true, S n)).
Proof.
  rewrite validateFoodImage_calls. split.
  - intros text ->. eexists. split; [reflexivity|]. apply String.eqb_eq.
  - intros ->. reflexivity.
Qed.

(** C8. In a run whose gate answers false the result is the fixed
    not-a-food-photo object, error text, zero calories and an empty list
    of items; the call of the gate is the only call made. *)
Theorem gate_false_gives_not_food
  (imageDataBase64 mimeType mealContext : string) (n n1 : nat) :
  key_missing apiKey = false ->
  validateFoodImage model imageDataBase64 mimeType n = (Returned false, n1) ->
  getCalorieBreakdown ToString_other gt_other apiKey model
    imageDataBase64 mimeType mealContext n
  = (Returned
       (VObj [("error", VStr "The uploaded image does not appear to be a food or meal photo. Please upload an image of your meal.");
              ("totalEstimatedCalories", VNum 0);
              ("items", VArr [] [])]),
     S n).
Proof.
  intros Hkey Hgate.
  assert (n1 = S n) as ->.
  { rewrite validateFoodImage_calls in Hgate. now inversion Hgate. }
  unfold getCalorieBreakdown, breakdown_body, bind, try_catch.
  rewrite Hkey, Hgate. reflexivity.
Qed.

Lemma validateJsonFormat_calls (response : string) (n : nat) :
  snd (validateJsonFormat model response n) = S n.
Proof.
  unfold validateJsonFormat, try_catch, bind, lift.
  rewrite generateContent_calls.
  destruct (model n); simpl; [|reflexivity].
  destruct (JSON_parse (extract_braces _)); simpl; [reflexivity|].
  now destruct (JSON_parse response).
Qed.

(** processGeminiResponse never throws: a failure is the null result. *)
Lemma processGeminiResponse_returns (responseText : string) (n : nat) :
  exists v, processGeminiResponse model responseText n = (Returned v, S n).
Proof.
  unfold processGeminiResponse, try_catch, ret.
  pose proof (validateJsonFormat_calls (cleanup responseText) n) as Hn.
  destruct (validateJsonFormat model (cleanup responseText) n) as [[v|e] n'];
    simpl in Hn; subst n'; eauto.
Qed.

(** One turn of the loop: the call is made, the turn returns, and what was
    collected before is kept; a call that throws adds nothing. *)
Lemma analysis_attempt_returns (acc : list value) (n : nat) :
  exists acc' n',
    analysis_attempt model acc n = (Returned acc', n') /\
    n < n' /\
    (acc' = acc \/ exists v, truthy v = true /\ acc' = acc ++ [v]) /\
    (model n = None -> acc' = acc /\ n' = S n).
Proof.
  unfold analysis_attempt, try_catch, bind.
  rewrite generateContent_calls.
  destruct (model n) as [text|].
  - destruct (processGeminiResponse_returns text (S n)) as [v ->].
    destruct (truthy v) eqn:Hv; unfold ret.
    + exists (acc ++ [v]), (S (S n)).
      split; [reflexivity|]. split; [lia|]. split; [right; eauto | discriminate].
    + exists acc, (S (S n)).
      split; [reflexivity|]. split; [lia|]. split; [now left | discriminate].
  - exists acc, (S n). unfold ret.
    split; [reflexivity|]. split; [lia|]. split; [now left | now split].
Qed.

(** The loop takes all its turns: it returns, and one call at least was
    made for each turn. *)
Lemma sampling_loop_returns (turns : nat) (acc : list value) (n : nat) :
  exists results n',
    sampling_loop model turns acc n = (Returned results, n') /\
    n + turns <= n'.
Proof.
  revert acc n. induction turns as [|k IH]; intros acc n; simpl.
  - exists acc, n. unfold ret. split; [reflexivity | lia].
  - unfold bind.
    destruct (analysis_attempt_returns acc n) as (acc' & n1 & -> & Hlt & _).
    destruct (IH acc' n1) as (results & n2 & -> & Hle).
    exists results, n2. split; [reflexivity | lia].
Qed.

(** When every call fails from [n] on, nothing is collected. *)
Lemma sampling_loop_all_throw (turns : nat) (acc : list value) (n : nat) :
  (forall k, n <= k -> model k = None) ->
  sampling_loop model turns acc n = (Returned acc, n + turns).
Proof.
  revert n. induction turns as [|k IH]; intros n Hall; simpl.
  - unfold ret. f_equal. lia.
  - unfold bind.
    destruct (analysis_attempt_returns acc n) as (acc' & n1 & -> & _ & _ & Hnone).
    destruct (Hnone (Hall n (Nat.le_refl n))) as [-> ->].
    rewrite IH; [f_equal; lia|].
    intros j Hj. apply Hall. lia.
Qed.

(** With the key and an image the gate let through, a loop that collected
    nothing gives the fixed object of the failed attempts. *)
Lemma no_sample_gives_no_valid_result
  (imageDataBase64 mimeType mealContext : string) (n n1 n2 : nat) :
  key_missing apiKey = false ->
  validateFoodImage model imageDataBase64 mimeType n = (Returned true, n1) ->
  sampling_loop model NUM_ANALYSES [] n1 = (Returned [], n2) ->
  getCalorieBreakdown ToString_other gt_other apiKey model
    imageDataBase64 mimeType mealContext n = (Returned no_valid_result, n2).
Proof.
  intros Hkey Hgate Hloop.
  unfold getCalorieBreakdown, breakdown_body, bind, try_catch.
  rewrite Hkey, Hgate. change (negb true) with false. cbv beta iota.
  rewrite Hloop. reflexivity.
Qed.

End Gate_and_sampler.

(** Calls of C6: the reply TRUE with spaces around is read as true, the
    reply False as false, and a call that throws as true. *)
Lemma validateFoodImage_fails_open_witness :
  validateFoodImage Samples.gate_says_yes "image" "image/png" 0 = (Returned true, 1) /\
  validateFoodImage Samples.gate_says_no "image" "image/png" 0 = (Returned false, 1) /\
  validateFoodImage Samples.gate_says_no "image" "image/png" 1 = (Returned true, 2).
Proof.
  split; [|split].
  - destruct (proj1 (validateFoodImage_fails_open Samples.gate_says_yes
                       "image" "image/png" 0) " TRUE  " eq_refl)
      as (answer & -> & Hanswer).
    now rewrite (proj2 Hanswer eq_refl).
  - destruct (proj1 (validateFoodImage_fails_open Samples.gate_says_no
                       "image" "image/png" 0) " False " eq_refl)
      as (answer & -> & Hanswer).
    destruct answer; [|reflexivity].
    discriminate (proj1 Hanswer eq_refl).
  - exact (proj2 (validateFoodImage_fails_open Samples.gate_says_no
                    "image" "image/png" 1) eq_refl).
Defined.

(** A run of C8: the gate reads its reply as false and the result is the
    not-a-food-photo object after one call. *)
Lemma gate_false_gives_not_food_witness :
  getCalorieBreakdown no_ToString no_gt (Some "key") Samples.gate_says_no
    "image" "image/png" "lunch" 0
  = (Returned not_food_result, 1).
Proof.
  apply (gate_false_gives_not_food no_ToString no_gt (Some "key")
           Samples.gate_says_no "image" "image/png" "lunch" 0 1);
    reflexivity.
Defined.

(* ===================================================================== *)
(** * What a step returns *)
(* ===================================================================== *)

Section Returns.

Context {A B : Type}.






End Returns.

(* ===================================================================== *)
(** * Properties and assignment *)
(* ===================================================================== *)

Lemma assoc_set_other (k k' : string) (x : value) (props : list (string * value)) :
  k' <> k -> assoc k' (assoc_set k x props) = assoc k' props.
Proof.
  intros Hne. induction props as [|[k0 v0] props IH]; simpl.
  - destruct (String.eqb_spec k' k); [contradiction | reflexivity].
  - destruct (String.eqb_spec k k0) as [->|Hk0]; simpl.
    + destruct (String.eqb_spec k' k0); [contradiction | reflexivity].
    + destruct (String.eqb_spec k' k0); [reflexivity | exact IH].
Qed.

Lemma assoc_set_same (k : string) (x : value) (props : list (string * value)) :
  assoc k (assoc_set k x props) = Some x.
Proof.
  induction props as [|[k0 v0] props IH]; simpl.
  - now rewrite String.eqb_refl.
  - destruct (String.eqb_spec k k0) as [->|Hk0]; simpl.
    + now rewrite String.eqb_refl.
    + destruct (String.eqb_spec k k0); [contradiction | exact IH].
Qed.


Section Reducer_frame.

Variable ToString_other : value -> outcome string.
Variable gt_other : value -> value -> outcome bool.


End Reducer_frame.

(* ===================================================================== *)
(** * Properties of getCalorieBreakdown *)
(* ===================================================================== *)

Section Whole_run.

Variable ToString_other : value -> outcome string.
Variable gt_other : value -> value -> outcome bool.
Variable apiKey : option string.
Variable model : nat -> option string.











(** X13. Without a key the run returns the fixed failure object: the error
    thrown at the entry is caught. *)
Lemma missing_key_gives_failure (imageDataBase64 mimeType mealContext : string) (n : nat) :
  key_missing apiKey = true ->
  getCalorieBreakdown ToString_other gt_other apiKey model
    imageDataBase64 mimeType mealContext n
  = (Returned generic_failure_result, n).
Proof.
  intros Hkey. unfold getCalorieBreakdown, breakdown_body, bind, try_catch.
  now rewrite Hkey.
Qed.

(** What getCalorieBreakdown throws was thrown by the promise of
    findConsensusResult, which its body returned without awaiting it;
    nothing else gets past the [catch]. *)
Lemma rejection_is_of_the_promise
  (imageDataBase64 mimeType mealContext : string) (n n' : nat) (e : exn) :
  getCalorieBreakdown ToString_other gt_other apiKey model
    imageDataBase64 mimeType mealContext n = (Thrown e, n') ->
  exists results n1,
    breakdown_body ToString_other gt_other apiKey model
      imageDataBase64 mimeType mealContext n
    = (Returned (Promise (findConsensusResult ToString_other gt_other apiKey model results)), n1) /\
    findConsensusResult ToString_other gt_other apiKey model results n1 = (Thrown e, n').
Proof.
  unfold getCalorieBreakdown, bind, try_catch.
  destruct (breakdown_body _ _ _ _ _ _ _ n) as [[[v|p]|e0] n1] eqn:Hbody;
    simpl; try discriminate.
  intros Hp. revert Hbody.
  unfold breakdown_body, bind.
  destruct key_missing; [discriminate|].
  rewrite validateFoodImage_calls.
  destruct (match model n with Some _ => _ | None => _ end).
  - change (negb true) with false. cbv beta iota.
    destruct (sampling_loop model NUM_ANALYSES [] (S n)) as [[results|] n3];
      [|discriminate].
    destruct (length results =? 0); [discriminate|].
    intros H. inversion H; subst. eauto.
  - change (negb false) with true. cbv beta iota. discriminate.
Qed.

End Whole_run.

(** C9, as the code has it. The gate lets the image through, five samples
    are answered and validated with the text [{'items':{}}] (an apostrophe
    is written for a double quote), and the call of the model-assisted
    merge fails: the fallback reducer, run from inside the [catch] of
    findConsensusResultWithModel, throws a TypeError on [items.map], and
    getCalorieBreakdown, which returned that promise without awaiting it,
    throws it to its caller after twelve calls. *)
Theorem getCalorieBreakdown_rejects
  (ToString_other : value -> outcome string)
  (gt_other : value -> value -> outcome bool) :
  getCalorieBreakdown ToString_other gt_other (Some "key")
    Samples.five_samples_items_object "image" "image/png" "lunch" 0
  = (Thrown TypeError, 12).
Proof. vm_compute. reflexivity. Qed.



(* ===================================================================== *)
(** * Properties of the fallback reducer *)
(* ===================================================================== *)

Section Reducer.

Variable ToString_other : value -> outcome string.
Variable gt_other : value -> value -> outcome bool.

Local Abbreviation fallback := (findConsensusResultFallback ToString_other gt_other).

(** ** Candidates *)

Lemma typed_is_candidate (v : value) :
  is_CalorieBreakdownResponse v = true -> is_candidate v = true.
Proof.
  destruct v as [ | | | | |props]; try discriminate. simpl. intros H.
  repeat (apply andb_prop in H; destruct H as [H ?]).
  repeat (apply andb_true_intro; split); try assumption.
  destruct (assoc "items" props) as [[ | | | | elems named | ]|];
    simpl in *; try discriminate; try reflexivity.
  match goal with He : forallb is_FoodItem elems = true |- _ => revert He end.
  clear. induction elems as [|item elems IH]; simpl; [reflexivity|].
  intros He. apply andb_prop in He. destruct He as [Hitem He].
  rewrite (IH He). now destruct item.
Qed.

Lemma typed_is_object (v : value) :
  is_candidate v = true -> exists props, v = VObj props.
Proof. destruct v; try discriminate. eauto. Qed.

Lemma typed_elements (elems : list value) :
  forallb (fun item => negb (is_null item)) elems = true ->
  exists l, omap_list simplify_item elems = Returned l.
Proof.
  induction elems as [|item elems IH]; simpl; intros He; [eauto|].
  apply andb_prop in He. destruct He as [Hitem He].
  destruct (IH He) as [l ->].
  destruct item; try discriminate; simpl; eauto.
Qed.

Lemma typed_items (props : list (string * value)) :
  is_candidate (VObj props) = true ->
  exists l, simplify_items (assoc "items" props) = Returned l.
Proof.
  intros H. simpl in H.
  repeat (apply andb_prop in H; destruct H as [H ?]).
  unfold simplify_items.
  destruct (assoc "items" props) as [[ | | | | elems named | ]|];
    try discriminate; eauto.
  simpl in H. destruct (typed_elements elems H) as [l ->].
  simpl. eauto.
Qed.

Lemma typed_simplify (v : value) :
  is_candidate v = true -> exists k, simplify v = Returned k.
Proof.
  intros H. destruct (typed_is_object v H) as [props ->].
  destruct (typed_items props H) as [l Hl].
  unfold simplify. simpl. rewrite Hl. simpl. eauto.
Qed.

Lemma typed_assumptions (props : list (string * value)) :
  is_candidate (VObj props) = true ->
  ToString ToString_other (or_else (assoc "assumptionsMade" props) (VStr EmptyString))
  = Returned (assumptions_of (VObj props)).
Proof.
  simpl. intros H.
  repeat (apply andb_prop in H; destruct H as [H ?]).
  unfold assumptions_of. simpl.
  destruct (assoc "assumptionsMade" props) as [[ | | | s | | ]|];
    simpl in *; try discriminate; [|reflexivity].
  destruct (String.eqb_spec s EmptyString) as [->|]; reflexivity.
Qed.

Lemma typed_confidence (v : value) :
  is_candidate v = true ->
  exists y, or_else (get_prop v "confidenceScore") (VNum 0) = VNum y
            /\ (y == confidence_of v)%Q.
Proof.
  intros H. destruct (typed_is_object v H) as [props ->].
  simpl in H. repeat (apply andb_prop in H; destruct H as [H ?]).
  unfold confidence_of. simpl.
  destruct (assoc "confidenceScore" props) as [[ | | x | | | ]|];
    simpl in *; try discriminate.
  - destruct (Qeq_bool x 0) eqn:E; simpl.
    + exists 0%Q. split; [reflexivity|]. apply Qeq_bool_iff in E. now symmetry.
    + exists x. split; reflexivity.
  - exists 0%Q. split; reflexivity.
Qed.

(** ** The reducer, step by step *)

Lemma fallback_unfold (results : list value) (counts : list countEntry)
  (maxCount i : nat) (first : option nat) (props : list (string * value)) :
  count_results results 0 [] = Returned counts ->
  most_frequent counts 0 (match results with [] => None | _ :: _ => Some 0 end)
    = (maxCount, first) ->
  (if maxCount =? 1
   then most_confident gt_other results 0 (VNum 0) first
   else Returned first) = Returned (Some i) ->
  results !! i = Some (VObj props) ->
  is_candidate (VObj props) = true ->
  fallback results
  = Returned (i, <[i := noted (VObj props) maxCount (length results)]> results).
Proof.
  intros Hcounts Hfreq Hconf Hi Htyped.
  unfold findConsensusResultFallback.
  rewrite Hcounts. simpl. rewrite Hfreq, Hconf. simpl. rewrite Hi. simpl.
  rewrite (typed_assumptions props Htyped). reflexivity.
Qed.

(** ** The count of the signatures *)

Lemma count_results_typed (results : list value) :
  all_candidates results ->
  forall i counts,
    (forall e, e ∈ counts -> result e < i) ->
    exists counts',
      count_results results i counts = Returned counts' /\
      (forall e, e ∈ counts' -> result e < i + length results) /\
      (counts' = [] -> counts = [] /\ results = []).
Proof.
  induction 1 as [|r rest Hr _ IH]; intros i counts Hcounts; simpl.
  - exists counts. split; [reflexivity|]. split; [|auto].
    intros e He. specialize (Hcounts e He). lia.
  - destruct (typed_simplify r Hr) as [k ->]. simpl.
    assert (Hin : forall e, e ∈ count_in k i counts -> result e < S i).
    { clear -Hcounts. induction counts as [|e0 counts IHc]; simpl; intros e He.
      - apply list_elem_of_singleton in He. subst e. simpl. lia.
      - destruct (same_key (key e0) k).
        + apply elem_of_cons in He. destruct He as [->|He]; simpl.
          * specialize (Hcounts e0 ltac:(left)). lia.
          * specialize (Hcounts e ltac:(now right)). lia.
        + apply elem_of_cons in He. destruct He as [->|He].
          * specialize (Hcounts e0 ltac:(left)). lia.
          * apply IHc; [|exact He]. intros e' He'. apply Hcounts. now right. }
    destruct (IH (S i) (count_in k i counts) Hin) as (counts' & -> & Hlt & Hnil).
    exists counts'. split; [reflexivity|]. split.
    + intros e He. specialize (Hlt e He). lia.
    + intros ->. destruct (Hnil eq_refl) as [Hc _].
      destruct counts as [|e0 counts]; simpl in Hc; [discriminate|].
      destruct (same_key (key e0) k); discriminate.
Qed.

Lemma most_frequent_picks (counts : list countEntry) :
  forall maxCount first maxCount' first',
    most_frequent counts maxCount first = (maxCount', first') ->
    first' = first \/ exists e, e ∈ counts /\ first' = Some (result e).
Proof.
  induction counts as [|e counts IH]; simpl; intros m f m' f' H.
  - inversion H. now left.
  - destruct (m <? count e).
    + destruct (IH _ _ _ _ H) as [->|(e' & He' & ->)].
      * right. exists e. split; [left | reflexivity].
      * right. exists e'. split; [now right | reflexivity].
    + destruct (IH _ _ _ _ H) as [->|(e' & He' & ->)]; [now left|].
      right. exists e'. split; [now right | reflexivity].
Qed.

(** ** The tie-break *)

Lemma most_confident_typed (rest : list value) :
  all_candidates rest ->
  forall i h first,
    exists first' h',
      most_confident gt_other rest i (VNum h) first = Returned first' /\
      (forall r, r ∈ rest -> confidence_of r <= h')%Q /\
      (h <= h')%Q /\
      ((first' = first /\ (h' == h)%Q) \/
       (exists j r,
           first' = Some (i + j) /\ rest !! j = Some r /\
           (confidence_of r == h')%Q /\ (h < h')%Q /\
           forall j' r', j' < j -> rest !! j' = Some r' ->
                         (confidence_of r' < h')%Q)).
Proof.
  induction 1 as [|r rest Hr _ IH]; intros i h first.
  - exists first, h. split; [reflexivity|]. split.
    + intros r Hr. now apply elem_of_nil in Hr.
    + split; [apply Qle_refl | left; split; reflexivity].
  - destruct (typed_is_object r Hr) as [props Hprops].
    destruct (typed_confidence r Hr) as (y & Hy & Hyc).
    assert (Hread : read_prop (Some r) "confidenceScore"
                    = Returned (get_prop r "confidenceScore")) by now subst r.
    cbn [most_confident]. rewrite Hread. cbn [obind]. rewrite Hy.
    cbn [js_gt obind]. destruct (Qle_bool y h) eqn:Hle; cbn [negb].
    + apply Qle_bool_iff in Hle.
      destruct (IH (S i) h first) as (first' & h' & -> & Hall & Hh & Hcase).
      exists first', h'. split; [reflexivity|]. split; [|split; [exact Hh|]].
      * intros r0 Hr0. apply elem_of_cons in Hr0. destruct Hr0 as [->|Hr0]; [|auto].
        rewrite <- Hyc. now apply Qle_trans with h.
      * destruct Hcase as [Hsame|(j & r0 & -> & Hj & Hc & Hlt & Hbefore)]; [now left|].
        right. exists (S j), r0. split; [f_equal; lia|]. split; [exact Hj|].
        split; [exact Hc|]. split; [exact Hlt|].
        intros [|j'] r' Hj' Hr'; simpl in Hr'.
        -- inversion Hr'; subst r'. rewrite <- Hyc.
           now apply Qle_lt_trans with h.
        -- apply (Hbefore j'); [lia | exact Hr'].
    + assert (Hlt : (h < y)%Q).
      { apply Qnot_le_lt. intros Hc. apply Qle_bool_iff in Hc. congruence. }
      destruct (IH (S i) y (Some i)) as (first' & h' & -> & Hall & Hh & Hcase).
      exists first', h'. split; [reflexivity|]. split; [|split].
      * intros r0 Hr0. apply elem_of_cons in Hr0. destruct Hr0 as [->|Hr0]; [|auto].
        now rewrite <- Hyc.
      * apply Qlt_le_weak. now apply Qlt_le_trans with y.
      * right. destruct Hcase as [[-> Heq]|(j & r0 & -> & Hj & Hc & Hlt' & Hbefore)].
        -- exists 0, r. split; [f_equal; lia|]. split; [reflexivity|].
           split; [now rewrite <- Hyc, Heq|]. split; [now rewrite Heq|].
           intros j' r' Hj'. lia.
        -- exists (S j), r0. split; [f_equal; lia|]. split; [exact Hj|].
           split; [exact Hc|]. split; [now apply Qlt_trans with y|].
           intros [|j'] r' Hj' Hr'; simpl in Hr'.
           ++ inversion Hr'; subst r'. now rewrite <- Hyc.
           ++ apply (Hbefore j'); [lia | exact Hr'].
Qed.

(** ** The note *)

Lemma noted_frame (x : value) (maxCount total : nat) :
  same_but_assumptions (noted x maxCount total) x.
Proof.
  intros k Hk. destruct x; try reflexivity. simpl. now apply assoc_set_other.
Qed.

Lemma noted_assumptions (props : list (string * value)) (maxCount total : nat) :
  get_prop (noted (VObj props) maxCount total) "assumptionsMade"
  = Some (VStr (trim (assumptions_of (VObj props)
                        ++ fallback_note maxCount total))).
Proof. simpl. apply assoc_set_same. Qed.

Lemma noted_ends_with_2_of_3 (props : list (string * value)) :
  endsWith (assumptions_of (noted (VObj props) 2 3))
    "(Based on consensus from 2/3 analyses)" = true.
Proof.
  unfold assumptions_of at 1. rewrite noted_assumptions.
  change (fallback_note 2 3)
    with (String " " (String "(" "Based on consensus from 2/3 analyses)")).
  destruct (trim_keeps_note (assumptions_of (VObj props))
              "Based on consensus from 2/3 analyses)" "(" eq_refl eq_refl)
    as [p ->].
  apply endsWith_app.
Qed.

(** ** The reducer returns one of its candidates *)

Lemma fallback_typed_returns (results : list value) :
  results <> [] ->
  all_candidates results ->
  exists i x maxCount,
    results !! i = Some x /\
    fallback results
    = Returned (i, <[i := noted x maxCount (length results)]> results).
Proof.
  intros Hne Htyped.
  destruct (count_results_typed results Htyped 0 [])
    as (counts & Hcounts & Hlt & _).
  { intros e He. now apply elem_of_nil in He. }
  destruct (most_frequent counts 0 (match results with [] => None | _ :: _ => Some 0 end))
    as [maxCount first] eqn:Hfreq.
  assert (Hfirst : exists j, first = Some j /\ j < length results).
  { destruct (most_frequent_picks _ _ _ _ _ Hfreq) as [->|(e & He & ->)].
    - destruct results; [contradiction|]. exists 0. split; [reflexivity | simpl; lia].
    - exists (result e). split; [reflexivity | exact (Hlt e He)]. }
  destruct Hfirst as (j & -> & Hj).
  assert (Hcons : exists i,
    (if maxCount =? 1
     then most_confident gt_other results 0 (VNum 0) (Some j)
     else Returned (Some j)) = Returned (Some i) /\ i < length results).
  { destruct (maxCount =? 1); [|eauto].
    destruct (most_confident_typed results Htyped 0 0%Q (Some j))
      as (first' & h' & -> & _ & _ & [[-> _]|(j' & r & -> & Hj' & _)]); [eauto|].
    exists (0 + j'). split; [reflexivity|]. simpl.
    now apply lookup_lt_Some with r. }
  destruct Hcons as (i & Hcons & Hi).
  destruct (lookup_lt_is_Some_2 results i Hi) as [x Hx].
  assert (Hxt : is_candidate x = true).
  { unfold all_candidates in Htyped. rewrite Forall_lookup in Htyped. eauto. }
  destruct (typed_is_object x Hxt) as [props ->].
  exists i, (VObj props), maxCount. split; [exact Hx|].
  now apply (fallback_unfold results counts maxCount i (Some j) props).
Qed.

(** C10. Given two or more candidates ([is_candidate]: every value of the
    declared type is one), the fallback reducer returns one of the objects
    of [results], the one at the index it gives, changed in place: the
    other objects of the array are as they were, and the one returned
    differs from what it was in its [assumptionsMade] only, where the
    consensus note is appended; its mealDescription,
    totalEstimatedCalories, items, confidenceScore and error are those of
    the winning candidate. *)
Theorem fallback_returns_input_candidate (results : list value) :
  2 <= length results ->
  all_candidates results ->
  exists i x maxCount,
    results !! i = Some x /\
    fallback results
    = Returned (i, <[i := noted x maxCount (length results)]> results) /\
    candidate_at (i, <[i := noted x maxCount (length results)]> results)
    = noted x maxCount (length results) /\
    (forall j, j <> i ->
       <[i := noted x maxCount (length results)]> results !! j = results !! j) /\
    get_prop (noted x maxCount (length results)) "assumptionsMade"
    = Some (VStr (trim (assumptions_of x
                          ++ fallback_note maxCount (length results)))) /\
    Forall (fun k => get_prop (noted x maxCount (length results)) k = get_prop x k)
      ["mealDescription"; "totalEstimatedCalories"; "items";
       "confidenceScore"; "error"] /\
    same_but_assumptions (noted x maxCount (length results)) x.
Proof.
  intros Hlen Htyped.
  destruct (fallback_typed_returns results) as (i & x & maxCount & Hx & Hrun);
    [destruct results; [simpl in Hlen; lia | discriminate] | exact Htyped |].
  exists i, x, maxCount.
  assert (Hxt : is_candidate x = true).
  { unfold all_candidates in Htyped. rewrite Forall_lookup in Htyped. eauto. }
  destruct (typed_is_object x Hxt) as [props ->].
  split; [exact Hx|]. split; [exact Hrun|]. split; [|split; [|split; [|split]]].
  - unfold candidate_at. simpl. rewrite list_lookup_insert_eq; [reflexivity|].
    now apply lookup_lt_Some with (VObj props).
  - intros j Hj. now apply list_lookup_insert_ne.
  - apply noted_assumptions.
  - repeat constructor; apply noted_frame; discriminate.
  - apply noted_frame.
Qed.

(** ** Candidates that all differ *)

Lemma count_in_fresh (k : simplifiedResult) (i : nat) (counts : list countEntry) :
  (forall e, e ∈ counts -> same_key (key e) k = false) ->
  count_in k i counts = counts ++ [{| key := k; count := 1; result := i |}].
Proof.
  induction counts as [|e counts IH]; intros Hfresh; simpl; [reflexivity|].
  rewrite (Hfresh e ltac:(left)). f_equal. apply IH.
  intros e' He'. apply Hfresh. now right.
Qed.

Lemma same_signature_keys (x y : value) (kx ky : simplifiedResult) :
  simplify x = Returned kx -> simplify y = Returned ky ->
  same_signature x y = same_key kx ky.
Proof. intros Hx Hy. unfold same_signature. now rewrite Hx, Hy. Qed.

(** Each candidate opens an entry of its own, with count 1. *)
Lemma count_results_fresh (results : list value) :
  all_candidates results ->
  all_differ results ->
  forall i counts,
    (forall e r k, e ∈ counts -> r ∈ results -> simplify r = Returned k ->
                   same_key (key e) k = false) ->
    exists more,
      count_results results i counts = Returned (counts ++ more) /\
      (forall e, e ∈ more -> count e = 1).
Proof.
  induction 1 as [|r rest Hr _ IH]; intros Hdiff i counts Hfresh; simpl.
  - exists []. split; [now rewrite app_nil_r|].
    intros e He. now apply elem_of_nil in He.
  - destruct (typed_simplify r Hr) as [k Hk]. rewrite Hk. simpl.
    rewrite count_in_fresh.
    2:{ intros e He. apply (Hfresh e r k He); [left | exact Hk]. }
    destruct (IH ltac:(intros a b x y Hab Hx Hy;
                       apply (Hdiff (S a) (S b) x y); [lia | exact Hx | exact Hy])
                 (S i) (counts ++ [{| key := k; count := 1; result := i |}]))
      as (more & -> & Hones).
    { intros e r' k' He Hr' Hk'.
      apply elem_of_app in He. destruct He as [He|He].
      - apply (Hfresh e r' k' He); [now right | exact Hk'].
      - apply list_elem_of_singleton in He. subst e. simpl.
        apply list_elem_of_lookup in Hr'. destruct Hr' as [j Hj].
        rewrite <- (same_signature_keys r r' k k' Hk Hk').
        apply (Hdiff 0 (S j) r r'); [lia | reflexivity | exact Hj]. }
    exists ({| key := k; count := 1; result := i |} :: more).
    split; [now rewrite <- app_assoc|].
    intros e He. apply elem_of_cons in He. destruct He as [->|He]; [reflexivity | auto].
Qed.

Lemma most_frequent_ones (counts : list countEntry) (first : option nat) :
  (forall e, e ∈ counts -> count e = 1) ->
  most_frequent counts 1 first = (1, first).
Proof.
  induction counts as [|e counts IH]; intros Hones; simpl; [reflexivity|].
  rewrite (Hones e ltac:(left)). simpl. apply IH.
  intros e' He'. apply Hones. now right.
Qed.

Lemma nonneg_of_nonpositive (y : value) :
  (confidence_of y <= 0)%Q -> nonneg_confidence_of y = 0%Q.
Proof.
  intros H. unfold nonneg_confidence_of.
  apply Qle_bool_iff in H. now rewrite H.
Qed.

Lemma nonneg_of_positive (y : value) :
  (0 < confidence_of y)%Q -> nonneg_confidence_of y = confidence_of y.
Proof.
  intros H. unfold nonneg_confidence_of.
  destruct (Qle_bool (confidence_of y) 0) eqn:E; [|reflexivity].
  apply Qle_bool_iff in E. exfalso. exact (Qlt_not_le _ _ H E).
Qed.

Lemma nonneg_le (y : value) (h : Q) :
  (0 <= h)%Q -> (confidence_of y <= h)%Q -> (nonneg_confidence_of y <= h)%Q.
Proof.
  intros H0 Hy. unfold nonneg_confidence_of.
  now destruct (Qle_bool (confidence_of y) 0).
Qed.

Lemma nonneg_lt (y : value) (h : Q) :
  (0 < h)%Q -> (confidence_of y < h)%Q -> (nonneg_confidence_of y < h)%Q.
Proof.
  intros H0 Hy. unfold nonneg_confidence_of.
  now destruct (Qle_bool (confidence_of y) 0).
Qed.

(** The tie-break for any scores. When no two candidates ([is_candidate])
    have the same signature, the fallback reducer returns the candidate
    with the highest confidenceScore, an absent or a negative score being
    taken as 0, and the first-provided candidate among those that share
    the highest; the note it appends counts 1 of them. With no negative
    score among the candidates that is the highest confidenceScore, an
    absent score taken as 0. *)
Lemma tie_break_for_any_scores (results : list value) :
  results <> [] ->
  all_candidates results ->
  all_differ results ->
  exists i x,
    results !! i = Some x /\
    fallback results
    = Returned (i, <[i := noted x 1 (length results)]> results) /\
    (forall y, y ∈ results ->
               (nonneg_confidence_of y <= nonneg_confidence_of x)%Q) /\
    (forall j y, j < i -> results !! j = Some y ->
                 (nonneg_confidence_of y < nonneg_confidence_of x)%Q) /\
    ((forall y, y ∈ results -> (0 <= confidence_of y)%Q) ->
     (forall y, y ∈ results -> (confidence_of y <= confidence_of x)%Q) /\
     (forall j y, j < i -> results !! j = Some y ->
                  (confidence_of y < confidence_of x)%Q)).
Proof.
  intros Hne Htyped Hdiff.
  enough (exists i x,
    results !! i = Some x /\
    fallback results
    = Returned (i, <[i := noted x 1 (length results)]> results) /\
    (forall y, y ∈ results ->
               (nonneg_confidence_of y <= nonneg_confidence_of x)%Q) /\
    (forall j y, j < i -> results !! j = Some y ->
                 (nonneg_confidence_of y < nonneg_confidence_of x)%Q))
    as (i & x & Hx & Hrun & Hmax & Hfirst).
  { exists i, x. split; [exact Hx|]. split; [exact Hrun|].
    split; [exact Hmax|]. split; [exact Hfirst|].
    intros Hpos.
    assert (Hsame : forall y, y ∈ results ->
                              (nonneg_confidence_of y == confidence_of y)%Q).
    { intros y Hy. unfold nonneg_confidence_of.
      destruct (Qle_bool (confidence_of y) 0) eqn:E; [|reflexivity].
      apply Qle_bool_iff in E. apply Qle_antisym; [now apply Hpos | exact E]. }
    assert (Hxin : x ∈ results) by (apply list_elem_of_lookup; eauto).
    split.
    - intros y Hy. rewrite <- (Hsame y Hy), <- (Hsame x Hxin). now apply Hmax.
    - intros j y Hj Hy.
      assert (Hyin : y ∈ results) by (apply list_elem_of_lookup; eauto).
      rewrite <- (Hsame y Hyin), <- (Hsame x Hxin). now apply (Hfirst j). }
  destruct results as [|r0 rest]; [contradiction|].
  assert (Hr0 : is_candidate r0 = true) by now inversion Htyped.
  destruct (typed_simplify r0 Hr0) as [k0 Hk0].
  destruct (count_results_fresh (r0 :: rest) Htyped Hdiff 0 [])
    as (counts & Hcounts & Hones).
  { intros e r k He. now apply elem_of_nil in He. }
  simpl app in Hcounts.
  assert (Hfreq : most_frequent counts 0 (Some 0) = (1, Some 0)).
  { revert Hcounts Hones. simpl. rewrite Hk0. simpl. intros Hcounts Hones.
    destruct (count_results_fresh rest ltac:(now inversion Htyped)
                ltac:(intros a b x y Hab Hx Hy;
                      apply (Hdiff (S a) (S b) x y); [lia | exact Hx | exact Hy])
                1 [{| key := k0; count := 1; result := 0 |}])
      as (more & Hmore & Hones').
    { intros e r k He Hr Hk.
      apply list_elem_of_singleton in He. subst e. simpl.
      apply list_elem_of_lookup in Hr. destruct Hr as [j Hj].
      rewrite <- (same_signature_keys r0 r k0 k Hk0 Hk).
      apply (Hdiff 0 (S j) r0 r); [lia | reflexivity | exact Hj]. }
    rewrite Hmore in Hcounts. inversion Hcounts; subst counts.
    simpl. now apply most_frequent_ones. }
  destruct (most_confident_typed (r0 :: rest) Htyped 0 0%Q (Some 0))
    as (first' & h' & Hconf & Hall & Hh & Hcase).
  assert (Hx : forall i x, first' = Some i -> (r0 :: rest) !! i = Some x ->
    fallback (r0 :: rest)
    = Returned (i, <[i := noted x 1 (length (r0 :: rest))]> (r0 :: rest))).
  { intros i x -> Hi.
    assert (Hxt : is_candidate x = true).
    { unfold all_candidates in Htyped. rewrite Forall_lookup in Htyped. eauto. }
    destruct (typed_is_object x Hxt) as [props ->].
    now apply (fallback_unfold (r0 :: rest) counts 1 i (Some 0) props). }
  destruct Hcase as [[-> Hzero]|(j & r & -> & Hj & Hc & Hpos & Hbefore)].
  - exists 0, r0. split; [reflexivity|]. split; [now apply Hx|].
    assert (Hnp : forall y, y ∈ r0 :: rest -> nonneg_confidence_of y = 0%Q).
    { intros y Hy. apply nonneg_of_nonpositive. rewrite <- Hzero. now apply Hall. }
    split.
    + intros y Hy. rewrite (Hnp y Hy), (Hnp r0 ltac:(left)). apply Qle_refl.
    + intros j y Hj. lia.
  - exists (0 + j), r. split; [exact Hj|]. split; [now apply Hx|].
    assert (Hr : nonneg_confidence_of r = confidence_of r).
    { apply nonneg_of_positive. now rewrite Hc. }
    rewrite Hr. split.
    + intros y Hy. rewrite Hc. apply nonneg_le; [now apply Qlt_le_weak | now apply Hall].
    + intros j' y Hj' Hy. rewrite Hc.
      apply nonneg_lt; [exact Hpos | apply (Hbefore j' y); [simpl in Hj'; lia | exact Hy]].
Qed.

(** C2. When no two candidates ([is_candidate]) have the same signature,
    their scores being in the range 0 to 1 of the design document, the
    fallback reducer returns the candidate with the highest
    confidenceScore, an absent score being taken as 0: no candidate has a
    higher score than the one returned. When several candidates share the
    highest score the first-provided of them is returned: every candidate
    before the one returned has a lower score. The object returned is
    that candidate with the note 1/N appended to its [assumptionsMade]. *)
Theorem fallback_breaks_ties_by_confidence (results : list value) :
  results <> [] ->
  all_candidates results ->
  all_differ results ->
  scores_in_range results ->
  exists i x,
    results !! i = Some x /\
    fallback results
    = Returned (i, <[i := noted x 1 (length results)]> results) /\
    candidate_at (i, <[i := noted x 1 (length results)]> results)
    = noted x 1 (length results) /\
    (forall y, y ∈ results -> (confidence_of y <= confidence_of x)%Q) /\
    (forall j y, j < i -> results !! j = Some y ->
                 (confidence_of y < confidence_of x)%Q).
Proof.
  intros Hne Htyped Hdiff Hrange.
  destruct (tie_break_for_any_scores results Hne Htyped Hdiff)
    as (i & x & Hx & Hrun & _ & _ & Hscores).
  destruct Hscores as [Hmax Hfirst]; [intros y Hy; apply (Hrange y Hy)|].
  exists i, x. split; [exact Hx|]. split; [exact Hrun|].
  split; [|split; [exact Hmax | exact Hfirst]].
  unfold candidate_at. simpl. rewrite list_lookup_insert_eq; [reflexivity|].
  now apply lookup_lt_Some with x.
Qed.

(** ** Three candidates, two of which agree *)

(** C1, as the code has it. Given three candidates ([is_candidate]), two
    with the same signature and the third with another, the fallback
    reducer returns the first-provided of the two that agree, and the
    [assumptionsMade] of the object returned ends with the note, closing
    parenthesis included: (Based on consensus from 2/3 analyses). *)
Theorem fallback_two_of_three (a b c : value) :
  all_candidates [a; b; c] ->
  exactly_two_agree a b c = true ->
  exists i j x y,
    [a; b; c] !! i = Some x /\
    [a; b; c] !! j = Some y /\
    i < j /\
    same_signature x y = true /\
    fallback [a; b; c] = Returned (i, <[i := noted x 2 3]> [a; b; c]) /\
    candidate_at (i, <[i := noted x 2 3]> [a; b; c]) = noted x 2 3 /\
    same_but_assumptions (noted x 2 3) x /\
    endsWith (assumptions_of (noted x 2 3))
      "(Based on consensus from 2/3 analyses)" = true.
Proof.
  intros Htyped Htwo.
  assert (Ha : is_candidate a = true) by now inversion Htyped.
  assert (Hb : is_candidate b = true)
    by (inversion Htyped as [|? ? _ Ht]; now inversion Ht).
  assert (Hc : is_candidate c = true)
    by (inversion Htyped as [|? ? _ Ht]; inversion Ht as [|? ? _ Ht']; now inversion Ht').
  destruct (typed_simplify a Ha) as [ka Hka].
  destruct (typed_simplify b Hb) as [kb Hkb].
  destruct (typed_simplify c Hc) as [kc Hkc].
  destruct (typed_is_object a Ha) as [pa ->].
  destruct (typed_is_object b Hb) as [pb ->].
  destruct (typed_is_object c Hc) as [pc ->].
  unfold exactly_two_agree in Htwo.
  pose proof (same_signature_keys _ _ _ _ Hka Hkb) as Hab.
  pose proof (same_signature_keys _ _ _ _ Hka Hkc) as Hac.
  pose proof (same_signature_keys _ _ _ _ Hkb Hkc) as Hbc.
  assert (Hcount : count_results [VObj pa; VObj pb; VObj pc] 0 []
                   = Returned (count_in kc 2 (count_in kb 1 (count_in ka 0 [])))).
  { cbn [count_results]. rewrite Hka. cbn [obind]. rewrite Hkb. cbn [obind].
    rewrite Hkc. reflexivity. }
  assert (Hwin : exists i j x y props,
    [VObj pa; VObj pb; VObj pc] !! i = Some x /\
    [VObj pa; VObj pb; VObj pc] !! j = Some y /\
    i < j /\ same_signature x y = true /\ x = VObj props /\
    is_candidate (VObj props) = true /\
    most_frequent (count_in kc 2 (count_in kb 1 (count_in ka 0 []))) 0 (Some 0)
    = (2, Some i)).
  { destruct (same_key ka kb) eqn:Eab, (same_key ka kc) eqn:Eac,
      (same_key kb kc) eqn:Ebc;
      rewrite Hab, Hac, Hbc in Htwo; try discriminate Htwo.
    - exists 0, 1, (VObj pa), (VObj pb), pa.
      repeat (split; [first [reflexivity | lia | now rewrite Hab | exact Ha]|]).
      simpl. rewrite Eab. simpl. rewrite Eac. reflexivity.
    - exists 0, 2, (VObj pa), (VObj pc), pa.
      repeat (split; [first [reflexivity | lia | now rewrite Hac | exact Ha]|]).
      simpl. rewrite Eab. simpl. rewrite Eac. reflexivity.
    - exists 1, 2, (VObj pb), (VObj pc), pb.
      repeat (split; [first [reflexivity | lia | now rewrite Hbc | exact Hb]|]).
      simpl. rewrite Eab. simpl. rewrite Eac, Ebc. reflexivity. }
  destruct Hwin as (i & j & x & y & props & Hi & Hj & Hij & Hsame & -> & Hxt & Hfreq).
  exists i, j, (VObj props), y.
  split; [exact Hi|]. split; [exact Hj|]. split; [exact Hij|]. split; [exact Hsame|].
  split; [|split; [|split]].
  - apply (fallback_unfold [VObj pa; VObj pb; VObj pc]
             (count_in kc 2 (count_in kb 1 (count_in ka 0 []))) 2 i (Some i) props);
      [exact Hcount | exact Hfreq | reflexivity | exact Hi | exact Hxt].
  - unfold candidate_at. simpl fst. simpl snd.
    rewrite list_lookup_insert_eq; [reflexivity|].
    now apply lookup_lt_Some with (VObj props).
  - apply noted_frame.
  - apply noted_ends_with_2_of_3.
Qed.

End Reducer.

(* ===================================================================== *)
(** * The reducer on the sample candidates *)
(* ===================================================================== *)

(** The sample runs are the same under every choice of the conversions. *)
Lemma sample_runs_convert_nothing
  (ToString_other : value -> outcome string)
  (gt_other : value -> value -> outcome bool) :
  findConsensusResultFallback ToString_other gt_other
    [Samples.rice_bowl; Samples.rice_bowl_again; Samples.salad]
  = findConsensusResultFallback no_ToString no_gt
      [Samples.rice_bowl; Samples.rice_bowl_again; Samples.salad] /\
  findConsensusResultFallback ToString_other gt_other
    [Samples.doubtful_rice; Samples.doubtful_salad]
  = findConsensusResultFallback no_ToString no_gt
      [Samples.doubtful_rice; Samples.doubtful_salad] /\
  getCalorieBreakdown ToString_other gt_other (Some "key")
    Samples.one_sample_without_items "image" "image/png" "lunch" 0
  = getCalorieBreakdown no_ToString no_gt (Some "key")
      Samples.one_sample_without_items "image" "image/png" "lunch" 0.
Proof. repeat split; vm_compute; reflexivity. Qed.

Lemma samples_are_candidates :
  all_candidates [Samples.rice_bowl; Samples.rice_bowl_again; Samples.salad] /\
  all_candidates [Samples.doubtful_rice; Samples.doubtful_salad].
Proof. split; repeat constructor. Qed.

Lemma doubtful_samples_differ :
  all_differ [Samples.doubtful_rice; Samples.doubtful_salad].
Proof.
  intros [|[|i]] [|[|j]] x y Hij Hx Hy; simpl in Hx, Hy;
    try lia; try discriminate.
  inversion Hx; inversion Hy; subst. reflexivity.
Qed.

(** The claim C1 fails on these three candidates: the two rice bowls
    agree, the first of them is returned, and its [assumptionsMade] is the
    note with its closing parenthesis, which does not end with the text
    consensus from 2/3 analyses. *)
Lemma fallback_note_closes_with_parenthesis :
  exactly_two_agree Samples.rice_bowl Samples.rice_bowl_again Samples.salad = true /\
  findConsensusResultFallback no_ToString no_gt
    [Samples.rice_bowl; Samples.rice_bowl_again; Samples.salad]
  = Returned (0, [noted Samples.rice_bowl 2 3; Samples.rice_bowl_again; Samples.salad]) /\
  assumptions_of (noted Samples.rice_bowl 2 3)
  = "(Based on consensus from 2/3 analyses)" /\
  endsWith (assumptions_of (noted Samples.rice_bowl 2 3))
    "consensus from 2/3 analyses" = false.
Proof. repeat split; vm_compute; reflexivity. Qed.

(** The three candidates above, for C1 as the code has it. *)
Lemma fallback_two_of_three_witness :
  exists i j x y,
    [Samples.rice_bowl; Samples.rice_bowl_again; Samples.salad] !! i = Some x /\
    [Samples.rice_bowl; Samples.rice_bowl_again; Samples.salad] !! j = Some y /\
    i < j /\
    same_signature x y = true /\
    findConsensusResultFallback no_ToString no_gt
      [Samples.rice_bowl; Samples.rice_bowl_again; Samples.salad]
    = Returned (i, <[i := noted x 2 3]>
                     [Samples.rice_bowl; Samples.rice_bowl_again; Samples.salad]) /\
    candidate_at (i, <[i := noted x 2 3]>
                       [Samples.rice_bowl; Samples.rice_bowl_again; Samples.salad])
    = noted x 2 3 /\
    same_but_assumptions (noted x 2 3) x /\
    endsWith (assumptions_of (noted x 2 3))
      "(Based on consensus from 2/3 analyses)" = true.
Proof.
  apply (fallback_two_of_three no_ToString no_gt
           Samples.rice_bowl Samples.rice_bowl_again Samples.salad).
  - repeat constructor.
  - reflexivity.
Defined.

(** Scores below 0 are outside the range of the design document. On
    these two candidates, whose signatures differ, the second has the
    higher score and the first is returned: neither score is above the 0
    from which the tie-break starts. *)
Lemma fallback_keeps_first_below_zero :
  all_differ [Samples.doubtful_rice; Samples.doubtful_salad] /\
  findConsensusResultFallback no_ToString no_gt
    [Samples.doubtful_rice; Samples.doubtful_salad]
  = Returned (0, [noted Samples.doubtful_rice 1 2; Samples.doubtful_salad]) /\
  (confidence_of Samples.doubtful_rice < confidence_of Samples.doubtful_salad)%Q.
Proof.
  split; [exact doubtful_samples_differ|].
  split; vm_compute; reflexivity.
Qed.

Lemma four_samples_differ :
  all_differ [Samples.rice_bowl; Samples.salad; Samples.soup; Samples.toast].
Proof.
  intros [|[|[|[|i]]]] [|[|[|[|j]]]] x y Hij Hx Hy; simpl in Hx, Hy;
    try lia; try discriminate;
    inversion Hx; inversion Hy; subst; reflexivity.
Qed.

Lemma four_samples_in_range :
  scores_in_range [Samples.rice_bowl; Samples.salad; Samples.soup; Samples.toast].
Proof.
  intros y Hy.
  repeat (apply elem_of_cons in Hy; destruct Hy as [->|Hy]);
    [| | | |now apply elem_of_nil in Hy];
    split; vm_compute; discriminate.
Qed.

(** A run of C2 on four candidates with the scores 4/5, 9/10, 9/10 and
    none: the signatures differ, the salad and the soup share the highest
    score, and the salad, provided before the soup, is returned. *)
Lemma fallback_breaks_ties_by_confidence_witness :
  exists i x,
    [Samples.rice_bowl; Samples.salad; Samples.soup; Samples.toast] !! i = Some x /\
    findConsensusResultFallback no_ToString no_gt
      [Samples.rice_bowl; Samples.salad; Samples.soup; Samples.toast]
    = Returned (i, <[i := noted x 1 4]>
                     [Samples.rice_bowl; Samples.salad; Samples.soup;
                      Samples.toast]) /\
    candidate_at (i, <[i := noted x 1 4]>
                       [Samples.rice_bowl; Samples.salad; Samples.soup;
                        Samples.toast])
    = noted x 1 4 /\
    (forall y,
       y ∈ [Samples.rice_bowl; Samples.salad; Samples.soup; Samples.toast] ->
       (confidence_of y <= confidence_of x)%Q) /\
    (forall j y,
       j < i ->
       [Samples.rice_bowl; Samples.salad; Samples.soup; Samples.toast] !! j
       = Some y ->
       (confidence_of y < confidence_of x)%Q).
Proof.
  apply (fallback_breaks_ties_by_confidence no_ToString no_gt
           [Samples.rice_bowl; Samples.salad; Samples.soup; Samples.toast]).
  - discriminate.
  - repeat constructor.
  - exact four_samples_differ.
  - exact four_samples_in_range.
Defined.

(** The same run, computed: the second candidate, with the note 1/4. *)
Example first_of_the_highest_scores :
  findConsensusResultFallback no_ToString no_gt
    [Samples.rice_bowl; Samples.salad; Samples.soup; Samples.toast]
  = Returned (1, [Samples.rice_bowl; noted Samples.salad 1 4; Samples.soup;
                  Samples.toast]).
Proof. vm_compute. reflexivity. Qed.

(** A run of C10 on the three sample candidates. *)
Lemma fallback_returns_input_candidate_witness :
  exists i x maxCount,
    [Samples.rice_bowl; Samples.rice_bowl_again; Samples.salad] !! i = Some x /\
    findConsensusResultFallback no_ToString no_gt
      [Samples.rice_bowl; Samples.rice_bowl_again; Samples.salad]
    = Returned (i, <[i := noted x maxCount 3]>
                     [Samples.rice_bowl; Samples.rice_bowl_again; Samples.salad]) /\
    candidate_at (i, <[i := noted x maxCount 3]>
                       [Samples.rice_bowl; Samples.rice_bowl_again; Samples.salad])
    = noted x maxCount 3 /\
    (forall j, j <> i ->
       <[i := noted x maxCount 3]>
         [Samples.rice_bowl; Samples.rice_bowl_again; Samples.salad] !! j
       = [Samples.rice_bowl; Samples.rice_bowl_again; Samples.salad] !! j) /\
    get_prop (noted x maxCount 3) "assumptionsMade"
    = Some (VStr (trim (assumptions_of x ++ fallback_note maxCount 3))) /\
    Forall (fun k => get_prop (noted x maxCount 3) k = get_prop x k)
      ["mealDescription"; "totalEstimatedCalories"; "items";
       "confidenceScore"; "error"] /\
    same_but_assumptions (noted x maxCount 3) x.
Proof.
  apply (fallback_returns_input_candidate no_ToString no_gt
           [Samples.rice_bowl; Samples.rice_bowl_again; Samples.salad]).
  - simpl. lia.
  - repeat constructor.
Defined.

(* ===================================================================== *)
(** * The definitions at work *)
(* ===================================================================== *)

Example trim_then_lower : toLowerCase (trim "  True
") = "true".
Proof. reflexivity. Qed.

Example fences_and_prose_removed :
  cleanup (quoted "Here you go:
```json
{'calories': 1,}
```
") = quoted "{'calories': 1}".
Proof. vm_compute. reflexivity. Qed.

Example first_brace_to_last_brace :
  extract_braces "a {b} c {d} e" = "{b} c {d}".
Proof. vm_compute. reflexivity. Qed.

Example parse_object :
  JSON_parse (quoted "{ 'items': [ {'itemName': 'rice', 'calories': 2.5e2} ], 'ok': true }")
  = Returned (VObj [("items", VArr [VObj [("itemName", VStr "rice");
                                           ("calories", VNum 250)]] []);
                    ("ok", VBool true)]).
Proof. vm_compute. reflexivity. Qed.

Example parse_rejects_trailing_comma :
  JSON_parse (quoted "{'a': 1,}") = Thrown SyntaxError.
Proof. vm_compute. reflexivity. Qed.

Example validated_by_the_second_reply :
  validateJsonFormat (script [Some (quoted "```json
{'a': 2}
```")]) (quoted "{'a': 1}") 0
  = (Returned (VObj [("a", VNum 2)]), 1).
Proof. vm_compute. reflexivity. Qed.

Example cleaned_text_when_the_second_reply_is_no_json :
  validateJsonFormat (script [Some "I cannot verify this."]) (quoted "{'a': 1}") 0
  = (Returned (VObj [("a", VNum 1)]), 1).
Proof. vm_compute. reflexivity. Qed.

Example discarded_when_nothing_parses :
  processGeminiResponse (script [Some "no"]) "not json" 0 = (Returned VNull, 1).
Proof. vm_compute. reflexivity. Qed.

Example highest_score_wins_a_tie :
  findConsensusResultFallback no_ToString no_gt [Samples.rice_bowl; Samples.salad]
  = Returned (1, [Samples.rice_bowl; noted Samples.salad 1 2]).
Proof. vm_compute. reflexivity. Qed.

Example single_candidate_unchanged :
  findConsensusResult no_ToString no_gt (Some "key") (script []) [Samples.salad] 0
  = (Returned Samples.salad, 0).
Proof. vm_compute. reflexivity. Qed.

Example calories_given_as_text :
  is_candidate
    (VObj [("items", VArr [VObj [("itemName", VStr "rice");
                                 ("calories", VStr "165")]] [])]) = true.
Proof. reflexivity. Qed.

Example no_candidate_is_a_type_error :
  findConsensusResultFallback no_ToString no_gt [] = Thrown TypeError.
Proof. vm_compute. reflexivity. Qed.

(* ===================================================================== *)
(** * More on the repair and validation of a reply *)
(* ===================================================================== *)

Section Repair_and_validate.

Variable model : nat -> option string.

Lemma validateJsonFormat_closed (response : string) (n : nat) :
  validateJsonFormat model response n
  = (match second_pass model n with
     | Returned v => Returned v
     | Thrown _ => JSON_parse response
     end, S n).
Proof.
  unfold validateJsonFormat, second_pass, try_catch, bind, lift.
  rewrite generateContent_calls.
  destruct (model n); [|reflexivity].
  destruct (JSON_parse (extract_braces _)); [reflexivity|].
  now destruct (JSON_parse response).
Qed.

Lemma processGeminiResponse_closed (responseText : string) (n : nat) :
  processGeminiResponse model responseText n
  = (Returned match second_pass model n with
              | Returned v => v
              | Thrown _ =>
                  match JSON_parse (cleanup responseText) with
                  | Returned v => v
                  | Thrown _ => VNull
                  end
              end, S n).
Proof.
  unfold processGeminiResponse, try_catch, ret.
  rewrite validateJsonFormat_closed.
  destruct (second_pass model n); [reflexivity|].
  now destruct (JSON_parse (cleanup responseText)).
Qed.

(** X1. validateJsonFormat makes one call. The reply of that call wins when it
    parses, fences and surroundings removed; when the call throws or its
    reply does not parse, the text handed in is parsed instead; and the
    only exception that leaves the function is the SyntaxError of a text
    handed in that is no JSON, whatever the call threw. *)
Theorem validateJsonFormat_outcome (response : string) (n : nat) :
  snd (validateJsonFormat model response n) = S n /\
  (forall v, second_pass model n = Returned v ->
             fst (validateJsonFormat model response n) = Returned v) /\
  (forall e, second_pass model n = Thrown e ->
             fst (validateJsonFormat model response n) = JSON_parse response) /\
  (forall e, fst (validateJsonFormat model response n) = Thrown e ->
             e = SyntaxError /\ JSON_parse response = Thrown SyntaxError).
Proof.
  rewrite validateJsonFormat_closed. simpl.
  split; [reflexivity|]. split; [|split].
  - now intros v ->.
  - now intros e ->.
  - intros e. destruct (second_pass model n); [discriminate|].
    unfold JSON_parse. destruct (JSON.parse response); [discriminate|].
    intros H. now inversion H.
Qed.

(** X2. processGeminiResponse never throws and makes one call. Its result is
    what the second pass parsed, else what the cleaned text parses to, and
    null when neither is JSON; so a result other than null was parsed from
    one of the two texts. *)
Theorem processGeminiResponse_outcome (responseText : string) (n : nat) :
  exists v,
    processGeminiResponse model responseText n = (Returned v, S n) /\
    (forall v2, second_pass model n = Returned v2 -> v = v2) /\
    (forall e v1, second_pass model n = Thrown e ->
                  JSON_parse (cleanup responseText) = Returned v1 -> v = v1) /\
    (forall e e', second_pass model n = Thrown e ->
                  JSON_parse (cleanup responseText) = Thrown e' -> v = VNull) /\
    (v <> VNull ->
     second_pass model n = Returned v \/ JSON_parse (cleanup responseText) = Returned v).
Proof.
  rewrite processGeminiResponse_closed. eexists. split; [reflexivity|].
  destruct (second_pass model n) as [v2|e2].
  - split; [intros ? H; now inversion H|].
    split; [discriminate|]. split; [discriminate | auto].
  - split; [discriminate|].
    destruct (JSON_parse (cleanup responseText)) as [v1|e1].
    + split; [intros ? ? _ H; now inversion H|].
      split; [discriminate | auto].
    + split; [discriminate|]. split; [reflexivity | contradiction].
Qed.

End Repair_and_validate.

(* ===================================================================== *)
(** * More on the run of getCalorieBreakdown *)
(* ===================================================================== *)

Section More_of_the_run.

Variable ToString_other : value -> outcome string.
Variable gt_other : value -> value -> outcome bool.
Variable apiKey : option string.
Variable model : nat -> option string.

Lemma processGeminiResponse_processed (responseText : string) (n : nat) :
  processGeminiResponse model responseText n
  = (Returned (processed model responseText n), S n).
Proof. apply processGeminiResponse_closed. Qed.

(** One turn of the loop, in closed form: one call when the analysis call
    throws, two when it answers. *)
Lemma analysis_attempt_closed (acc : list value) (n : nat) :
  analysis_attempt model acc n
  = match model n with
    | None => (Returned acc, S n)
    | Some text =>
        (Returned (if truthy (processed model text (S n))
                   then acc ++ [processed model text (S n)]
                   else acc),
         S (S n))
    end.
Proof.
  unfold analysis_attempt, try_catch, bind.
  rewrite generateContent_calls.
  destruct (model n) as [text|]; [|reflexivity].
  rewrite processGeminiResponse_processed.
  now destruct (truthy _).
Qed.

Lemma sampling_loop_bounds (turns : nat) (acc : list value) (n : nat) :
  exists results n',
    sampling_loop model turns acc n = (Returned results, n') /\
    n + turns <= n' <= n + 2 * turns /\
    length acc <= length results <= length acc + turns /\
    (Forall (fun v => truthy v = true) acc ->
     Forall (fun v => truthy v = true) results).
Proof.
  revert acc n. induction turns as [|k IH]; intros acc n.
  - exists acc, n. simpl. unfold ret. repeat split; auto; lia.
  - cbn [sampling_loop]. unfold bind. rewrite analysis_attempt_closed.
    destruct (model n) as [text|].
    + destruct (truthy (processed model text (S n))) eqn:Ht.
      * destruct (IH (acc ++ [processed model text (S n)]) (S (S n)))
          as (results & n' & -> & Hn & Hl & Ht').
        rewrite length_app in Hl. simpl in Hl.
        exists results, n'. repeat split; try lia.
        intros Hacc. apply Ht'. apply Forall_app. split; [exact Hacc|].
        now repeat constructor.
      * destruct (IH acc (S (S n))) as (results & n' & -> & Hn & Hl & Ht').
        exists results, n'. repeat split; try lia. exact Ht'.
    + destruct (IH acc (S n)) as (results & n' & -> & Hn & Hl & Ht').
      exists results, n'. repeat split; try lia. exact Ht'.
Qed.

Lemma analysis_attempt_sample (acc : list value) (k : nat) :
  analysis_attempt model acc k
  = (Returned (acc ++ match sample_of model k with
                      | Some v => [v]
                      | None => []
                      end),
     k + calls_of model k).
Proof.
  rewrite analysis_attempt_closed. unfold sample_of, calls_of.
  destruct (model k) as [text|].
  - destruct (truthy (processed model text (S k)));
      rewrite ?app_nil_r; f_equal; lia.
  - rewrite app_nil_r. f_equal. lia.
Qed.

Lemma sampling_loop_batch (turns : nat) :
  forall acc k,
    sampling_loop model turns acc k
    = (Returned (acc ++ fst (batch model turns k)), snd (batch model turns k)).
Proof.
  induction turns as [|later IH]; intros acc k.
  - simpl. unfold ret. now rewrite app_nil_r.
  - cbn [sampling_loop batch]. unfold bind.
    rewrite analysis_attempt_sample, IH. cbn [fst snd].
    destruct (sample_of model k); [|now rewrite app_nil_r].
    now rewrite <- app_assoc.
Qed.

Lemma batch_calls (turns : nat) :
  forall k, k + turns <= snd (batch model turns k) <= k + 2 * turns.
Proof.
  induction turns as [|later IH]; intros k; cbn [batch snd]; [lia|].
  specialize (IH (k + calls_of model k)).
  unfold calls_of in *. destruct (model k); lia.
Qed.

(** C5. In the sampler of getCalorieBreakdown (the key is there and the
    gate let the image through). A turn of the loop never throws: whatever
    was collected before it is kept, and the turn appends its own sample
    or, when it fails, nothing. It fails when its analysis call throws,
    after that one call, or when what processGeminiResponse makes of the
    reply is falsy, after two calls; otherwise its sample is that truthy
    result. The loop takes its five turns whatever the earlier turns did:
    the samples it returns are, in order, the samples of the turns that
    did not fail, and between five and ten calls were made. And when no
    sample was collected, as when every call throws, getCalorieBreakdown
    returns the fixed object with the error text of the failed attempts,
    zero calories and no items. *)
Theorem sampler_isolates_failures
  (imageDataBase64 mimeType mealContext : string) (n n1 : nat) :
  key_missing apiKey = false ->
  validateFoodImage model imageDataBase64 mimeType n = (Returned true, n1) ->
  (forall acc k,
     analysis_attempt model acc k
     = (Returned (acc ++ match sample_of model k with
                         | Some v => [v]
                         | None => []
                         end),
        k + calls_of model k)) /\
  (forall k,
     model k = None -> sample_of model k = None /\ calls_of model k = 1) /\
  (forall k text,
     model k = Some text ->
     exists v,
       processGeminiResponse model text (S k) = (Returned v, S (S k)) /\
       sample_of model k = (if truthy v then Some v else None) /\
       calls_of model k = 2) /\
  sampling_loop model NUM_ANALYSES [] n1
  = (Returned (fst (batch model 5 n1)), snd (batch model 5 n1)) /\
  n1 + 5 <= snd (batch model 5 n1) <= n1 + 10 /\
  (fst (batch model 5 n1) = [] ->
   getCalorieBreakdown ToString_other gt_other apiKey model
     imageDataBase64 mimeType mealContext n
   = (Returned
        (VObj [("error", VStr "Failed to get any valid calorie breakdown from AI after multiple attempts.");
               ("totalEstimatedCalories", VNum 0);
               ("items", VArr [] [])]),
      snd (batch model 5 n1))) /\
  ((forall k, n1 <= k -> model k = None) ->
   getCalorieBreakdown ToString_other gt_other apiKey model
     imageDataBase64 mimeType mealContext n
   = (Returned no_valid_result, n1 + 5)).
Proof.
  intros Hkey Hgate.
  assert (Hloop : sampling_loop model NUM_ANALYSES [] n1
                  = (Returned (fst (batch model 5 n1)), snd (batch model 5 n1)))
    by exact (sampling_loop_batch NUM_ANALYSES [] n1).
  split; [exact analysis_attempt_sample|].
  split; [intros k Hk; unfold sample_of, calls_of; now rewrite Hk|].
  split.
  { intros k text Hk. exists (processed model text (S k)).
    split; [apply processGeminiResponse_processed|].
    unfold sample_of, calls_of. now rewrite Hk. }
  split; [exact Hloop|].
  split; [exact (batch_calls 5 n1)|].
  split.
  - intros Hnone. rewrite Hnone in Hloop.
    exact (no_sample_gives_no_valid_result ToString_other gt_other apiKey model
             imageDataBase64 mimeType mealContext n n1 _ Hkey Hgate Hloop).
  - intros Hall.
    exact (no_sample_gives_no_valid_result ToString_other gt_other apiKey model
             imageDataBase64 mimeType mealContext n n1 _ Hkey Hgate
             (sampling_loop_all_throw model NUM_ANALYSES [] n1 Hall)).
Qed.

Lemma findConsensusResult_calls (results : list value) (n : nat) :
  n <= snd (findConsensusResult ToString_other gt_other apiKey model results n)
    <= n + 2.
Proof.
  unfold findConsensusResult.
  destruct (length results =? 1).
  - destruct (results !! 0); simpl; lia.
  - destruct (key_missing apiKey); [simpl; lia|].
    unfold findConsensusResultWithModel, try_catch, bind, lift.
    rewrite generateContent_calls.
    destruct (model n) as [text|]; [|simpl; lia].
    rewrite processGeminiResponse_processed.
    destruct (truthy _).
    + destruct (annotate _ _ _); simpl; lia.
    + destruct (fallback_result _ _ _); simpl; lia.
Qed.

(** X3. Whatever the collaborator does, a run of getCalorieBreakdown makes at
    most thirteen calls of the model: one for the gate, two at most for
    each of the five samples, two at most for the merge. *)
Theorem getCalorieBreakdown_makes_at_most_13_calls
  (imageDataBase64 mimeType mealContext : string) (n : nat) :
  n <= snd (getCalorieBreakdown ToString_other gt_other apiKey model
              imageDataBase64 mimeType mealContext n)
    <= n + 13.
Proof.
  unfold getCalorieBreakdown, breakdown_body, bind, try_catch.
  destruct (key_missing apiKey); [simpl; lia|].
  rewrite validateFoodImage_calls.
  destruct (match model n with Some _ => _ | None => _ end).
  - change (negb true) with false. cbv beta iota.
    destruct (sampling_loop_bounds NUM_ANALYSES [] (S n))
      as (results & n1 & -> & Hn & _).
    destruct (length results =? 0); [simpl; unfold NUM_ANALYSES in Hn; lia|].
    cbv beta iota delta [ret settle].
    pose proof (findConsensusResult_calls results n1) as Hc.
    unfold NUM_ANALYSES in Hn. lia.
  - change (negb false) with true. cbv beta iota. simpl. lia.
Qed.

End More_of_the_run.

(** Runs of C5. With the replies of [Samples.some_turns_fail] the first,
    third and fourth turns fail, each in its own way, and the loop returns
    the samples of the second and of the fifth, after nine calls in all;
    and when the five analysis calls throw, the result is the fixed object
    after six calls. *)
Lemma sampler_isolates_failures_witness :
  sampling_loop Samples.some_turns_fail NUM_ANALYSES [] 1
  = (Returned [VObj [("totalEstimatedCalories", VNum 5)];
               VObj [("totalEstimatedCalories", VNum 5)]], 9) /\
  getCalorieBreakdown no_ToString no_gt (Some "key") Samples.only_the_gate_answers
    "image" "image/png" "lunch" 0
  = (Returned no_valid_result, 6).
Proof.
  split.
  - destruct (sampler_isolates_failures no_ToString no_gt (Some "key")
                Samples.some_turns_fail "image" "image/png" "lunch" 0 1
                eq_refl eq_refl) as (_ & _ & _ & Hloop & _).
    rewrite Hloop. vm_compute. reflexivity.
  - destruct (sampler_isolates_failures no_ToString no_gt (Some "key")
                Samples.only_the_gate_answers "image" "image/png" "lunch" 0 1
                eq_refl eq_refl) as (_ & _ & _ & _ & _ & _ & Hall).
    apply Hall. intros k Hk. unfold Samples.only_the_gate_answers, script.
    destruct k as [|k]; [lia | reflexivity].
Defined.

(** The bound of thirteen calls is reached. *)
Example a_run_of_13_calls :
  snd (getCalorieBreakdown no_ToString no_gt (Some "key")
         (fun n => match n with
                   | O => Some "true"
                   | S _ => Some (quoted "{'totalEstimatedCalories':5}")
                   end)
         "image" "image/png" "lunch" 0) = 13.
Proof. vm_compute. reflexivity. Qed.

(* ===================================================================== *)
(** * When getCalorieBreakdown throws, and when it cannot *)
(* ===================================================================== *)

Section Rejections.

Variable ToString_other : value -> outcome string.
Variable gt_other : value -> value -> outcome bool.
Variable apiKey : option string.
Variable model : nat -> option string.

(** The model-assisted merge in closed form. *)
Lemma findConsensusResultWithModel_closed (results : list value) (n : nat) :
  findConsensusResultWithModel ToString_other gt_other model results n
  = match model n with
    | None => (fallback_result ToString_other gt_other results, S n)
    | Some text =>
        (if truthy (processed model text (S n))
         then match annotate ToString_other (Some (processed model text (S n)))
                      (model_note (length results)) with
              | Returned v => Returned v
              | Thrown _ => fallback_result ToString_other gt_other results
              end
         else fallback_result ToString_other gt_other results,
         S (S n))
    end.
Proof.
  unfold findConsensusResultWithModel, try_catch, bind, lift.
  rewrite generateContent_calls.
  destruct (model n) as [text|]; [|reflexivity].
  rewrite processGeminiResponse_processed.
  destruct (truthy _).
  - now destruct (annotate _ _ _).
  - now destruct (fallback_result _ _ _).
Qed.

(** What findConsensusResult throws, the fallback reducer threw. *)
Lemma findConsensusResult_throws (results : list value) (n n' : nat) (e : exn) :
  findConsensusResult ToString_other gt_other apiKey model results n = (Thrown e, n') ->
  length results <> 1 /\
  fallback_result ToString_other gt_other results = Thrown e.
Proof.
  unfold findConsensusResult.
  destruct (length results =? 1) eqn:Hlen.
  - destruct (results !! 0); discriminate.
  - apply Nat.eqb_neq in Hlen. intros H. split; [exact Hlen|].
    destruct (key_missing apiKey).
    + now inversion H.
    + rewrite findConsensusResultWithModel_closed in H.
      destruct (model n) as [text|]; [|now inversion H].
      destruct (truthy _); [|now inversion H].
      destruct (annotate _ _ _); [discriminate | now inversion H].
Qed.

Lemma breakdown_throw_inversion
  (imageDataBase64 mimeType mealContext : string) (n n' : nat) (e : exn) :
  getCalorieBreakdown ToString_other gt_other apiKey model
    imageDataBase64 mimeType mealContext n = (Thrown e, n') ->
  key_missing apiKey = false /\
  exists results,
    2 <= length results <= 5 /\
    Forall (fun v => truthy v = true) results /\
    fst (validateFoodImage model imageDataBase64 mimeType n) = Returned true /\
    fst (sampling_loop model NUM_ANALYSES [] (S n)) = Returned results /\
    fallback_result ToString_other gt_other results = Thrown e.
Proof.
  intros Hrun.
  unfold getCalorieBreakdown, breakdown_body, bind, try_catch in Hrun.
  destruct (key_missing apiKey); [simpl in Hrun; discriminate|].
  split; [reflexivity|].
  rewrite validateFoodImage_calls in Hrun |- *.
  destruct (match model n with Some _ => _ | None => _ end);
    [|change (negb false) with true in Hrun; cbv beta iota in Hrun;
      simpl in Hrun; discriminate].
  change (negb true) with false in Hrun. cbv beta iota in Hrun.
  destruct (sampling_loop_bounds model NUM_ANALYSES [] (S n))
    as (results & n1 & Hloop & _ & Hl & Ht).
  rewrite Hloop in Hrun |- *.
  destruct (length results =? 0) eqn:H0; [simpl in Hrun; discriminate|].
  apply Nat.eqb_neq in H0.
  cbv beta iota delta [ret settle] in Hrun.
  destruct (findConsensusResult_throws results n1 n' e Hrun) as [Hlen Hfb].
  exists results. simpl in Hl. unfold NUM_ANALYSES in Hl.
  split; [lia|]. split; [apply Ht; constructor|].
  split; [reflexivity|]. split; [reflexivity | exact Hfb].
Qed.

(** X4. An exception leaves getCalorieBreakdown only in this way: the key
    is set, the gate let the image through, between two and five samples
    were collected, all truthy, and the fallback reducer, reached when the
    model-assisted merge gave no result, threw that exception on them. *)
Theorem getCalorieBreakdown_throws_what_the_reducer_throws
  (imageDataBase64 mimeType mealContext : string) (n n' : nat) (e : exn) :
  getCalorieBreakdown ToString_other gt_other apiKey model
    imageDataBase64 mimeType mealContext n = (Thrown e, n') ->
  key_missing apiKey = false /\
  exists results,
    2 <= length results <= 5 /\
    Forall (fun v => truthy v = true) results /\
    fst (validateFoodImage model imageDataBase64 mimeType n) = Returned true /\
    fst (sampling_loop model NUM_ANALYSES [] (S n)) = Returned results /\
    fallback_result ToString_other gt_other results = Thrown e.
Proof.
  exact (breakdown_throw_inversion imageDataBase64 mimeType mealContext n n' e).
Qed.

Lemma fallback_result_returns (results : list value) :
  results <> [] ->
  all_candidates results ->
  exists v, fallback_result ToString_other gt_other results = Returned v.
Proof.
  intros Hne Hall. unfold fallback_result.
  destruct (fallback_typed_returns ToString_other gt_other results Hne Hall)
    as (i & x & maxCount & _ & ->).
  simpl. eauto.
Qed.

(** X5. getCalorieBreakdown cannot throw when the samples that its loop
    collected are candidates the reducer can read: objects whose items, if
    any, is null or an array without null, whose confidenceScore, if any,
    is a number and whose assumptionsMade, if any, is a string. Whatever
    the key, the gate and the model-assisted merge do, the run then
    returns a value. The replies are taken inside the embedding, where
    [JSON_parse] is [JSON.parse]: a reply with an escape for a code unit
    of 256 or more, which the embedding would drop and the code keep, is
    no part of the statement. *)
Theorem getCalorieBreakdown_returns_on_candidates
  (imageDataBase64 mimeType mealContext : string) (n n1 : nat)
  (results : list value) :
  replies_in_range_from model (S n) ->
  sampling_loop model NUM_ANALYSES [] (S n) = (Returned results, n1) ->
  all_candidates results ->
  exists v n',
    getCalorieBreakdown ToString_other gt_other apiKey model
      imageDataBase64 mimeType mealContext n = (Returned v, n').
Proof.
  intros _ Hloop Hall.
  destruct (getCalorieBreakdown ToString_other gt_other apiKey model
              imageDataBase64 mimeType mealContext n) as [[v|e] n'] eqn:Hrun;
    [eauto|].
  exfalso.
  destruct (breakdown_throw_inversion _ _ _ _ _ _ Hrun)
    as (_ & results' & Hlen & _ & _ & Hloop' & Hthrow).
  rewrite Hloop in Hloop'. simpl in Hloop'. inversion Hloop'; subst results'.
  destruct (fallback_result_returns results) as [v Hv];
    [destruct results; [simpl in Hlen; lia | discriminate] | exact Hall |].
  congruence.
Qed.

End Rejections.

Lemma getCalorieBreakdown_throws_what_the_reducer_throws_witness :
  key_missing (Some "key") = false /\
  exists results,
    2 <= length results <= 5 /\
    Forall (fun v => truthy v = true) results /\
    fst (validateFoodImage Samples.five_samples_items_object
           "image" "image/png" 0) = Returned true /\
    fst (sampling_loop Samples.five_samples_items_object NUM_ANALYSES [] 1)
    = Returned results /\
    fallback_result no_ToString no_gt results = Thrown TypeError.
Proof.
  apply (getCalorieBreakdown_throws_what_the_reducer_throws
           no_ToString no_gt (Some "key") Samples.five_samples_items_object
           "image" "image/png" "lunch" 0 12 TypeError).
  vm_compute. reflexivity.
Defined.

Lemma two_samples_in_range :
  replies_in_range_from Samples.two_samples_merge_fails 1.
Proof.
  intros k text Hk Hm.
  destruct k as [|[|[|[|[|k]]]]]; [lia | | | | |];
    try (vm_compute in Hm; injection Hm as <-; split; vm_compute; reflexivity).
  unfold Samples.two_samples_merge_fails, script in Hm.
  destruct k; discriminate Hm.
Qed.

(** A run in which the reducer decides: two samples are collected, the
    call of the model-assisted merge fails, and the fallback reducer is
    given the two samples, which it can read. *)
Lemma getCalorieBreakdown_returns_on_candidates_witness :
  exists v n',
    getCalorieBreakdown no_ToString no_gt (Some "key")
      Samples.two_samples_merge_fails "image" "image/png" "lunch" 0
    = (Returned v, n').
Proof.
  eapply (getCalorieBreakdown_returns_on_candidates
            no_ToString no_gt (Some "key") Samples.two_samples_merge_fails
            "image" "image/png" "lunch" 0).
  - exact two_samples_in_range.
  - vm_compute. reflexivity.
  - repeat constructor.
Defined.

(** The same run, computed: the fallback reducer was reached with two
    samples after nine calls, and the salad, with the higher score, is
    returned with its note. *)
Example the_reducer_decides :
  (let (o, n') :=
     getCalorieBreakdown no_ToString no_gt (Some "key")
       Samples.two_samples_merge_fails "image" "image/png" "lunch" 0 in
   (match o with
    | Returned v => (get_prop v "mealDescription", get_prop v "assumptionsMade")
    | Thrown _ => (None, None)
    end, n'))
  = ((Some (VStr "salad"),
      Some (VStr "no dressing (Based on consensus from 1/2 analyses)")), 9).
Proof. vm_compute. reflexivity. Qed.

(* ===================================================================== *)
(** * The earlier copy of the action *)
(* ===================================================================== *)

Section Earlier_copy.

Variable ToString_other : value -> outcome string.
Variable gt_other : value -> value -> outcome bool.
Variable apiKey : option string.
Variable model : nat -> option string.

(** X6. The earlier getCalorieBreakdown, whose reducer is a plain function
    called inside the [try], always returns a value, whatever the replies
    are and whatever the implicit conversions do, after ten calls at most;
    and when its reducer throws on the samples collected, it returns the
    fixed failure object. *)
Theorem earlier_getCalorieBreakdown_always_returns
  (imageDataBase64 mimeType mealContext : string) (n : nat) :
  exists v n',
    Earlier.getCalorieBreakdown ToString_other gt_other apiKey model
      imageDataBase64 mimeType mealContext n = (Returned v, n') /\
    n <= n' <= n + 10 /\
    (forall results e,
       key_missing apiKey = false ->
       fst (sampling_loop model NUM_ANALYSES [] n) = Returned results ->
       results <> [] ->
       Earlier.findConsensusResult ToString_other gt_other results = Thrown e ->
       v = generic_failure_result).
Proof.
  unfold Earlier.getCalorieBreakdown, try_catch, bind.
  destruct (key_missing apiKey).
  { exists generic_failure_result, n. split; [reflexivity|]. split; [lia|].
    discriminate. }
  destruct (sampling_loop_bounds model NUM_ANALYSES [] n)
    as (results & n1 & Hloop & Hn & _ & _).
  rewrite Hloop. unfold NUM_ANALYSES in Hn.
  destruct (length results =? 0) eqn:H0.
  { exists no_valid_result, n1. split; [reflexivity|]. split; [lia|].
    intros results' e _ Hr Hne. simpl in Hr. inversion Hr; subst results'.
    apply Nat.eqb_eq in H0. now destruct results. }
  unfold lift.
  destruct (Earlier.findConsensusResult ToString_other gt_other results)
    as [v|e] eqn:Hfind.
  - exists v, n1. split; [reflexivity|]. split; [lia|].
    intros results' e _ Hr _ Hthrow. simpl in Hr. inversion Hr; subst results'.
    congruence.
  - exists generic_failure_result, n1. split; [reflexivity|]. split; [lia|].
    reflexivity.
Qed.

End Earlier_copy.

(** The samples on which the action of the first file rejects give the
    fixed failure object in the earlier copy. *)
Example earlier_copy_catches_the_type_error :
  Earlier.getCalorieBreakdown no_ToString no_gt (Some "key")
    (fun k => Samples.five_samples_items_object (S k))
    "image" "image/png" "lunch" 0
  = (Returned generic_failure_result, 10).
Proof. vm_compute. reflexivity. Qed.

(* ===================================================================== *)
(** * The model-assisted merge *)
(* ===================================================================== *)

Section Merge.

Variable ToString_other : value -> outcome string.
Variable gt_other : value -> value -> outcome bool.
Variable model : nat -> option string.

(** X7. When the reply to the merge call is processed to an object whose
    [assumptionsMade] is absent or a string, findConsensusResultWithModel
    returns that object after two calls, with the note on the number of
    analyses appended to its [assumptionsMade] and nothing else changed:
    the samples themselves are not looked at. *)
Theorem findConsensusResultWithModel_returns_the_merge_reply
  (results : list value) (n : nat) (text : string) (props : list (string * value)) :
  model n = Some text ->
  processed model text (S n) = VObj props ->
  opt_is is_string (assoc "assumptionsMade" props) = true ->
  exists v,
    findConsensusResultWithModel ToString_other gt_other model results n
    = (Returned v, S (S n)) /\
    get_prop v "assumptionsMade"
    = Some (VStr (trim (assumptions_of (VObj props)
                          ++ model_note (length results)))) /\
    same_but_assumptions v (VObj props).
Proof.
  intros Htext Hp Hstr.
  rewrite findConsensusResultWithModel_closed, Htext, Hp.
  cbn [truthy]. unfold annotate. cbn [read_prop get_prop obind].
  unfold assumptions_of. cbn [get_prop].
  exists (VObj (assoc_set "assumptionsMade"
                  (VStr (trim (match assoc "assumptionsMade" props with
                               | Some (VStr s) => s
                               | _ => EmptyString
                               end ++ model_note (length results)))) props)).
  split; [|split].
  - destruct (assoc "assumptionsMade" props) as [[ | | |a| | ]|];
      try discriminate Hstr; cbn [or_else truthy].
    + destruct (negb (String.eqb a EmptyString)) eqn:Ha; [reflexivity|].
      apply negb_false_iff, String.eqb_eq in Ha. subst a. reflexivity.
    + reflexivity.
  - cbn [get_prop]. apply assoc_set_same.
  - intros k Hk. cbn [get_prop]. now apply assoc_set_other.
Qed.

(** X8. When the merge call fails, or what is made of its reply is neither an
    object nor an array (null for a reply that is no JSON, or a boolean, a
    number or a text, on which the note cannot be put),
    findConsensusResultWithModel gives what the fallback reducer gives on
    the samples, its exception included. *)
Theorem findConsensusResultWithModel_falls_back (results : list value) (n : nat) :
  merge_unusable model n = true ->
  fst (findConsensusResultWithModel ToString_other gt_other model results n)
  = fallback_result ToString_other gt_other results.
Proof.
  unfold merge_unusable. rewrite findConsensusResultWithModel_closed.
  destruct (model n) as [text|]; [|reflexivity].
  destruct (processed model text (S n)) as [ |b|q|t| | ]; try discriminate;
    intros _; cbn [fst]; destruct (truthy _); reflexivity.
Qed.

End Merge.

Lemma findConsensusResultWithModel_returns_the_merge_reply_witness :
  exists v,
    findConsensusResultWithModel no_ToString no_gt Merge_samples.merge_answered
      [Samples.rice_bowl; Samples.salad] 0
    = (Returned v, 2) /\
    get_prop v "assumptionsMade"
    = Some (VStr "one cup (Consensus generated from 2 analyses using AI)") /\
    same_but_assumptions v
      (VObj [("mealDescription", VStr "rice bowl");
             ("assumptionsMade", VStr "one cup")]).
Proof.
  apply (findConsensusResultWithModel_returns_the_merge_reply
           no_ToString no_gt Merge_samples.merge_answered
           [Samples.rice_bowl; Samples.salad] 0 Merge_samples.merged_bowl
           [("mealDescription", VStr "rice bowl");
            ("assumptionsMade", VStr "one cup")]).
  - reflexivity.
  - vm_compute. reflexivity.
  - reflexivity.
Defined.

Lemma findConsensusResultWithModel_falls_back_witness :
  fst (findConsensusResultWithModel no_ToString no_gt
         Merge_samples.merge_answers_a_number
         [Samples.rice_bowl; Samples.salad] 0)
  = fallback_result no_ToString no_gt [Samples.rice_bowl; Samples.salad].
Proof.
  apply (findConsensusResultWithModel_falls_back
           no_ToString no_gt Merge_samples.merge_answers_a_number
           [Samples.rice_bowl; Samples.salad] 0).
  vm_compute. reflexivity.
Defined.

(* ===================================================================== *)
(** * The signature is an equivalence *)
(* ===================================================================== *)

Section Signature.

(** Induction on a value and on the values it holds. *)
Lemma value_induction (P : value -> Prop) :
  P VNull ->
  (forall b, P (VBool b)) ->
  (forall q, P (VNum q)) ->
  (forall s, P (VStr s)) ->
  (forall elems named, Forall P elems -> P (VArr elems named)) ->
  (forall props, Forall (fun kv => P (snd kv)) props -> P (VObj props)) ->
  forall v, P v.
Proof.
  intros HNull HBool HNum HStr HArr HObj.
  fix IH 1. intros [ |b|q|s|elems named|props].
  - exact HNull.
  - apply HBool.
  - apply HNum.
  - apply HStr.
  - apply HArr. induction elems as [|x elems IHe]; constructor; [apply IH | exact IHe].
  - apply HObj. induction props as [|[k x] props IHp]; constructor;
      [apply IH | exact IHp].
Qed.

Lemma same_json_refl (a : value) : same_json a a = true.
Proof.
  induction a as [ |b|q|s|elems named IH|props IH] using value_induction; simpl.
  - reflexivity.
  - now destruct b.
  - apply Qeq_bool_refl.
  - apply String.eqb_refl.
  - induction IH as [|x elems Hx _ IHe]; [reflexivity|]. now rewrite Hx, IHe.
  - induction IH as [|[k x] props Hx _ IHp]; [reflexivity|].
    simpl in Hx. now rewrite String.eqb_refl, Hx, IHp.
Qed.

Lemma same_json_sym (a : value) : forall b, same_json a b = same_json b a.
Proof.
  induction a as [ |x|q|s|elems named IH|props IH] using value_induction;
    intros [ |y|r|t|elems' named'|props']; simpl; try reflexivity.
  - now destruct x, y.
  - destruct (Qeq_bool q r) eqn:H1, (Qeq_bool r q) eqn:H2; try reflexivity.
    + apply Qeq_bool_sym in H1. congruence.
    + apply Qeq_bool_sym in H2. congruence.
  - apply String.eqb_sym.
  - revert elems'. induction IH as [|x elems Hx _ IHe]; intros [|y elems'];
      try reflexivity.
    now rewrite Hx, IHe.
  - revert props'. induction IH as [|[k x] props Hx _ IHp]; intros [|[k' y] props'];
      try reflexivity.
    simpl in Hx. now rewrite Hx, IHp, String.eqb_sym.
Qed.

Lemma same_json_trans (a : value) :
  forall b c, same_json a b = true -> same_json b c = true -> same_json a c = true.
Proof.
  induction a as [ |x|q|s|elems named IH|props IH] using value_induction;
    intros [ |y|r|t|elems' named'|props'] [ |z|u|w|elems'' named''|props''];
    simpl; try discriminate; try reflexivity.
  - destruct x, y, z; auto.
  - intros H1 H2. now apply Qeq_bool_trans with r.
  - intros H1 H2. apply String.eqb_eq in H1, H2. subst. apply String.eqb_refl.
  - revert elems' elems''.
    induction IH as [|x elems Hx _ IHe]; intros [|y elems'] [|z elems''];
      try discriminate; try reflexivity.
    intros H1 H2. apply andb_prop in H1, H2.
    destruct H1 as [H1 H1'], H2 as [H2 H2'].
    rewrite (Hx y z H1 H2). simpl. now apply IHe with elems'.
  - revert props' props''.
    induction IH as [|[k x] props Hx _ IHp];
      intros [|[k' y] props'] [|[k'' z] props''];
      try discriminate; try reflexivity.
    intros H1 H2. apply andb_prop in H1, H2.
    destruct H1 as [H1 H1'], H2 as [H2 H2'].
    apply andb_prop in H1, H2. destruct H1 as [Hk1 H1], H2 as [Hk2 H2].
    apply String.eqb_eq in Hk1, Hk2. subst k' k''.
    simpl in Hx. rewrite String.eqb_refl, (Hx y z H1 H2). simpl.
    now apply IHp with props'.
Qed.

Context {A : Type} (eq : A -> A -> bool).
Hypothesis eq_refl' : forall x, eq x x = true.
Hypothesis eq_sym : forall x y, eq x y = eq y x.
Hypothesis eq_trans : forall x y z, eq x y = true -> eq y z = true -> eq x z = true.

Lemma same_opt_refl (a : option A) : same_opt eq a a = true.
Proof. destruct a; simpl; auto. Qed.

Lemma same_opt_sym (a b : option A) : same_opt eq a b = same_opt eq b a.
Proof. destruct a, b; simpl; auto. Qed.

Lemma same_opt_trans (a b c : option A) :
  same_opt eq a b = true -> same_opt eq b c = true -> same_opt eq a c = true.
Proof. destruct a, b, c; simpl; try discriminate; eauto. Qed.

Lemma same_list_refl (a : list A) : same_list eq a a = true.
Proof. induction a; simpl; [reflexivity|]. now rewrite eq_refl', IHa. Qed.

Lemma same_list_sym (a : list A) : forall b, same_list eq a b = same_list eq b a.
Proof.
  induction a as [|x a IH]; intros [|y b]; simpl; try reflexivity.
  now rewrite eq_sym, IH.
Qed.

Lemma same_list_trans (a : list A) :
  forall b c, same_list eq a b = true -> same_list eq b c = true ->
              same_list eq a c = true.
Proof.
  induction a as [|x a IH]; intros [|y b] [|z c]; simpl;
    try discriminate; try reflexivity.
  intros H1 H2. apply andb_prop in H1, H2.
  destruct H1 as [H1 H1'], H2 as [H2 H2'].
  rewrite (eq_trans x y z H1 H2). simpl. now apply IH with b.
Qed.

End Signature.

Lemma same_item_refl (a : simplifiedItem) : same_item a a = true.
Proof.
  unfold same_item. now rewrite !same_opt_refl by apply same_json_refl.
Qed.

Lemma same_item_sym (a b : simplifiedItem) : same_item a b = same_item b a.
Proof.
  unfold same_item.
  now rewrite (same_opt_sym same_json same_json_sym (s_itemName a)),
              (same_opt_sym same_json same_json_sym (s_calories a)).
Qed.

Lemma same_item_trans (a b c : simplifiedItem) :
  same_item a b = true -> same_item b c = true -> same_item a c = true.
Proof.
  unfold same_item. intros H1 H2. apply andb_prop in H1, H2.
  destruct H1 as [H1 H1'], H2 as [H2 H2'].
  rewrite (same_opt_trans same_json same_json_trans _ _ _ H1 H2),
          (same_opt_trans same_json same_json_trans _ _ _ H1' H2').
  reflexivity.
Qed.

Lemma same_key_refl (a : simplifiedResult) : same_key a a = true.
Proof.
  unfold same_key. rewrite !same_opt_refl by apply same_json_refl.
  rewrite same_opt_refl; [reflexivity|].
  apply same_list_refl, same_item_refl.
Qed.

Lemma same_key_sym (a b : simplifiedResult) : same_key a b = same_key b a.
Proof.
  unfold same_key.
  rewrite (same_opt_sym same_json same_json_sym (s_mealDescription a)),
          (same_opt_sym same_json same_json_sym (s_totalEstimatedCalories a)),
          (same_opt_sym (same_list same_item)
             (same_list_sym same_item same_item_sym) (s_items a)).
  reflexivity.
Qed.

Lemma same_key_trans (a b c : simplifiedResult) :
  same_key a b = true -> same_key b c = true -> same_key a c = true.
Proof.
  unfold same_key. intros H1 H2. apply andb_prop in H1, H2.
  destruct H1 as [H1 H1'], H2 as [H2 H2'].
  apply andb_prop in H1, H2. destruct H1 as [H1 H1''], H2 as [H2 H2''].
  rewrite (same_opt_trans same_json same_json_trans _ _ _ H1 H2),
          (same_opt_trans same_json same_json_trans _ _ _ H1'' H2''),
          (same_opt_trans (same_list same_item)
             (same_list_trans same_item same_item_trans) _ _ _ H1' H2').
  reflexivity.
Qed.

(** A key that agrees with one of two agreeing keys agrees with the other. *)
Lemma same_key_congr (a b c : simplifiedResult) :
  same_key a b = true -> same_key a c = same_key b c.
Proof.
  intros Hab.
  destruct (same_key a c) eqn:Hac, (same_key b c) eqn:Hbc; try reflexivity.
  - rewrite same_key_sym in Hab.
    now rewrite (same_key_trans b a c Hab Hac) in Hbc.
  - now rewrite (same_key_trans a b c Hab Hbc) in Hac.
Qed.

(* ===================================================================== *)
(** * The fallback reducer returns the most frequent signature *)
(* ===================================================================== *)

Lemma count_in_cases (k : simplifiedResult) (i : nat) (counts : list countEntry) :
  (Forall (fun e => same_key (key e) k = false) counts /\
   count_in k i counts = counts ++ [{| key := k; count := 1; result := i |}])
  \/
  (exists p e,
     counts !! p = Some e /\
     same_key (key e) k = true /\
     count_in k i counts
     = <[p := {| key := key e; count := S (count e); result := result e |}]> counts).
Proof.
  induction counts as [|e0 counts IH]; simpl.
  - left. split; [constructor | reflexivity].
  - destruct (same_key (key e0) k) eqn:H0.
    + right. exists 0, e0. repeat split. exact H0.
    + destruct IH as [[Hall ->]|(p & e & Hp & He & ->)].
      * left. split; [now constructor | reflexivity].
      * right. exists (S p), e. repeat split; assumption.
Qed.

Lemma key_occurrences_snoc (k k' : simplifiedResult) (pre : list simplifiedResult) :
  key_occurrences k (pre ++ [k'])
  = key_occurrences k pre + (if same_key k k' then 1 else 0).
Proof.
  unfold key_occurrences. rewrite List.filter_app, length_app. simpl.
  now destruct (same_key k k').
Qed.

Lemma key_occurrences_none (k : simplifiedResult) (pre : list simplifiedResult) :
  (forall j k', pre !! j = Some k' -> same_key k k' = false) ->
  key_occurrences k pre = 0.
Proof.
  unfold key_occurrences. induction pre as [|k0 pre IH]; intros H; simpl;
    [reflexivity|].
  rewrite (H 0 k0 eq_refl). apply IH. intros j k' Hj. exact (H (S j) k' Hj).
Qed.

Lemma key_occurrences_congr (a b : simplifiedResult) (ks : list simplifiedResult) :
  same_key a b = true -> key_occurrences a ks = key_occurrences b ks.
Proof.
  intros Hab. unfold key_occurrences.
  induction ks as [|k ks IH]; simpl; [reflexivity|].
  rewrite (same_key_congr a b k Hab). destruct (same_key b k); simpl; now rewrite IH.
Qed.

Lemma counted_nil : counted [] [].
Proof. split; intros; discriminate. Qed.

Lemma counted_step (pre : list simplifiedResult) (counts : list countEntry)
  (k : simplifiedResult) :
  counted pre counts ->
  counted (pre ++ [k]) (count_in k (length pre) counts).
Proof.
  intros [Hc Hf Hd Ha].
  assert (Hlt : forall p e, counts !! p = Some e -> result e < length pre).
  { intros p e Hp. destruct (Hf p e Hp) as [Hr _]. now apply lookup_lt_Some in Hr. }
  destruct (count_in_cases k (length pre) counts)
    as [[Hall ->]|(p0 & e0 & Hp0 & He0 & ->)].
  - (* a new entry *)
    rewrite Forall_lookup in Hall.
    assert (Hnew : forall j k', pre !! j = Some k' -> same_key k k' = false).
    { intros j k' Hj. destruct (Ha j k' Hj) as (p & e & Hp & He).
      destruct (same_key k k') eqn:Hk; [|reflexivity].
      rewrite same_key_sym in Hk.
      pose proof (Hall p e Hp) as Hfalse. simpl in Hfalse.
      rewrite (same_key_trans _ _ _ He Hk) in Hfalse. discriminate. }
    split.
    + intros p e Hp. apply lookup_snoc_Some in Hp.
      destruct Hp as [[_ Hp]|[_ <-]]; rewrite key_occurrences_snoc.
      * rewrite (Hall p e Hp), (Hc p e Hp). lia.
      * simpl. rewrite same_key_refl, (key_occurrences_none k pre Hnew). reflexivity.
    + intros p e Hp. apply lookup_snoc_Some in Hp.
      destruct Hp as [[_ Hp]|[_ <-]].
      * destruct (Hf p e Hp) as [Hr Hfirst]. split.
        -- rewrite lookup_app_l; [exact Hr | now apply lookup_lt_Some in Hr].
        -- intros j k' Hj Hk'. apply (Hfirst j k' Hj).
           rewrite lookup_app_l in Hk'; [exact Hk'|].
           apply lookup_lt_Some in Hr. lia.
      * simpl. split.
        -- rewrite lookup_app_r by lia. now rewrite Nat.sub_diag.
        -- intros j k' Hj Hk'. rewrite lookup_app_l in Hk' by exact Hj.
           exact (Hnew j k' Hk').
    + intros p q e1 e2 Hpq H1 H2.
      apply lookup_snoc_Some in H1, H2.
      destruct H1 as [[Hp H1]|[-> <-]], H2 as [[Hq H2]|[-> <-]]; try lia.
      * exact (Hd p q e1 e2 Hpq H1 H2).
      * simpl. split; [exact (Hall p e1 H1) | exact (Hlt p e1 H1)].
    + intros j k' Hj. apply lookup_snoc_Some in Hj.
      destruct Hj as [[_ Hj]|[_ <-]].
      * destruct (Ha j k' Hj) as (p & e & Hp & He).
        exists p, e. split; [|exact He].
        rewrite lookup_app_l; [exact Hp | now apply lookup_lt_Some in Hp].
      * exists (length counts), {| key := k; count := 1; result := length pre |}.
        split; [|apply same_key_refl].
        rewrite lookup_app_r by lia. now rewrite Nat.sub_diag.
  - (* the entry of an equal key is incremented *)
    assert (Hother : forall p e, p <> p0 -> counts !! p = Some e ->
                                 same_key (key e) k = false).
    { intros p e Hne Hp. destruct (same_key (key e) k) eqn:Hk; [|reflexivity].
      assert (Hsame : same_key (key e) (key e0) = true).
      { apply same_key_trans with k; [exact Hk | now rewrite same_key_sym]. }
      destruct (Nat.lt_total p p0) as [Hlt0|[Heq|Hgt]]; [|contradiction|].
      - destruct (Hd p p0 e e0 Hlt0 Hp Hp0) as [Hdiff _]. congruence.
      - destruct (Hd p0 p e0 e Hgt Hp0 Hp) as [Hdiff _].
        rewrite same_key_sym in Hdiff. congruence. }
    assert (Hlook : forall p e,
      <[p0 := {| key := key e0; count := S (count e0); result := result e0 |}]> counts
        !! p = Some e ->
      (p = p0 /\ e = {| key := key e0; count := S (count e0); result := result e0 |})
      \/ (p <> p0 /\ counts !! p = Some e)).
    { intros p e Hp. apply list_lookup_insert_Some in Hp.
      destruct Hp as [(-> & <- & _)|[Hne Hp]]; [now left | right; auto]. }
    assert (Hkeep : forall p e,
      <[p0 := {| key := key e0; count := S (count e0); result := result e0 |}]> counts
        !! p = Some e ->
      exists e', counts !! p = Some e' /\ key e = key e' /\ result e = result e').
    { intros p e Hp. destruct (Hlook p e Hp) as [[-> ->]|[_ Hp']]; eauto. }
    split.
    + intros p e Hp. rewrite key_occurrences_snoc.
      destruct (Hlook p e Hp) as [[-> ->]|[Hne Hp']].
      * simpl. rewrite He0, (Hc p0 e0 Hp0). lia.
      * rewrite (Hother p e Hne Hp'), (Hc p e Hp'). lia.
    + intros p e Hp. destruct (Hkeep p e Hp) as (e' & Hp' & -> & ->).
      destruct (Hf p e' Hp') as [Hr Hfirst]. split.
      * rewrite lookup_app_l; [exact Hr | now apply lookup_lt_Some in Hr].
      * intros j k' Hj Hk'. apply (Hfirst j k' Hj).
        rewrite lookup_app_l in Hk'; [exact Hk'|].
        apply lookup_lt_Some in Hr. lia.
    + intros p q e1 e2 Hpq H1 H2.
      destruct (Hkeep p e1 H1) as (e1' & H1' & -> & ->).
      destruct (Hkeep q e2 H2) as (e2' & H2' & -> & ->).
      exact (Hd p q e1' e2' Hpq H1' H2').
    + intros j k' Hj. apply lookup_snoc_Some in Hj.
      assert (Hstill : forall p e, counts !! p = Some e ->
        exists e',
          <[p0 := {| key := key e0; count := S (count e0); result := result e0 |}]>
            counts !! p = Some e' /\ key e' = key e).
      { intros p e Hp. destruct (Nat.eq_dec p p0) as [->|Hne].
        - eexists. split.
          + apply list_lookup_insert_eq. now apply lookup_lt_Some in Hp0.
          + simpl. congruence.
        - exists e. split; [|reflexivity].
          rewrite list_lookup_insert_ne by auto. exact Hp. }
      destruct Hj as [[_ Hj]|[_ <-]].
      * destruct (Ha j k' Hj) as (p & e & Hp & He).
        destruct (Hstill p e Hp) as (e' & Hp' & Hkey).
        exists p, e'. split; [exact Hp' | now rewrite Hkey].
      * destruct (Hstill p0 e0 Hp0) as (e' & Hp' & Hkey).
        exists p0, e'. split; [exact Hp' | now rewrite Hkey].
Qed.

Lemma count_results_counted (results : list value) :
  forall ks pre counts,
    omap_list simplify results = Returned ks ->
    counted pre counts ->
    exists counts',
      count_results results (length pre) counts = Returned counts' /\
      counted (pre ++ ks) counts'.
Proof.
  induction results as [|r rest IH]; intros ks pre counts Hks Hinv; simpl in *.
  - inversion Hks; subst ks. exists counts. now rewrite app_nil_r.
  - destruct (simplify r) as [k|]; [|discriminate]. simpl in *.
    destruct (omap_list simplify rest) as [ks'|] eqn:Hrest; [|discriminate].
    simpl in Hks. inversion Hks; subst ks.
    destruct (IH ks' (pre ++ [k]) (count_in k (length pre) counts) eq_refl
                (counted_step pre counts k Hinv)) as (counts' & Hrun & Hinv').
    rewrite length_app, Nat.add_1_r in Hrun.
    exists counts'. split; [exact Hrun|]. now rewrite <- app_assoc in Hinv'.
Qed.

Lemma candidates_have_keys (results : list value) :
  all_candidates results ->
  exists ks,
    omap_list simplify results = Returned ks /\
    length ks = length results /\
    (forall j r, results !! j = Some r ->
                 exists k, simplify r = Returned k /\ ks !! j = Some k) /\
    (forall x kx, simplify x = Returned kx ->
                  occurrences x results = key_occurrences kx ks).
Proof.
  induction 1 as [|r rest Hr _ (ks & Hks & Hlen & Hlook & Hocc)].
  - exists []. repeat split; try reflexivity. intros j r Hj. discriminate.
  - destruct (typed_simplify r Hr) as [k Hk].
    exists (k :: ks). simpl. rewrite Hk, Hks. simpl.
    split; [reflexivity|]. split; [now rewrite Hlen|]. split.
    + intros [|j] r' Hj; simpl in Hj.
      * inversion Hj; subst r'. eauto.
      * now apply Hlook.
    + intros x kx Hx. unfold occurrences, key_occurrences. simpl.
      rewrite (same_signature_keys x r kx k Hx Hk).
      specialize (Hocc x kx Hx). unfold occurrences, key_occurrences in Hocc.
      destruct (same_key kx k); simpl; now rewrite Hocc.
Qed.

Lemma key_occurrences_positive (k k' : simplifiedResult) (ks : list simplifiedResult)
  (j : nat) :
  ks !! j = Some k' -> same_key k k' = true -> 1 <= key_occurrences k ks.
Proof.
  unfold key_occurrences. revert j.
  induction ks as [|k0 ks IH]; intros [|j] Hj Hk; try discriminate; simpl in *.
  - inversion Hj; subst k0. rewrite Hk. simpl. lia.
  - destruct (same_key k k0); simpl; [lia | eauto].
Qed.

Lemma most_frequent_max (counts : list countEntry) :
  forall m0 f0 m f,
    most_frequent counts m0 f0 = (m, f) ->
    m0 <= m /\
    (forall p e, counts !! p = Some e -> count e <= m) /\
    ((m = m0 /\ f = f0) \/
     (exists p e,
        counts !! p = Some e /\ count e = m /\ f = Some (result e) /\ m0 < m /\
        forall q e', q < p -> counts !! q = Some e' -> count e' < m)).
Proof.
  induction counts as [|e counts IH]; intros m0 f0 m f H; simpl in H.
  - inversion H; subst. split; [lia|]. split; [discriminate | now left].
  - destruct (m0 <? count e) eqn:Hlt.
    + apply Nat.ltb_lt in Hlt.
      destruct (IH _ _ _ _ H) as (Hle & Hall & Hcase).
      split; [lia|]. split.
      * intros [|p] e' Hp; simpl in Hp; [inversion Hp; subst; lia | eauto].
      * right. destruct Hcase as [[-> ->]|(p & e' & Hp & Hc & -> & Hm & Hbefore)].
        -- exists 0, e. repeat split; lia.
        -- exists (S p), e'. repeat split; try assumption; try lia.
           intros [|q] e'' Hq Hl; simpl in Hl.
           ++ inversion Hl; subst. lia.
           ++ apply (Hbefore q e''); [lia | exact Hl].
    + apply Nat.ltb_ge in Hlt.
      destruct (IH _ _ _ _ H) as (Hle & Hall & Hcase).
      split; [lia|]. split.
      * intros [|p] e' Hp; simpl in Hp; [inversion Hp; subst; lia | eauto].
      * destruct Hcase as [[-> ->]|(p & e' & Hp & Hc & -> & Hm & Hbefore)];
          [now left|].
        right. exists (S p), e'. repeat split; try assumption.
        intros [|q] e'' Hq Hl; simpl in Hl.
        -- inversion Hl; subst. lia.
        -- apply (Hbefore q e''); [lia | exact Hl].
Qed.

Section Most_frequent.

Variable ToString_other : value -> outcome string.
Variable gt_other : value -> value -> outcome bool.

(** X9. Given candidates, one at least, the fallback reducer returns one of
    them with the note [maxCount/N], where [maxCount] is the number of
    candidates that have the signature of the one returned, and no
    signature is had by more candidates. When [maxCount] is two or more,
    the candidate returned is the first, in the order of the samples,
    whose signature is had by that many: every candidate before it has a
    signature had by fewer. *)
Theorem fallback_returns_the_most_frequent (results : list value) :
  results <> [] ->
  all_candidates results ->
  exists i x maxCount,
    results !! i = Some x /\
    findConsensusResultFallback ToString_other gt_other results
    = Returned (i, <[i := noted x maxCount (length results)]> results) /\
    maxCount = occurrences x results /\
    (forall y, y ∈ results -> occurrences y results <= maxCount) /\
    (2 <= maxCount ->
     forall j y, j < i -> results !! j = Some y ->
                 occurrences y results < maxCount).
Proof.
  intros Hne Hall.
  destruct (candidates_have_keys results Hall) as (ks & Hks & Hlen & Hlook & Hocc).
  destruct (count_results_counted results ks [] [] Hks counted_nil)
    as (counts & Hcounts & Hinv).
  simpl in Hcounts, Hinv. destruct Hinv as [Hc Hf Hd Ha].
  destruct (most_frequent counts 0 (match results with [] => None | _ :: _ => Some 0 end))
    as [m f] eqn:Hfreq.
  destruct (most_frequent_max _ _ _ _ _ Hfreq) as (_ & Hmax & Hcase).
  assert (HK : forall j r, results !! j = Some r ->
    exists k p e,
      simplify r = Returned k /\ ks !! j = Some k /\ counts !! p = Some e /\
      same_key (key e) k = true /\ occurrences r results = count e /\
      1 <= count e).
  { intros j r Hj. destruct (Hlook j r Hj) as (k & Hk & Hkj).
    destruct (Ha j k Hkj) as (p & e & Hp & He).
    exists k, p, e. repeat split; try assumption.
    - rewrite (Hocc r k Hk), (Hc p e Hp). symmetry.
      now apply key_occurrences_congr.
    - rewrite (Hc p e Hp). now apply key_occurrences_positive with k j. }
  assert (Hpos : 1 <= m).
  { destruct results as [|r0 rest]; [contradiction|].
    destruct (HK 0 r0 eq_refl) as (k & p & e & _ & _ & Hp & _ & _ & H1).
    specialize (Hmax p e Hp). lia. }
  destruct Hcase as [[-> _]|(p & e & Hp & Hm & -> & _ & Hbefore)]; [lia|].
  destruct (Hf p e Hp) as [Hr Hfirst].
  assert (Hri : result e < length results).
  { rewrite <- Hlen. now apply lookup_lt_Some in Hr. }
  assert (Hcons : exists i,
    (if m =? 1
     then most_confident gt_other results 0 (VNum 0) (Some (result e))
     else Returned (Some (result e))) = Returned (Some i) /\
    i < length results /\ (2 <= m -> i = result e)).
  { destruct (m =? 1) eqn:H1.
    - apply Nat.eqb_eq in H1.
      destruct (most_confident_typed gt_other results Hall 0 0%Q (Some (result e)))
        as (first' & h' & -> & _ & _ & [[-> _]|(j' & r & -> & Hj' & _)]).
      + exists (result e). split; [reflexivity|]. split; [exact Hri | lia].
      + exists (0 + j'). split; [reflexivity|]. split; [|lia].
        simpl. now apply lookup_lt_Some with r.
    - exists (result e). split; [reflexivity|]. split; [exact Hri | reflexivity]. }
  destruct Hcons as (i & Hcons & Hi & Hfirst_i).
  destruct (lookup_lt_is_Some_2 results i Hi) as [x Hx].
  assert (Hxt : is_candidate x = true).
  { unfold all_candidates in Hall. rewrite Forall_lookup in Hall. eauto. }
  destruct (typed_is_object x Hxt) as [props ->].
  assert (Hle : forall y, y ∈ results -> occurrences y results <= m).
  { intros y Hy. apply list_elem_of_lookup in Hy. destruct Hy as [j Hj].
    destruct (HK j y Hj) as (k & q & e' & _ & _ & Hq & _ & -> & _).
    exact (Hmax q e' Hq). }
  exists i, (VObj props), m.
  split; [exact Hx|]. split; [|split; [|split; [exact Hle|]]].
  - now apply (fallback_unfold ToString_other gt_other results counts m i
                 (Some (result e)) props).
  - destruct (HK i _ Hx) as (k & q & e' & Hk & Hki & Hq & He' & Hoc & H1).
    destruct (Nat.le_gt_cases 2 m) as [H2|H2].
    + rewrite (Hfirst_i H2) in Hki. rewrite Hr in Hki. inversion Hki; subst k.
      rewrite (Hocc _ _ Hk), <- (Hc p e Hp). now symmetry.
    + specialize (Hmax q e' Hq). lia.
  - intros H2 j y Hj Hy. rewrite (Hfirst_i H2) in Hj.
    destruct (HK j y Hy) as (k & q & e' & _ & Hkj & Hq & He' & -> & _).
    destruct (Hf q e' Hq) as [_ Hfirst'].
    assert (Hrj : result e' <= j).
    { destruct (Nat.le_gt_cases (result e') j) as [Hok|Hgt]; [exact Hok|].
      rewrite (Hfirst' j k Hgt Hkj) in He'. discriminate. }
    destruct (Nat.lt_total q p) as [Hqp|[->|Hqp]].
    + exact (Hbefore q e' Hqp Hq).
    + rewrite Hp in Hq. inversion Hq; subst e'. lia.
    + destruct (Hd p q e e' Hqp Hp Hq) as [_ Hlt]. lia.
Qed.

End Most_frequent.

(* ===================================================================== *)
(** * The page that calls the action *)
(* ===================================================================== *)

Lemma split_comma_whole (s : string) :
  HomePage.no_comma s = true -> HomePage.split_comma s = [s].
Proof.
  induction s as [|c s IH]; simpl; [reflexivity|].
  destruct (Ascii.eqb c ","); [discriminate|]. simpl. intros H.
  now rewrite (IH H).
Qed.

Lemma split_comma_header (header rest : string) :
  HomePage.no_comma header = true ->
  HomePage.split_comma (header ++ String "," rest)%string
  = header :: HomePage.split_comma rest.
Proof.
  induction header as [|c header IH]; simpl; [reflexivity|].
  destruct (Ascii.eqb c ","); [discriminate|]. simpl. intros H.
  now rewrite (IH H).
Qed.

(** X11. fileToBase64 gives the payload of a data URL: for a URL made of a
    header without a comma, a comma and a payload without a comma, as a
    base64 payload is, it resolves with the payload, header and comma
    removed. For a URL without any comma it resolves with undefined, and
    when the reader fails it rejects with what the reader gave. *)
Theorem fileToBase64_gives_the_payload (t header payload : string) :
  HomePage.no_comma header = true ->
  HomePage.no_comma payload = true ->
  HomePage.fileToBase64
    {| HomePage.type := t;
       HomePage.readAsDataURL := Returned (header ++ String "," payload)%string |}
  = Returned (Some payload) /\
  HomePage.fileToBase64
    {| HomePage.type := t; HomePage.readAsDataURL := Returned header |}
  = Returned None /\
  (forall e,
     HomePage.fileToBase64
       {| HomePage.type := t; HomePage.readAsDataURL := Thrown e |}
     = Thrown e).
Proof.
  intros Hh Hp. unfold HomePage.fileToBase64. simpl.
  rewrite (split_comma_header header payload Hh), (split_comma_whole payload Hp),
          (split_comma_whole header Hh).
  repeat split.
Qed.

Lemma fileToBase64_gives_the_payload_witness :
  HomePage.fileToBase64
    {| HomePage.type := "image/png";
       HomePage.readAsDataURL := Returned "data:image/png;base64,iVBORw0KGgo=" |}
  = Returned (Some "iVBORw0KGgo=") /\
  HomePage.fileToBase64
    {| HomePage.type := "image/png";
       HomePage.readAsDataURL := Returned "data:image/png;base64" |}
  = Returned None /\
  (forall e,
     HomePage.fileToBase64
       {| HomePage.type := "image/png"; HomePage.readAsDataURL := Thrown e |}
     = Thrown e).
Proof.
  apply (fileToBase64_gives_the_payload
           "image/png" "data:image/png;base64" "iVBORw0KGgo=");
    reflexivity.
Defined.

(** X12. After handleSubmit on a selected image, whatever the reader and the
    action do, the page is no longer loading, the image and the context
    are as they were, and exactly one of [error] and [calorieData] is set:
    [calorieData] to the result of the action when that result has no
    truthy [error], and otherwise [error], to the truthy [error] of the
    result or, when the reader or the action failed or the result is
    null, to the fixed text of the page. *)
Theorem handleSubmit_settles
  (action : option string -> string -> string -> outcome value)
  (s : HomePage.state) (image : HomePage.File) :
  HomePage.selectedImage s = Some image ->
  let s' := HomePage.handleSubmit action s in
  HomePage.isLoading s' = false /\
  HomePage.selectedImage s' = HomePage.selectedImage s /\
  HomePage.mealContext s' = HomePage.mealContext s /\
  ((HomePage.error s' = None /\
    exists base64Content result,
      HomePage.fileToBase64 image = Returned base64Content /\
      action base64Content (HomePage.type image) (HomePage.mealContext s)
      = Returned result /\
      HomePage.calorieData s' = Some result /\
      truthy (or_else (get_prop result "error") VNull) = false)
   \/
   (HomePage.calorieData s' = None /\
    exists message,
      HomePage.error s' = Some message /\ truthy message = true /\
      (message = HomePage.failed_to_process \/
       exists base64Content result,
         HomePage.fileToBase64 image = Returned base64Content /\
         action base64Content (HomePage.type image) (HomePage.mealContext s)
         = Returned result /\
         get_prop result "error" = Some message))).
Proof.
  intros Himage s'. subst s'. unfold HomePage.handleSubmit.
  destruct (HomePage.selectedImage s) as [image'|] eqn:Hsel; [|discriminate].
  inversion Himage; subst image'. clear Himage.
  assert (Hfixed : truthy HomePage.failed_to_process = true) by reflexivity.
  cbn [HomePage.mealContext HomePage.setCalorieData HomePage.setError
       HomePage.setIsLoading].
  destruct (HomePage.fileToBase64 image) as [base64Content|e] eqn:Hread;
    cbn [obind].
  2:{ cbn. rewrite Hsel. repeat split. right. split; [reflexivity|].
      exists HomePage.failed_to_process. repeat split. now left. }
  destruct (action base64Content (HomePage.type image) (HomePage.mealContext s))
    as [result|e] eqn:Hact; cbn [obind].
  2:{ cbn. rewrite Hsel. repeat split. right. split; [reflexivity|].
      exists HomePage.failed_to_process. repeat split. now left. }
  destruct result as [ |b|q|t|elems named|props]; cbn [read_prop obind].
  { cbn. rewrite Hsel. repeat split. right. split; [reflexivity|].
    exists HomePage.failed_to_process. repeat split. now left. }
  all: match goal with
       | |- context [get_prop ?r "error"] =>
           destruct (get_prop r "error") as [message|] eqn:Herr
       end.
  all: try destruct (truthy message) eqn:Ht.
  all: cbn [HomePage.isLoading HomePage.selectedImage HomePage.mealContext
            HomePage.calorieData HomePage.error HomePage.setCalorieData
            HomePage.setError HomePage.setIsLoading].
  all: rewrite ?Hsel.
  all: split; [reflexivity|]; split; [reflexivity|]; split; [reflexivity|].
  all: first
    [ left; split; [reflexivity|]; eexists _, _;
      split; [reflexivity|]; split; [exact Hact|]; split; [reflexivity|];
      rewrite Herr; cbn [or_else]; try rewrite Ht; reflexivity
    | right; split; [reflexivity|]; exists message;
      split; [reflexivity|]; split; [exact Ht|]; right; eexists _, _;
      split; [reflexivity|]; split; [exact Hact | exact Herr] ].
Qed.

Lemma handleSubmit_settles_witness :
  let s :=
    {| HomePage.selectedImage :=
         Some {| HomePage.type := "image/png";
                 HomePage.readAsDataURL :=
                   Returned "data:image/png;base64,iVBORw0KGgo=" |};
       HomePage.mealContext := "lunch";
       HomePage.isLoading := false;
       HomePage.calorieData := Some Samples.salad;
       HomePage.error := Some (VStr "an earlier error") |} in
  let s' := HomePage.handleSubmit (fun _ _ _ => Returned Samples.rice_bowl) s in
  HomePage.isLoading s' = false /\
  HomePage.error s' = None /\
  HomePage.calorieData s' = Some Samples.rice_bowl.
Proof.
  intros s s'.
  destruct (handleSubmit_settles
              (fun _ _ _ => Returned Samples.rice_bowl) s
              {| HomePage.type := "image/png";
                 HomePage.readAsDataURL :=
                   Returned "data:image/png;base64,iVBORw0KGgo=" |}
              eq_refl) as (Hloading & _ & _ & _).
  split; [exact Hloading|]. split; reflexivity.
Defined.

(** The page shows its fixed text when the action rejects, as it does on
    the samples whose [items] is an object. *)
Example page_shows_its_text_when_the_action_rejects :
  let s :=
    {| HomePage.selectedImage :=
         Some {| HomePage.type := "image/png";
                 HomePage.readAsDataURL :=
                   Returned "data:image/png;base64,iVBORw0KGgo=" |};
       HomePage.mealContext := "lunch";
       HomePage.isLoading := false;
       HomePage.calorieData := None;
       HomePage.error := None |} in
  let action :=
    fun (base64Content : option string) (mimeType mealContext : string) =>
      fst (getCalorieBreakdown no_ToString no_gt (Some "key")
             Samples.five_samples_items_object
             (match base64Content with Some d => d | None => EmptyString end)
             mimeType mealContext 0) in
  HomePage.error (HomePage.handleSubmit action s)
  = Some (VStr "Failed to process image. Please try again.") /\
  HomePage.calorieData (HomePage.handleSubmit action s) = None /\
  HomePage.isLoading (HomePage.handleSubmit action s) = false.
Proof. vm_compute. repeat split. Qed.

Lemma fallback_returns_the_most_frequent_witness :
  exists i x maxCount,
    [Samples.salad; Samples.rice_bowl; Samples.salad;
     Samples.rice_bowl_again; Samples.rice_bowl] !! i = Some x /\
    findConsensusResultFallback no_ToString no_gt
      [Samples.salad; Samples.rice_bowl; Samples.salad;
       Samples.rice_bowl_again; Samples.rice_bowl]
    = Returned (i, <[i := noted x maxCount 5]>
                     [Samples.salad; Samples.rice_bowl; Samples.salad;
                      Samples.rice_bowl_again; Samples.rice_bowl]) /\
    maxCount = occurrences x
                 [Samples.salad; Samples.rice_bowl; Samples.salad;
                  Samples.rice_bowl_again; Samples.rice_bowl] /\
    (forall y,
       y ∈ [Samples.salad; Samples.rice_bowl; Samples.salad;
            Samples.rice_bowl_again; Samples.rice_bowl] ->
       occurrences y
         [Samples.salad; Samples.rice_bowl; Samples.salad;
          Samples.rice_bowl_again; Samples.rice_bowl] <= maxCount) /\
    (2 <= maxCount ->
     forall j y,
       j < i ->
       [Samples.salad; Samples.rice_bowl; Samples.salad;
        Samples.rice_bowl_again; Samples.rice_bowl] !! j = Some y ->
       occurrences y
         [Samples.salad; Samples.rice_bowl; Samples.salad;
          Samples.rice_bowl_again; Samples.rice_bowl] < maxCount).
Proof.
  apply (fallback_returns_the_most_frequent no_ToString no_gt
           [Samples.salad; Samples.rice_bowl; Samples.salad;
            Samples.rice_bowl_again; Samples.rice_bowl]).
  - discriminate.
  - repeat constructor.
Defined.

(** Three of five samples are rice bowls, the first of them the second
    sample: it is returned, with the note 3/5. *)
Example three_of_five :
  (let! r := findConsensusResultFallback no_ToString no_gt
               [Samples.salad; Samples.rice_bowl; Samples.salad;
                Samples.rice_bowl_again; Samples.rice_bowl] in
   Returned (fst r, get_prop (candidate_at r) "assumptionsMade"))
  = Returned (1, Some (VStr "(Based on consensus from 3/5 analyses)")).
Proof. vm_compute. reflexivity. Qed.

(** X10. Having the same signature is an equivalence on the values the reducer
    can read, and the signature is read from mealDescription,
    totalEstimatedCalories and items alone: two candidates that agree on
    these three properties have the same signature, whatever their
    confidenceScore, assumptionsMade and other properties are. *)
Theorem same_signature_is_an_equivalence :
  (forall x, is_candidate x = true -> same_signature x x = true) /\
  (forall x y, same_signature x y = same_signature y x) /\
  (forall x y z,
     same_signature x y = true -> same_signature y z = true ->
     same_signature x z = true) /\
  (forall x y,
     is_candidate x = true -> is_candidate y = true ->
     get_prop x "mealDescription" = get_prop y "mealDescription" ->
     get_prop x "totalEstimatedCalories" = get_prop y "totalEstimatedCalories" ->
     get_prop x "items" = get_prop y "items" ->
     same_signature x y = true).
Proof.
  split; [|split; [|split]].
  - intros x Hx. destruct (typed_simplify x Hx) as [k Hk].
    rewrite (same_signature_keys x x k k Hk Hk). apply same_key_refl.
  - intros x y. unfold same_signature.
    destruct (simplify x), (simplify y); try reflexivity. apply same_key_sym.
  - intros x y z. unfold same_signature.
    destruct (simplify x), (simplify y), (simplify z); try discriminate.
    apply same_key_trans.
  - intros x y Hx Hy Hmd Htotal Hitems.
    destruct (typed_is_object x Hx) as [px ->].
    destruct (typed_is_object y Hy) as [py ->].
    destruct (typed_simplify _ Hx) as [k Hk].
    assert (Hk' : simplify (VObj py) = Returned k).
    { revert Hk. unfold simplify. cbn [read_prop obind].
      now rewrite Hmd, Htotal, Hitems. }
    rewrite (same_signature_keys _ _ k k Hk Hk'). apply same_key_refl.
Qed.

Lemma missing_key_gives_failure_witness :
  getCalorieBreakdown no_ToString no_gt None Samples.gate_says_yes
    "image" "image/png" "lunch" 0
  = (Returned generic_failure_result, 0).
Proof.
  apply (missing_key_gives_failure no_ToString no_gt None Samples.gate_says_yes
           "image" "image/png" "lunch" 0).
  reflexivity.
Defined.

(* ===================================================================== *)
(** * From the first opening brace to the last closing brace *)
(* ===================================================================== *)

Lemma greedy_any_none (s : string) :
  lacks "}" s = true -> greedy any (match_here [Lit "}"]) s = None.
Proof.
  induction s as [|d s IH]; [reflexivity|].
  cbn [lacks]. intros H. apply andb_prop in H. destruct H as [Hd Hs].
  apply negb_true_iff in Hd.
  cbn [greedy any]. rewrite (IH Hs). cbn [match_here]. now rewrite Hd.
Qed.

Lemma greedy_any_last (t suffix : string) :
  lacks "}" suffix = true ->
  greedy any (match_here [Lit "}"]) (t ++ String "}" suffix)%string
  = Some ([t; String "}" EmptyString], suffix).
Proof.
  intros Hs. induction t as [|d t IH].
  - cbn [String.append greedy any]. rewrite (greedy_any_none suffix Hs).
    reflexivity.
  - cbn [String.append greedy any]. now rewrite IH.
Qed.

Lemma match_here_braces (c : ascii) (s : string) :
  match_here (atoms_of re_braces) (String c s)
  = if Ascii.eqb "{" c
    then match greedy any (match_here [Lit "}"]) s with
         | Some (ts, rest) => Some (String c EmptyString :: ts, rest)
         | None => None
         end
    else None.
Proof. reflexivity. Qed.

Lemma search_braces_skip (prefix r : string) :
  lacks "{" prefix = true ->
  search re_braces (prefix ++ r)%string = search re_braces r.
Proof.
  induction prefix as [|c prefix IH]; [reflexivity|].
  intros H. cbn [lacks] in H. apply andb_prop in H. destruct H as [Hc Hp].
  apply negb_true_iff in Hc.
  cbn [String.append search]. unfold match_at at 1.
  rewrite match_here_braces, Hc. now apply IH.
Qed.

Lemma search_braces_none (s : string) :
  lacks "}" s = true -> search re_braces s = None.
Proof.
  induction s as [|c s IH]; [reflexivity|].
  intros H. pose proof H as H'. cbn [lacks] in H'. apply andb_prop in H'.
  destruct H' as [_ Hs].
  cbn [search]. unfold match_at at 1. rewrite match_here_braces.
  destruct (Ascii.eqb "{" c); [|now apply IH].
  rewrite (greedy_any_none s Hs). now apply IH.
Qed.

Lemma search_braces_found (prefix t suffix : string) :
  lacks "{" prefix = true ->
  lacks "}" suffix = true ->
  search re_braces (prefix ++ String "{" (t ++ String "}" suffix))%string
  = Some (String "{" (t ++ String "}" EmptyString))%string.
Proof.
  intros Hp Hs. rewrite (search_braces_skip prefix _ Hp).
  cbn [search]. unfold match_at. rewrite match_here_braces, Ascii.eqb_refl.
  rewrite (greedy_any_last t suffix Hs). reflexivity.
Qed.

(** A text has no opening brace, or no closing brace after the first
    opening one, or it is cut by its first opening brace and its last
    closing brace. *)
Lemma braces_or_not (s : string) :
  search re_braces s = None \/
  exists prefix t suffix,
    s = (prefix ++ String "{" (t ++ String "}" suffix))%string /\
    lacks "{" prefix = true /\ lacks "}" suffix = true.
Proof.
  assert (Hlast : forall r,
    lacks "}" r = true \/
    exists t suffix, r = (t ++ String "}" suffix)%string /\ lacks "}" suffix = true).
  { induction r as [|c r IH]; [now left|].
    destruct IH as [Hr|(t & suffix & -> & Hs)].
    - destruct (Ascii.eqb "}" c) eqn:Hc.
      + apply Ascii.eqb_eq in Hc. subst c. right. exists EmptyString, r. auto.
      + left. cbn [lacks]. now rewrite Hc.
    - right. exists (String c t), suffix. auto. }
  induction s as [|c s IH]; [now left|].
  destruct (Ascii.eqb "{" c) eqn:Hc.
  - apply Ascii.eqb_eq in Hc. subst c.
    destruct (Hlast s) as [Hr|(t & suffix & -> & Hs)].
    + left. apply search_braces_none. exact Hr.
    + right. exists EmptyString, t, suffix. auto.
  - destruct IH as [Hnone|(prefix & t & suffix & -> & Hp & Hs)].
    + left. cbn [search]. unfold match_at at 1.
      now rewrite match_here_braces, Hc.
    + right. exists (String c prefix), t, suffix.
      split; [reflexivity|]. split; [|exact Hs].
      cbn [lacks]. now rewrite Hc.
Qed.

(** X14. The extraction of the JSON part, in processGeminiResponse and in
    validateJsonFormat, keeps the text from the first opening brace to the
    last closing brace, whatever stands between them, and drops what is
    before and after; a text without an opening brace, or without a
    closing brace, is kept as it is; and extracting twice gives what
    extracting once gives. *)
Theorem extract_braces_first_to_last :
  (forall prefix t suffix,
     lacks "{" prefix = true ->
     lacks "}" suffix = true ->
     extract_braces (prefix ++ String "{" (t ++ String "}" suffix))%string
     = String "{" (t ++ String "}" EmptyString)%string) /\
  (forall s, lacks "{" s = true -> extract_braces s = s) /\
  (forall s, lacks "}" s = true -> extract_braces s = s) /\
  (forall s, extract_braces (extract_braces s) = extract_braces s).
Proof.
  assert (Hfound : forall prefix t suffix,
     lacks "{" prefix = true ->
     lacks "}" suffix = true ->
     extract_braces (prefix ++ String "{" (t ++ String "}" suffix))%string
     = String "{" (t ++ String "}" EmptyString)%string).
  { intros prefix t suffix Hp Hs. unfold extract_braces.
    now rewrite (search_braces_found prefix t suffix Hp Hs). }
  split; [exact Hfound|]. split; [|split].
  - intros s Hs. unfold extract_braces.
    rewrite <- (append_empty_r s) at 1.
    now rewrite (search_braces_skip s EmptyString Hs).
  - intros s Hs. unfold extract_braces. now rewrite (search_braces_none s Hs).
  - intros s. destruct (braces_or_not s) as [Hnone|(prefix & t & suffix & -> & Hp & Hs)].
    + unfold extract_braces at 2. rewrite Hnone. unfold extract_braces.
      now rewrite Hnone.
    + rewrite (Hfound prefix t suffix Hp Hs).
      exact (Hfound EmptyString t EmptyString eq_refl eq_refl).
Qed.

(** The prose around an object is dropped, braces inside the object are
    kept. *)
Example prose_around_the_object_is_dropped :
  extract_braces (quoted "Here you are: {'a':{'b':1}} Enjoy your meal!")
  = quoted "{'a':{'b':1}}".
Proof. vm_compute. reflexivity. Qed.

(* ===================================================================== *)
(** * The removal of the code fences *)
(* ===================================================================== *)

Lemma space_is_no_fence (d : ascii) :
  is_space d = true ->
  Ascii.eqb "`" d = false /\ Ascii.eqb "j" d = false.
Proof.
  destruct d as [[] [] [] [] [] [] [] []]; vm_compute; intros H;
    try discriminate H; split; reflexivity.
Qed.

Lemma all_space_lacks_backtick (ws : string) :
  all_space ws = true -> lacks "`" ws = true.
Proof.
  induction ws as [|d ws IH]; [reflexivity|].
  cbn [all_space lacks]. intros H. apply andb_prop in H. destruct H as [Hd Hw].
  destruct (space_is_no_fence d Hd) as [-> _]. now apply IH.
Qed.

Section Scan.

Variable p : pattern.
Variable tmpl : list piece.
Variable c0 : ascii.

(** The pattern begins with the literal [c0]. *)
Hypothesis first_literal :
  forall d r, Ascii.eqb c0 d = false -> match_at p (String d r) = None.
Hypothesis not_empty : match_at p EmptyString = None.

Lemma replace_from_copies (a r : string) :
  lacks c0 a = true ->
  replace_from p tmpl 0 (a ++ r)%string = (a ++ replace_from p tmpl 0 r)%string.
Proof.
  induction a as [|d a IH]; [reflexivity|].
  cbn [lacks]. intros H. apply andb_prop in H. destruct H as [Hd Ha].
  apply negb_true_iff in Hd.
  cbn [String.append replace_from]. rewrite (first_literal d _ Hd).
  now rewrite (IH Ha).
Qed.

Lemma replace_from_copies_all (a : string) :
  lacks c0 a = true -> replace_from p tmpl 0 a = a.
Proof.
  intros Ha. rewrite <- (append_empty_r a) at 1.
  rewrite (replace_from_copies a EmptyString Ha).
  cbn [replace_from]. rewrite not_empty. apply append_empty_r.
Qed.

Lemma replace_from_skips (a r : string) :
  replace_from p tmpl (String.length a) (a ++ r)%string = replace_from p tmpl 0 r.
Proof. induction a as [|d a IH]; [reflexivity | exact IH]. Qed.

End Scan.

Lemma replace_from_no_match (p : pattern) (tmpl : list piece) (c : ascii) (s : string) :
  match_at p (String c s) = None ->
  replace_from p tmpl 0 (String c s) = String c (replace_from p tmpl 0 s).
Proof. intros H. cbn [replace_from]. now rewrite H. Qed.

Lemma greedy_space (k : string -> option (list string * string))
  (ws r t0 rest : string) (ts : list string) :
  all_space ws = true ->
  greedy is_space k r = Some (t0 :: ts, rest) ->
  greedy is_space k (ws ++ r)%string = Some ((ws ++ t0)%string :: ts, rest).
Proof.
  intros Hw Hr. induction ws as [|d ws IH]; [exact Hr|].
  cbn [all_space] in Hw. apply andb_prop in Hw. destruct Hw as [Hd Hw].
  cbn [String.append greedy]. now rewrite Hd, (IH Hw).
Qed.

Lemma greedy_space_stops (k : string -> option (list string * string))
  (r rest : string) (ts : list string) :
  starts_without_space r = true ->
  k r = Some (ts, rest) ->
  greedy is_space k r = Some (EmptyString :: ts, rest).
Proof.
  intros Hr Hk. destruct r as [|c r]; cbn [greedy]; rewrite Hk; [reflexivity|].
  cbn [starts_without_space] in Hr. apply negb_true_iff in Hr. now rewrite Hr.
Qed.

Lemma match_here_lit (c d : ascii) (r : list atom) (s : string) :
  match_here (Lit c :: r) (String d s)
  = if Ascii.eqb c d
    then match match_here r s with
         | Some (ts, rest) => Some (String d EmptyString :: ts, rest)
         | None => None
         end
    else None.
Proof. reflexivity. Qed.

Lemma match_here_many (q : ascii -> bool) (r : list atom) (s : string) :
  match_here (Many q :: r) s = greedy q (match_here r) s.
Proof. destruct s; reflexivity. Qed.

Lemma atoms_of_fence_open :
  atoms_of re_fence_open
  = [Lit "`"; Lit "`"; Lit "`"; Lit "j"; Lit "s"; Lit "o"; Lit "n"; Many is_space].
Proof. reflexivity. Qed.

Lemma atoms_of_fence_close :
  atoms_of re_fence_close = [Lit "`"; Lit "`"; Lit "`"; Many is_space; End].
Proof. reflexivity. Qed.

(** One literal of the pattern against one character of the text. *)
Ltac literal :=
  rewrite match_here_lit;
  first [ rewrite Ascii.eqb_refl
        | match goal with H : Ascii.eqb _ _ = false |- _ => rewrite H end ];
  cbv iota.

Lemma fence_open_first (d : ascii) (r : string) :
  Ascii.eqb "`" d = false -> match_at re_fence_open (String d r) = None.
Proof.
  intros Hd. unfold match_at. rewrite atoms_of_fence_open. now literal.
Qed.

Lemma fence_close_first (d : ascii) (r : string) :
  Ascii.eqb "`" d = false -> match_at re_fence_close (String d r) = None.
Proof.
  intros Hd. unfold match_at. rewrite atoms_of_fence_close. now literal.
Qed.

(** What follows the closing fence is white space: the opening pattern
    does not match there. *)
Lemma fence_open_skips_closing_fence (ws : string) :
  all_space ws = true ->
  replace_from re_fence_open [] 0 (String "`" (String "`" (String "`" ws)))
  = String "`" (String "`" (String "`" ws)).
Proof.
  intros Hw.
  assert (Htail : replace_from re_fence_open [] 0 ws = ws).
  { apply (replace_from_copies_all re_fence_open [] "`" fence_open_first eq_refl).
    now apply all_space_lacks_backtick. }
  destruct ws as [|d ws]; [reflexivity|].
  pose proof Hw as Hd. cbn [all_space] in Hd. apply andb_prop in Hd.
  destruct Hd as [Hd _]. destruct (space_is_no_fence d Hd) as [Hb Hj].
  assert (H1 : match_at re_fence_open (String "`" (String "`" (String "`" (String d ws))))
               = None).
  { clear Hb. unfold match_at. rewrite atoms_of_fence_open. now do 4 literal. }
  assert (H2 : match_at re_fence_open (String "`" (String "`" (String d ws))) = None).
  { clear Hj. unfold match_at. rewrite atoms_of_fence_open. now do 3 literal. }
  assert (H3 : match_at re_fence_open (String "`" (String d ws)) = None).
  { clear Hj. unfold match_at. rewrite atoms_of_fence_open. now do 2 literal. }
  rewrite (replace_from_no_match _ _ _ _ H1), (replace_from_no_match _ _ _ _ H2),
          (replace_from_no_match _ _ _ _ H3).
  now rewrite Htail.
Qed.

(** X15. The removal of the code fences, in processGeminiResponse and in
    validateJsonFormat, leaves a text without a backtick as it is; and
    from a body without a backtick that stands between an opening fence
    with the word json and a closing fence, white space after either, it
    removes both fences and that white space, and nothing else. *)
Theorem strip_fences_removes_the_fences :
  (forall s, lacks "`" s = true -> strip_fences s = s) /\
  (forall ws body ws',
     all_space ws = true ->
     all_space ws' = true ->
     lacks "`" body = true ->
     starts_without_space body = true ->
     strip_fences ("```json" ++ ws ++ body ++ "```" ++ ws')%string = body).
Proof.
  split.
  - intros s Hs. unfold strip_fences, replace_all.
    rewrite (replace_from_copies_all re_fence_open [] "`" fence_open_first eq_refl s Hs).
    exact (replace_from_copies_all re_fence_close [] "`" fence_close_first eq_refl s Hs).
  - intros ws body ws' Hw Hw' Hb Hstart. unfold strip_fences, replace_all.
    assert (Hopen :
      replace_from re_fence_open [] 0 ("```json" ++ ws ++ body ++ "```" ++ ws')%string
      = (body ++ "```" ++ ws')%string).
    { assert (Hm : match_at re_fence_open
                     ("```json" ++ ws ++ body ++ "```" ++ ws')%string
                   = Some {| whole := ("```json" ++ ws)%string;
                             captures := [];
                             rest := (body ++ "```" ++ ws')%string |}).
      { assert (Hstart' : starts_without_space (body ++ "```" ++ ws')%string = true)
          by (destruct body; [reflexivity | exact Hstart]).
        remember (body ++ "```" ++ ws')%string as tail eqn:Htail.
        unfold match_at. rewrite atoms_of_fence_open.
        cbn [String.append]. do 7 literal. rewrite match_here_many.
        rewrite (greedy_space (match_here []) ws tail EmptyString tail [] Hw).
        - rewrite append_empty_r. reflexivity.
        - now apply greedy_space_stops. }
      change ("```json" ++ ws ++ body ++ "```" ++ ws')%string
        with (String "`" ("``json" ++ ws ++ body ++ "```" ++ ws'))%string in *.
      cbn [replace_from]. rewrite Hm. cbn [whole captures expand map String.concat].
      change (String.length ("```json" ++ ws)%string)
        with (S (String.length ("``json" ++ ws)%string)).
      cbv iota.
      change ("``json" ++ ws ++ body ++ "```" ++ ws')%string
        with (("``json" ++ ws) ++ (body ++ "```" ++ ws'))%string.
      rewrite (replace_from_skips re_fence_open []).
      rewrite (replace_from_copies re_fence_open [] "`" fence_open_first body _ Hb).
      change ("```" ++ ws')%string with (String "`" (String "`" (String "`" ws'))).
      now rewrite (fence_open_skips_closing_fence ws' Hw'). }
    rewrite Hopen.
    rewrite (replace_from_copies re_fence_close [] "`" fence_close_first body _ Hb).
    assert (Hm : match_at re_fence_close ("```" ++ ws')%string
                 = Some {| whole := ("```" ++ ws')%string;
                           captures := [];
                           rest := EmptyString |}).
    { unfold match_at. rewrite atoms_of_fence_close.
      cbn [String.append]. do 3 literal. rewrite match_here_many.
      rewrite <- (append_empty_r ws') at 1.
      rewrite (greedy_space (match_here [End]) ws' EmptyString EmptyString
                 EmptyString [EmptyString] Hw' eq_refl).
      rewrite !append_empty_r. cbn [String.concat String.append].
      rewrite !append_empty_r. reflexivity. }
    change ("```" ++ ws')%string with (String "`" ("``" ++ ws'))%string in *.
    cbn [replace_from]. rewrite Hm. cbn [whole captures expand map String.concat].
    change (String.length (String "`" ("``" ++ ws')%string))
      with (S (String.length ("``" ++ ws')%string)).
    cbv iota.
    rewrite <- (append_empty_r ("``" ++ ws')%string) at 2.
    rewrite (replace_from_skips re_fence_close []).
    cbn [replace_from]. apply append_empty_r.
Qed.

(** A fenced reply, as the model gives it. *)
Example fenced_reply :
  strip_fences (quoted "```json
{'a': 1}
```
")%string = quoted "{'a': 1}
".
Proof. vm_compute. reflexivity. Qed.

(* ===================================================================== *)
(** * What the cleanup makes of a text value *)
(* ===================================================================== *)

Lemma plain_char (c : ascii) :
  is_plain c = true ->
  Ascii.eqb dquote c = false /\ Ascii.eqb "," c = false /\
  Ascii.eqb "`" c = false /\ Ascii.eqb "{" c = false /\ Ascii.eqb "}" c = false /\
  none_of dq c = true /\ none_of ",:{[]}" c = true /\
  (nat_of_ascii c =? 34) = false /\ (nat_of_ascii c =? 92) = false /\
  (nat_of_ascii c <? 32) = false.
Proof.
  destruct c as [[] [] [] [] [] [] [] []]; vm_compute; intros H;
    try discriminate H; repeat split.
Qed.

Lemma plain_lacks (c0 : ascii) (s : string) :
  (forall c, is_plain c = true -> Ascii.eqb c0 c = false) ->
  plain s = true -> lacks c0 s = true.
Proof.
  intros Hc. induction s as [|c s IH]; [reflexivity|].
  cbn [plain lacks]. intros H. apply andb_prop in H. destruct H as [H1 H2].
  now rewrite (Hc c H1), (IH H2).
Qed.

Lemma lacks_app (c : ascii) (a b : string) :
  lacks c (a ++ b)%string = lacks c a && lacks c b.
Proof.
  induction a as [|d a IH]; [reflexivity|].
  cbn [String.append lacks]. rewrite IH. now rewrite andb_assoc.
Qed.

Lemma greedy_stop (q : ascii -> bool) (k : string -> option (list string * string))
  (d : ascii) (s : string) :
  q d = false ->
  greedy q k (String d s)
  = match k (String d s) with
    | Some (ts, rest) => Some (EmptyString :: ts, rest)
    | None => None
    end.
Proof. intros H. cbn [greedy]. now rewrite H. Qed.

Lemma greedy_step (q : ascii -> bool) (k : string -> option (list string * string))
  (d : ascii) (s t rest : string) (ts : list string) :
  q d = true ->
  greedy q k s = Some (t :: ts, rest) ->
  greedy q k (String d s) = Some (String d t :: ts, rest).
Proof. intros H Hs. cbn [greedy]. now rewrite H, Hs. Qed.

Lemma greedy_back (q : ascii -> bool) (k : string -> option (list string * string))
  (d : ascii) (s : string) :
  greedy q k s = None ->
  k (String d s) = None ->
  greedy q k (String d s) = None.
Proof. intros Hs Hk. cbn [greedy]. rewrite Hs, Hk. now destruct (q d). Qed.

Lemma match_here_many1 (q : ascii -> bool) (r : list atom) (d : ascii) (s : string) :
  match_here (Many1 q :: r) (String d s)
  = if q d
    then match greedy q (match_here r) s with
         | Some (t :: ts, rest) => Some (String d t :: ts, rest)
         | _ => None
         end
    else None.
Proof. reflexivity. Qed.

Lemma match_here_cls (q : ascii -> bool) (r : list atom) (d : ascii) (s : string) :
  match_here (Cls q :: r) (String d s)
  = if q d
    then match match_here r s with
         | Some (ts, rest) => Some (String d EmptyString :: ts, rest)
         | None => None
         end
    else None.
Proof. reflexivity. Qed.

Lemma atoms_of_interleaved :
  atoms_of re_interleaved
  = [Lit dquote; Many (none_of dq); Lit dquote; Many is_space;
     Many1 (none_of ",:{[]}"); Cls (one_of ":,{[]}")].
Proof. reflexivity. Qed.

(** At the opening quote of the key the pattern does not match: a colon
    follows the key. *)
Lemma greedy_key_fails (k R : string) :
  plain k = true ->
  greedy (none_of dq)
    (match_here [Lit dquote; Many is_space; Many1 (none_of ",:{[]}");
                 Cls (one_of ":,{[]}")])
    (k ++ String dquote (String ":" R))%string
  = None.
Proof.
  intros Hk. induction k as [|c k IH].
  - cbn [String.append]. rewrite greedy_stop by reflexivity.
    rewrite match_here_lit, Ascii.eqb_refl, match_here_many.
    rewrite greedy_stop by reflexivity. now rewrite match_here_many1.
  - cbn [plain] in Hk. apply andb_prop in Hk. destruct Hk as [Hc Hk].
    destruct (plain_char c Hc) as (Hq & _).
    cbn [String.append]. apply greedy_back; [now apply IH|].
    now rewrite match_here_lit, Hq.
Qed.

Lemma interleaved_not_at_the_key (k R : string) :
  plain k = true ->
  match_at re_interleaved (String dquote (k ++ String dquote (String ":" R)))%string
  = None.
Proof.
  intros Hk. unfold match_at. rewrite atoms_of_interleaved.
  rewrite match_here_lit, Ascii.eqb_refl, match_here_many.
  now rewrite (greedy_key_fails k R Hk).
Qed.

Lemma greedy_value (v : string) :
  plain v = true ->
  greedy (none_of ",:{[]}") (match_here [Cls (one_of ":,{[]}")])
    (v ++ String dquote (String "}" EmptyString))%string
  = Some ([(v ++ String dquote EmptyString)%string; String "}" EmptyString],
          EmptyString).
Proof.
  intros Hv. induction v as [|c v IH].
  - cbn [String.append]. apply greedy_step; [reflexivity|].
    now rewrite greedy_stop by reflexivity.
  - cbn [plain] in Hv. apply andb_prop in Hv. destruct Hv as [Hc Hv].
    destruct (plain_char c Hc) as (_ & _ & _ & _ & _ & _ & Hset & _).
    cbn [String.append]. apply greedy_step; [exact Hset | now apply IH].
Qed.

Lemma value_and_quote (v : string) :
  plain v = true ->
  match_here [Many1 (none_of ",:{[]}"); Cls (one_of ":,{[]}")]
    (v ++ String dquote (String "}" EmptyString))%string
  = Some ([(v ++ String dquote EmptyString)%string; String "}" EmptyString],
          EmptyString).
Proof.
  intros Hv. destruct v as [|c v].
  - reflexivity.
  - cbn [plain] in Hv. apply andb_prop in Hv. destruct Hv as [Hc Hv].
    destruct (plain_char c Hc) as (_ & _ & _ & _ & _ & _ & Hset & _).
    cbn [String.append]. rewrite match_here_many1, Hset.
    now rewrite (greedy_value v Hv).
Qed.

Lemma space_value_and_quote (v : string) :
  plain v = true ->
  exists a b,
    greedy is_space
      (match_here [Many1 (none_of ",:{[]}"); Cls (one_of ":,{[]}")])
      (v ++ String dquote (String "}" EmptyString))%string
    = Some ([a; b; String "}" EmptyString], EmptyString) /\
    (a ++ b)%string = (v ++ String dquote EmptyString)%string.
Proof.
  intros Hv. induction v as [|c v IH].
  - exists EmptyString, (String dquote EmptyString). split; reflexivity.
  - pose proof Hv as Hv'. cbn [plain] in Hv'. apply andb_prop in Hv'.
    destruct Hv' as [_ Hv'].
    destruct (is_space c) eqn:Hc.
    + destruct (IH Hv') as (a & b & Hg & Hab).
      exists (String c a), b. split.
      * cbn [String.append]. now apply greedy_step.
      * cbn [String.append]. now rewrite Hab.
    + exists EmptyString, (String c (v ++ String dquote EmptyString))%string.
      split; [|reflexivity].
      cbn [String.append]. rewrite greedy_stop by exact Hc.
      change (String c (v ++ String dquote (String "}" EmptyString)))%string
        with (String c v ++ String dquote (String "}" EmptyString))%string.
      now rewrite (value_and_quote (String c v) Hv).
Qed.

(** At the closing quote of the key the pattern matches to the end of the
    text: its first group is the colon between two quotes, its second
    the closing brace. *)
Lemma interleaved_at_the_colon (v : string) :
  plain v = true ->
  match_at re_interleaved
    (String dquote (String ":" (String dquote
       (v ++ String dquote (String "}" EmptyString)))))%string
  = Some {| whole := (String dquote (String ":" (String dquote
                        (v ++ String dquote (String "}" EmptyString)))))%string;
            captures := [String dquote (String ":" (String dquote EmptyString));
                         String "}" EmptyString];
            rest := EmptyString |}.
Proof.
  intros Hv. destruct (space_value_and_quote v Hv) as (a & b & Hg & Hab).
  unfold match_at. rewrite atoms_of_interleaved.
  rewrite match_here_lit, Ascii.eqb_refl, match_here_many.
  rewrite (greedy_step (none_of dq) _ ":" _ EmptyString EmptyString
             [String dquote EmptyString; a; b; String "}" EmptyString] eq_refl).
  - cbn [String.concat groups re_interleaved firstn skipn length String.append].
    f_equal. f_equal.
    rewrite <- append_assoc, Hab, append_assoc. reflexivity.
  - rewrite greedy_stop by reflexivity.
    rewrite match_here_lit, Ascii.eqb_refl, match_here_many. now rewrite Hg.
Qed.

Lemma interleaved_first (d : ascii) (r : string) :
  Ascii.eqb dquote d = false -> match_at re_interleaved (String d r) = None.
Proof.
  intros Hd. unfold match_at. rewrite atoms_of_interleaved.
  now rewrite match_here_lit, Hd.
Qed.

Lemma remove_interleaved_one_pair (k v : string) :
  plain k = true -> plain v = true ->
  remove_interleaved (one_pair k v) = one_pair_cut k.
Proof.
  intros Hk Hv. unfold remove_interleaved, replace_all, one_pair, one_pair_cut.
  rewrite (replace_from_no_match _ _ _ _ (interleaved_first "{" _ eq_refl)).
  rewrite (replace_from_no_match _ _ _ _ (interleaved_not_at_the_key k _ Hk)).
  rewrite (replace_from_copies re_interleaved [Ref 1; Ref 2] dquote
             interleaved_first k _
             (plain_lacks dquote k (fun c Hc => proj1 (plain_char c Hc)) Hk)).
  do 2 f_equal. f_equal.
  cbn [replace_from]. rewrite (interleaved_at_the_colon v Hv).
  cbn [whole captures expand map String.concat nth Nat.sub String.append
       String.length].
  f_equal.
  rewrite <- (append_empty_r (v ++ String dquote (String "}" EmptyString))%string) at 2.
  rewrite (replace_from_skips re_interleaved [Ref 1; Ref 2]).
  reflexivity.
Qed.

(** The two patterns for a missing value need a comma. *)
Lemma greedy_needs_comma (q : ascii -> bool) (r : list atom) (s : string) :
  lacks "," s = true ->
  greedy q (match_here (Lit dquote :: Lit "," :: r)) s = None.
Proof.
  induction s as [|d s IH]; [reflexivity|].
  intros H. pose proof H as H'. cbn [lacks] in H'. apply andb_prop in H'.
  destruct H' as [_ Hs].
  apply greedy_back; [now apply IH|].
  rewrite match_here_lit. destruct (Ascii.eqb dquote d); [|reflexivity].
  destruct s as [|e s]; [reflexivity|].
  cbn [lacks] in Hs. apply andb_prop in Hs. destruct Hs as [He _].
  apply negb_true_iff in He. now rewrite match_here_lit, He.
Qed.

Lemma missing_value_needs_comma (q : ascii -> bool) (r : list atom) (s : string) :
  lacks "," s = true ->
  match_here (Lit dquote :: Many1 q :: Lit dquote :: Lit "," :: r) s = None.
Proof.
  intros H. destruct s as [|d s]; [reflexivity|].
  cbn [lacks] in H. apply andb_prop in H. destruct H as [_ Hs].
  rewrite match_here_lit. destruct (Ascii.eqb dquote d); [|reflexivity].
  destruct s as [|e s]; [reflexivity|].
  cbn [lacks] in Hs. apply andb_prop in Hs. destruct Hs as [_ Hs].
  rewrite match_here_many1. destruct (q e); [|reflexivity].
  now rewrite (greedy_needs_comma q r s Hs).
Qed.

Lemma replace_from_nowhere (p : pattern) (tmpl : list piece) (s : string) :
  (forall t, lacks "," t = true -> match_at p t = None) ->
  lacks "," s = true ->
  replace_from p tmpl 0 s = s.
Proof.
  intros Hp. induction s as [|d s IH]; intros H.
  - cbn [replace_from]. now rewrite (Hp EmptyString eq_refl).
  - rewrite (replace_from_no_match _ _ _ _ (Hp _ H)).
    cbn [lacks] in H. apply andb_prop in H. destruct H as [_ Hs].
    now rewrite (IH Hs).
Qed.

Lemma patch_missing_values_without_comma (s : string) :
  lacks "," s = true -> patch_missing_values s = s.
Proof.
  intros H. unfold patch_missing_values, replace_all.
  rewrite (replace_from_nowhere re_missing_value_close tmpl_default_zero s); [|
    intros t Ht; unfold match_at;
    change (atoms_of re_missing_value_close)
      with [Lit dquote; Many1 (none_of dq); Lit dquote; Lit ",";
            Many is_space; Cls (one_of "},]")];
    now rewrite (missing_value_needs_comma _ _ t Ht) | exact H].
  apply replace_from_nowhere; [|exact H].
  intros t Ht. unfold match_at.
  change (atoms_of re_missing_value_key)
    with [Lit dquote; Many1 (none_of dq); Lit dquote; Lit ",";
          Many is_space; Lit dquote].
  now rewrite (missing_value_needs_comma _ _ t Ht).
Qed.

Lemma trailing_comma_first (d : ascii) (r : string) :
  Ascii.eqb "," d = false -> match_at re_trailing_comma (String d r) = None.
Proof.
  intros Hd. unfold match_at.
  change (atoms_of re_trailing_comma)
    with [Lit ","; Many is_space; Cls (one_of "}]")].
  now rewrite match_here_lit, Hd.
Qed.

Lemma strip_trailing_commas_without_comma (s : string) :
  lacks "," s = true -> strip_trailing_commas s = s.
Proof.
  intros H. unfold strip_trailing_commas, replace_all.
  exact (replace_from_copies_all re_trailing_comma [Ref 1] ","
           trailing_comma_first eq_refl s H).
Qed.

Lemma cleanup_one_pair (k v : string) :
  plain k = true -> plain v = true ->
  cleanup (one_pair k v) = one_pair_cut k.
Proof.
  intros Hk Hv.
  assert (Hcomma : forall s, plain s = true -> lacks "," s = true).
  { intros s. apply plain_lacks. intros c Hc. apply (plain_char c Hc). }
  assert (Htick : forall s, plain s = true -> lacks "`" s = true).
  { intros s. apply plain_lacks. intros c Hc. apply (plain_char c Hc). }
  assert (Hfence : strip_fences (one_pair k v) = one_pair k v).
  { assert (Hl : lacks "`" (one_pair k v) = true).
    { unfold one_pair. cbn [lacks]. rewrite lacks_app. cbn [lacks].
      rewrite lacks_app. cbn [lacks]. now rewrite (Htick k Hk), (Htick v Hv). }
    unfold strip_fences, replace_all.
    rewrite (replace_from_copies_all re_fence_open [] "`" fence_open_first eq_refl _ Hl).
    exact (replace_from_copies_all re_fence_close [] "`" fence_close_first eq_refl _ Hl). }
  assert (Hbraces : extract_braces (one_pair k v) = one_pair k v).
  { assert (Heq : one_pair k v
                  = (EmptyString ++ String "{"
                       (String dquote (k ++ String dquote (String ":" (String dquote
                          (v ++ String dquote EmptyString))))
                        ++ String "}" EmptyString))%string).
    { unfold one_pair. cbn [String.append]. rewrite append_assoc.
      cbn [String.append]. rewrite append_assoc. reflexivity. }
    unfold extract_braces. rewrite Heq.
    now rewrite (search_braces_found EmptyString _ EmptyString eq_refl eq_refl). }
  assert (Hcut : lacks "," (one_pair_cut k) = true).
  { unfold one_pair_cut. cbn [lacks]. rewrite lacks_app. cbn [lacks].
    now rewrite (Hcomma k Hk). }
  unfold cleanup, cleanup_before_trailing_commas.
  rewrite Hfence, Hbraces, (remove_interleaved_one_pair k v Hk Hv).
  rewrite (patch_missing_values_without_comma _ Hcut).
  exact (strip_trailing_commas_without_comma _ Hcut).
Qed.

(** A plain text is read up to the quote that closes it. *)
Lemma string_body_plain (k rest : string) :
  plain k = true ->
  forall fuel,
    String.length k < fuel ->
    JSON.string_body fuel (k ++ String dquote rest)%string = Some (k, rest).
Proof.
  intros Hk. induction k as [|c k IH]; intros [|fuel] Hfuel;
    try (simpl in Hfuel; lia).
  - reflexivity.
  - cbn [plain] in Hk. apply andb_prop in Hk. destruct Hk as [Hc Hk].
    destruct (plain_char c Hc) as (_ & _ & _ & _ & _ & _ & _ & H34 & H92 & H32).
    cbn [String.append JSON.string_body]. cbv zeta. rewrite H34, H92, H32.
    rewrite (IH Hk fuel); [reflexivity | simpl in Hfuel; lia].
Qed.

Lemma length_append (a b : string) :
  String.length (a ++ b)%string = String.length a + String.length b.
Proof. induction a as [|c a IH]; simpl; [reflexivity | now rewrite IH]. Qed.

Lemma parse_members_cut (k : string) (fuel : nat) :
  plain k = true ->
  JSON.parse_members fuel []
    (String dquote (k ++ String dquote (String ":" (String dquote
       (String "}" EmptyString)))))%string
  = None.
Proof.
  intros Hk. destruct fuel as [|fuel]; [reflexivity|].
  cbn [JSON.parse_members].
  change (nat_of_ascii dquote =? 34) with true. cbv iota.
  rewrite (string_body_plain k _ Hk); [|rewrite length_append; simpl; lia].
  destruct fuel as [|fuel]; reflexivity.
Qed.

Lemma parse_members_one_pair (k v : string) (fuel : nat) :
  plain k = true -> plain v = true ->
  JSON.parse_members (S (S fuel)) []
    (String dquote (k ++ String dquote (String ":" (String dquote
       (v ++ String dquote (String "}" EmptyString))))))%string
  = Some (VObj [(k, VStr v)], EmptyString).
Proof.
  intros Hk Hv. cbn [JSON.parse_members].
  change (nat_of_ascii dquote =? 34) with true. cbv iota.
  rewrite (string_body_plain k _ Hk); [|rewrite length_append; simpl; lia].
  change (JSON.skip_ws (String ":" (String dquote
            (v ++ String dquote (String "}" EmptyString)))))%string
    with (String ":" (String dquote
            (v ++ String dquote (String "}" EmptyString))))%string.
  cbv iota.
  change (JSON.skip_ws (String dquote (v ++ String dquote (String "}" EmptyString))))%string
    with (String dquote (v ++ String dquote (String "}" EmptyString)))%string.
  cbn [JSON.parse_value].
  change (nat_of_ascii dquote =? 123) with false.
  change (nat_of_ascii dquote =? 91) with false.
  change (nat_of_ascii dquote =? 34) with true.
  cbv iota zeta.
  rewrite (string_body_plain v _ Hv); [|rewrite length_append; simpl; lia].
  reflexivity.
Qed.

Lemma parse_value_at_a_key (fuel : nat) (r : string) :
  JSON.parse_value (S fuel) (String "{" (String dquote r))
  = JSON.parse_members fuel [] (String dquote r).
Proof. reflexivity. Qed.

Lemma parse_one_pair_cut (k : string) :
  plain k = true -> JSON_parse (one_pair_cut k) = Thrown SyntaxError.
Proof.
  intros Hk. unfold JSON_parse, JSON.parse, one_pair_cut.
  change (JSON.skip_ws
            (String "{" (String dquote (k ++ String dquote (String ":" (String dquote
               (String "}" EmptyString)))))))%string
    with (String "{" (String dquote (k ++ String dquote (String ":" (String dquote
            (String "}" EmptyString))))))%string.
  rewrite parse_value_at_a_key.
  now rewrite (parse_members_cut k _ Hk).
Qed.

Lemma parse_one_pair (k v : string) :
  plain k = true -> plain v = true ->
  JSON_parse (one_pair k v) = Returned (VObj [(k, VStr v)]).
Proof.
  intros Hk Hv. unfold JSON_parse, JSON.parse, one_pair.
  change (JSON.skip_ws
            (String "{" (String dquote (k ++ String dquote (String ":" (String dquote
               (v ++ String dquote (String "}" EmptyString))))))))%string
    with (String "{" (String dquote (k ++ String dquote (String ":" (String dquote
            (v ++ String dquote (String "}" EmptyString)))))))%string.
  rewrite parse_value_at_a_key.
  change (2 * String.length
                (String "{" (String dquote (k ++ String dquote (String ":"
                   (String dquote (v ++ String dquote (String "}" EmptyString))))))))%string
    with (S (S (String.length
                  (k ++ String dquote (String ":"
                     (String dquote (v ++ String dquote (String "}" EmptyString)))))
                + S (S (String.length
                  (k ++ String dquote (String ":"
                     (String dquote (v ++ String dquote (String "}" EmptyString)))))
                  + 0)))))%string.
  now rewrite (parse_members_one_pair k v _ Hk Hv).
Qed.

(** X16. The cleanup of processGeminiResponse spoils every object of one
    property whose value is a text, key and value being plain (no control
    character, quote, backslash, comma, colon, brace, bracket or
    backtick): the reply is JSON, the cleanup removes the value and its
    closing quote, what is left is no JSON, and when the validation call
    gives nothing that parses, processGeminiResponse returns null for the
    reply. *)
Theorem cleanup_loses_a_text_value (k v : string) :
  plain k = true ->
  plain v = true ->
  JSON_parse (one_pair k v) = Returned (VObj [(k, VStr v)]) /\
  cleanup (one_pair k v) = one_pair_cut k /\
  JSON_parse (cleanup (one_pair k v)) = Thrown SyntaxError /\
  (forall model n e,
     second_pass model n = Thrown e ->
     processGeminiResponse model (one_pair k v) n = (Returned VNull, S n)).
Proof.
  intros Hk Hv.
  assert (Hcut : JSON_parse (cleanup (one_pair k v)) = Thrown SyntaxError).
  { rewrite (cleanup_one_pair k v Hk Hv). now apply parse_one_pair_cut. }
  split; [now apply parse_one_pair|]. split; [now apply cleanup_one_pair|].
  split; [exact Hcut|].
  intros model n e Hpass. rewrite processGeminiResponse_closed, Hpass.
  now rewrite Hcut.
Qed.

Lemma cleanup_loses_a_text_value_witness :
  JSON_parse (quoted "{'mealDescription':'rice bowl'}")
  = Returned (VObj [("mealDescription", VStr "rice bowl")]) /\
  cleanup (quoted "{'mealDescription':'rice bowl'}")
  = quoted "{'mealDescription':'}" /\
  JSON_parse (cleanup (quoted "{'mealDescription':'rice bowl'}"))
  = Thrown SyntaxError /\
  (forall model n e,
     second_pass model n = Thrown e ->
     processGeminiResponse model (quoted "{'mealDescription':'rice bowl'}") n
     = (Returned VNull, S n)).
Proof.
  apply (cleanup_loses_a_text_value "mealDescription" "rice bowl"); reflexivity.
Defined.

(* ===================================================================== *)
(** * From the samples to the result *)
(* ===================================================================== *)

Section After_the_sampling.

Variable ToString_other : value -> outcome string.
Variable gt_other : value -> value -> outcome bool.
Variable apiKey : option string.
Variable model : nat -> option string.

(** X17. With a key, an image the gate lets through and the samples of the
    loop: a single sample is the result of getCalorieBreakdown as it is,
    with no note and no further call; two or more samples go to the
    model-assisted merge, whose outcome is the outcome of the run. *)
Theorem getCalorieBreakdown_after_the_sampling
  (imageDataBase64 mimeType mealContext : string) (n n1 : nat)
  (results : list value) :
  key_missing apiKey = false ->
  fst (validateFoodImage model imageDataBase64 mimeType n) = Returned true ->
  sampling_loop model NUM_ANALYSES [] (S n) = (Returned results, n1) ->
  (forall r, results = [r] ->
     getCalorieBreakdown ToString_other gt_other apiKey model
       imageDataBase64 mimeType mealContext n = (Returned r, n1)) /\
  (2 <= length results ->
     getCalorieBreakdown ToString_other gt_other apiKey model
       imageDataBase64 mimeType mealContext n
     = findConsensusResultWithModel ToString_other gt_other model results n1).
Proof.
  intros Hkey Hgate Hloop.
  unfold getCalorieBreakdown, breakdown_body, bind, try_catch.
  rewrite Hkey. rewrite validateFoodImage_calls in Hgate |- *.
  cbn [fst] in Hgate. injection Hgate as Hfood.
  cbv beta iota. rewrite Hfood.
  change (negb true) with false. cbv beta iota. rewrite Hloop.
  split.
  - intros r ->. reflexivity.
  - intros Hlen. destruct results as [|a [|b rest]]; try (simpl in Hlen; lia).
    cbn [length Nat.eqb]. cbv beta iota delta [ret settle].
    unfold findConsensusResult. cbn [length Nat.eqb]. now rewrite Hkey.
Qed.

End After_the_sampling.

Lemma getCalorieBreakdown_after_the_sampling_witness :
  (forall r,
     [VObj [("totalEstimatedCalories", VNum 5)]] = [r] ->
     getCalorieBreakdown no_ToString no_gt (Some "key")
       Samples.one_sample_without_items "image" "image/png" "lunch" 0
     = (Returned r, 7)) /\
  (2 <= length [VObj [("totalEstimatedCalories", VNum 5)]] ->
     getCalorieBreakdown no_ToString no_gt (Some "key")
       Samples.one_sample_without_items "image" "image/png" "lunch" 0
     = findConsensusResultWithModel no_ToString no_gt
         Samples.one_sample_without_items
         [VObj [("totalEstimatedCalories", VNum 5)]] 7).
Proof.
  apply (getCalorieBreakdown_after_the_sampling
           no_ToString no_gt (Some "key") Samples.one_sample_without_items
           "image" "image/png" "lunch" 0 7
           [VObj [("totalEstimatedCalories", VNum 5)]]).
  - reflexivity.
  - reflexivity.
  - vm_compute. reflexivity.
Defined.
